(* ===== verification/_CoqProject ===== *)
-Q . S2P
Prelude.v
Int64.v
AstValue.v
ValueDomain.v
Data.v
Literal.v
Evaluated.v
Compare.v
Arithmetic.v
Ownership.v
Coherence.v
Text.v
Expr.v
Typing.v
Scenarios.v
