(* ===== verification/Prelude.v ===== *)
(** * Evaluated values of the SQL expression evaluator: a verification library

    The program is [src/src/executor/evaluate/evaluated.rs]: the value algebra
    an expression evaluator uses once its sub-results exist.  An [Evaluated]
    is one of five representations (a borrowed or owned SQL literal, a
    borrowed string slice, a borrowed or owned typed value); the file defines
    equality ([PartialEq::eq]), a partial order ([PartialOrd::partial_cmp])
    and the four arithmetic operators over them, plus five private helpers on
    literals ([literal_partial_cmp], [literal_add], [literal_subtract],
    [literal_multiply], [literal_divide]).

    ** Files, in dependency order

    - [Prelude] (this file): the result type [outcome] with its monad
      instances and inversion lemmas, [Ordering] with [reverse], the
      development's tactics and the hint database [evaluated].
    - [Int64]: Rust's [i64] as [Z] with its range written out: wrap-around,
      the four operators under a build profile, [str::parse::<i64>] and
      [i64::to_string], and the round trip between the last two.
    - [AstValue]: the literal node of the SQL parser (the [sqlparser] crate),
      its derived equality and the two views the evaluator uses of it.
    - [ValueDomain]: the interface the evaluator expects of the typed value
      domain ([crate::data::Value]), as a class of operations and a class of
      laws.  Every theorem on [Evaluated] is proved against this interface.
    - [Data]: a sample instance of the interface (integers, text,
      booleans, null) that discharges the laws and on which the theorems
      are applied to concrete operands.  It is not a model of
      [crate::data].
    - [Literal]: [literal_partial_cmp] and the four [literal_*] arithmetic
      helpers (lines 118-127 and 251-289 of the source).
    - [Evaluated]: the [Evaluated] type, [eq] and [partial_cmp]
      (lines 11-116), and the rules of the specification for the two
      ([eq_spec], [partial_cmp_spec]: what an operand holds without its
      ownership, and the rules on the three domains).
    - [Compare]: the operators [!=], [<], [<=], [>], [>=], that is the
      methods [ne], [lt], [le], [gt], [ge] the traits [PartialEq] and
      [PartialOrd] provide on top of [eq] and [partial_cmp].
    - [Arithmetic]: [add], [subtract], [multiply], [divide] with the closures
      each one builds (lines 130-248), the uniform dispatch scheme they
      implement, and the refinement theorems.
    - [Ownership]: the equivalence "same data, borrowed or owned" on
      operands, with the operators as morphisms ([Proper] instances) so
      that an operand can be exchanged for an equivalent one by rewriting.
    - [Coherence]: the integer an operand denotes whatever its
      representation, the class [IntegerDomain] of what the typed domain
      must satisfy for that, and the theorems that the operators, the order
      and the equality compute on the denoted integers.
    - [Text]: the text an operand denotes whatever its representation,
      and how far [eq] and [partial_cmp] are the equality and the order of
      the denoted texts.
    - [Expr]: the evaluator of the specification (section 2, control
      flow): expression trees over literals, text and columns, [eval] that
      combines the results of the operands of a node with an operator of
      [Arithmetic], and [check] that compares the results of two
      expressions with an operator of [Compare].  The evaluator is not in
      the repository; these definitions follow the specification.
    - [Typing]: a typing judgment for expressions (integer or text), its
      checker, and what a well-typed expression cannot do.
    - [Scenarios]: the end-to-end evaluations the specification lists, run on
      the sample instance, a typed domain whose addition is
      concatenation, and one with a value that is not equal to itself.

    ** How the model corresponds to the code

    - A Rust function that can return, return [Err] or [panic!()] is a
      function into [outcome E A] with the constructors [Ok], [Err] and
      [Panic].  [eq] and [partial_cmp] have no error value: their error type
      is [Empty_set], so that "never returns an error" holds by typing.
      [?] is the monadic bind [x ← m; k] and [.map(f)] is [f <$> m].
    - A borrow [&'a T] and an owned [T] carry the same data; the five
      constructors of [Evaluated] keep the ownership mode apart, since the
      code branches on it.  A reference is modelled by the data it points
      to: the source reads its operands and writes nothing, so that no
      operation can tell a reference from a copy of its referent.
    - [i64] is [Z] restricted to [-2^63, 2^63).  Overflow of [+], [-], [*]
      panics when the build has overflow checks (Rust's debug profile) and
      wraps otherwise (release); division by zero and [i64::MIN / -1] panic
      in both.  The profile is a parameter of every definition that does
      arithmetic on literals.
    - Strings are [string] (sequences of bytes); Rust's [str] ordering is the
      lexicographic order on bytes, here [String.compare].
    - Closures of the source ([eq_ast], [eq_val], [unreachable],
      [add_literal], [add_value], ...) are definitions of the same name.
    - A comparison operator of Rust on two [Evaluated] is a call of the
      provided method ([a < b] is [lt a b]), whose body in the standard
      library tests the result of [partial_cmp]; it panics where
      [partial_cmp] does.
    - The typed domain is not under [src/].  Its methods have the type
      the class [ValueDomain] gives them, which fixes three things the
      source leaves to [crate::data]:
        - an arithmetic method and [clone_by] return into [outcome VE V],
          with an error type [VE] of the domain's own, and [into] embeds
          [VE] in the error type of the crate ([AstValue.into]).  In the source
          these methods return the crate's [Result], and their result is
          passed on as it is (lines 138-139, 144-147 and the like).  So the
          model assumes that the typed domain does not itself return one of
          the two [EvaluateError] values of [evaluated.rs]; the "only if"
          of [Arithmetic.arith_unreachable_iff] and
          [Typing.type_soundness] hold under that assumption;
        - equality and order of the domain are total functions ([bool],
          [option Ordering]): a comparison of the typed domain (lines
          38-39, 80-81, 86-88 and the like) is assumed not to panic, and
          the theorems that say where [eq] and [partial_cmp] panic count the
          [panic!()] of [evaluated.rs] only;
        - an arithmetic method may panic (it returns an [outcome]), but it
          takes no build profile: an instance stands for the domain as
          compiled in one build.

    ** What the theorems show

    - [Int64]: [parse_i64], with its checked step per digit, returns the
      integer the numeral denotes exactly when that integer is an [i64]
      ([parse_i64_spec]) and inverts [i64_to_string]
      ([parse_i64_to_string]); the operators stay in range, return every
      representable result ([checked_op_binop]) and, with overflow checks,
      nothing else ([binop_Debug_checked]).
    - [Literal]: the value of each helper on every branch (result, error,
      panic); the well-formedness invariant "a numeric literal whose text
      parses" is preserved, so results can be fed back; addition and
      multiplication commute, subtraction undoes addition; the order of
      literals is antisymmetric and transitive and compares numerals by
      value.
    - [Evaluated]: [eq] and [partial_cmp] implement the rules of the
      specification on what the operands hold, but for the pairs with an
      owned literal, which are listed; [eq] is symmetric and
      [partial_cmp] antisymmetric as outcomes (panics included); which
      pairs panic; where [eq] and [partial_cmp] disagree; a typed value
      is compared with a literal as with the literal converted to its
      type.
    - [Compare]: [<] and [>], [<=] and [>=] are dual; the four are
      consistent with one another on every answer of [partial_cmp]; each
      panics exactly when an operand is an owned literal.
    - [Arithmetic]: each operator implements the dispatch scheme of the
      specification (for [add] up to the order of the operands given to the
      typed domain); results are always owned; the internal-invariant error
      is returned exactly for a string operand; ownership of the operands
      never changes the result.
    - [Ownership]: the operators respect the equivalence without
      exception; [eq] and [partial_cmp] respect it on typed values and not
      on literals.
    - [Coherence]: on operands that denote integers the result of an
      operator, of [partial_cmp] and (one operand typed) of [eq] depends on
      the integers only, not on the representations; the representations
      part on the failure mode of an inexact operation, on the equality of
      two numerals, and on transitivity.
    - [Text]: on operands that denote texts [eq] and [partial_cmp] are
      the equality and the order of the texts on every pair of
      representations that does not panic, but two: an owned literal is
      never equal to a string slice and a borrowed literal is never
      comparable with one.
    - [Expr]: the representation of the result of every node is fixed by
      the shape of the expression (leaves borrowed, nodes owned, typed as
      soon as a column occurs); an expression without a column is computed
      by the literal helpers alone; evaluation returns the exact integer
      value of the expression when every intermediate result is an [i64],
      and with overflow checks nothing else; a condition on integer
      expressions is answered by the comparison of the values; which
      conditions panic, by the shapes of the two expressions (an order
      operator on the result of an operator on literals does); without
      overflow checks an expression of literals over [+], [-], [*]
      evaluates to its value in the ring of integers wrapped to 64 bits.
    - [Typing]: the checker decides the judgment; a well-typed integer
      expression never raises an invariant error of the evaluator (it
      returns an integer, or stops on an arithmetic fault); a comparison
      of two texts always returns, with the comparison of the texts unless
      a quoted literal meets a string slice.

    ** Bounds

    No definition takes fuel: [evaluated.rs] has no loop and no recursion
    (each function is one [match]), and the recursions of the model are
    structural, on the text of a numeral ([Int64.parse_i64]) and on the
    expression tree ([Expr.eval]).  Every function of the model is total,
    so a theorem that gives the outcome of a call also says that the call
    ends; there is no separate termination theorem.  Integers are
    unbounded [Z] with the 64-bit range checked where the code's
    arithmetic is 64-bit.

    ** Not modelled

    Every arm of every function of [evaluated.rs] is modelled; what is
    left of the file is its imports.  The rest of the system is not in
    the repository, and is modelled as far as the specification describes
    it:

    - the literal kinds of [sqlparser] other than the six of
      [AstValue.AstValue] (dates, intervals): the code treats them like
      any non-numeric, non-string literal;
    - the typed domain [crate::data::Value]: the theorems hold for every
      instance of the interface.  Floating-point arithmetic is admitted
      by the interface (no law requires a reflexive equality, and
      [Scenarios] has an instance with a not-a-number), but rounding is
      not modelled;
    - the lifetime ['a] of the borrows and the borrow checker: that the
      referent of a [LiteralRef], [StringRef] or [ValueRef] is alive and
      unchanged while the value is used is what the compiler enforces;
      the model has the referent's data in the place of the reference.
      What the development says of ownership is which results are owned
      ([Arithmetic.arith_result_owned], [Expr.eval_representation]) and
      that ownership does not change an outcome
      ([Ownership.ownership_irrelevant]);
    - the order in which the evaluator visits an expression, as a
      sequence of calls: the specification (section 2) gives the
      composition of the operations, which [Expr.eval] follows, and no
      scheduling;
    - the parts of the evaluator the specification does not describe:
      logical connectives, functions, aggregates, the planner that
      chooses the expressions and the storage that fetches the rows;
    - concurrency: the code is sequential and shares nothing mutable. *)

From Stdlib Require Import ZArith Lia String Ascii.
From stdpp Require Import base tactics option.

(** ** Outcomes of a Rust call *)

Inductive outcome (E A : Type) : Type :=
| Ok (a : A)
| Err (e : E)
| Panic.

Arguments Ok {E A} a.
Arguments Err {E A} e.
Arguments Panic {E A}.

#[export] Instance outcome_ret {E} : MRet (outcome E) := λ A a, Ok a.

#[export] Instance outcome_bind {E} : MBind (outcome E) :=
  λ A B f m, match m with Ok a => f a | Err e => Err e | Panic => Panic end.

#[export] Instance outcome_fmap {E} : FMap (outcome E) :=
  λ A B f m, match m with Ok a => Ok (f a) | Err e => Err e | Panic => Panic end.

#[export] Instance outcome_throw {E} : MThrow E (outcome E) := λ A e, Err e.

#[export] Instance outcome_eq_dec {E A} `{EqDecision E, EqDecision A} :
  EqDecision (outcome E A).
Proof. solve_decision. Defined.

(** [Result::map_err], and the [.into()] that widens an error type. *)
Definition map_err {E E' A} (f : E → E') (m : outcome E A) : outcome E' A :=
  match m with Ok a => Ok a | Err e => Err (f e) | Panic => Panic end.

Definition is_Ok {E A} (m : outcome E A) : bool :=
  match m with Ok _ => true | _ => false end.

Definition is_Panic {E A} (m : outcome E A) : bool :=
  match m with Panic => true | _ => false end.

(** ** [std::cmp::Ordering] *)

Abbreviation Ordering := comparison.
Abbreviation Less := Lt.
Abbreviation Equal := Eq.
Abbreviation Greater := Gt.

(** [Ordering::reverse] *)
Definition reverse (o : Ordering) : Ordering := CompOpp o.

(** [str::cmp]: lexicographic on bytes. *)
Definition str_cmp (l r : string) : Ordering := String.compare l r.

(** ** Automation *)

Create HintDb evaluated discriminated.
Create Rewrite HintDb evaluated.

(** Unfolds the monad operations of [outcome] and [option] in the goal and
    in the hypotheses. *)
Ltac outcome_unfold :=
  unfold mbind, fmap, mret, mthrow, outcome_bind, outcome_fmap, outcome_ret,
    outcome_throw, option_bind, option_fmap, option_map, map_err in *.

(** Case analysis on every outcome or option that is scrutinised. *)
Ltac outcome_cases :=
  outcome_unfold; repeat case_match; simplify_eq/=; try done.

(** Closes an inversion lemma on an outcome [m] by cases on [m]. *)
Ltac outcome_inv m :=
  destruct m; cbn; split; intros;
  repeat match goal with
    | H : _ ∨ _ |- _ => destruct H
    | H : ∃ _, _ |- _ => destruct H
    | H : _ ∧ _ |- _ => destruct H
    end;
  simplify_eq/=; eauto.

(** ** Lemmas on outcomes *)

Section outcome_lemmas.
Context {E A B : Type}.
Implicit Types (m : outcome E A) (f : A → B) (k : A → outcome E B).

Lemma bind_Ok a k : (Ok a ≫= k) = k a.
Proof. done. Qed.

Lemma bind_Err e k : (Err e ≫= k) = Err e.
Proof. done. Qed.

Lemma bind_Panic k : (Panic ≫= k) = Panic.
Proof. done. Qed.

Lemma fmap_Ok a f : f <$> (Ok a : outcome E A) = Ok (f a).
Proof. done. Qed.

Lemma fmap_Err e f : f <$> (Err e : outcome E A) = Err e.
Proof. done. Qed.

Lemma fmap_Panic f : f <$> (Panic : outcome E A) = Panic.
Proof. done. Qed.

Lemma fmap_Ok_inv m f b :
  f <$> m = Ok b ↔ ∃ a, m = Ok a ∧ b = f a.
Proof. outcome_inv m. Qed.

Lemma fmap_Err_iff m f e : f <$> m = Err e ↔ m = Err e.
Proof. outcome_inv m. Qed.

Lemma fmap_Panic_iff m f : f <$> m = Panic ↔ m = Panic.
Proof. outcome_inv m. Qed.

Lemma fmap_Err_inv m f e : f <$> m = Err e → m = Err e.
Proof. apply fmap_Err_iff. Qed.

Lemma fmap_Panic_inv m f : f <$> m = Panic → m = Panic.
Proof. apply fmap_Panic_iff. Qed.

Lemma bind_Ok_inv m k b :
  (m ≫= k) = Ok b ↔ ∃ a, m = Ok a ∧ k a = Ok b.
Proof. outcome_inv m. Qed.

Lemma bind_Panic_inv m k :
  (m ≫= k) = Panic ↔ m = Panic ∨ ∃ a, m = Ok a ∧ k a = Panic.
Proof. outcome_inv m. Qed.

Lemma bind_Err_inv m k e :
  (m ≫= k) = Err e ↔ m = Err e ∨ ∃ a, m = Ok a ∧ k a = Err e.
Proof. outcome_inv m. Qed.

Lemma bind_fmap m f : (m ≫= λ a, Ok (f a)) = f <$> m.
Proof. by destruct m. Qed.

Lemma bind_ext m k k' : (∀ a, k a = k' a) → (m ≫= k) = (m ≫= k').
Proof. intros H. destruct m; simpl; auto. Qed.

Lemma is_Ok_true m : is_Ok m = true ↔ ∃ a, m = Ok a.
Proof. outcome_inv m. Qed.

Lemma is_Panic_true m : is_Panic m = true ↔ m = Panic.
Proof. outcome_inv m. Qed.

End outcome_lemmas.

Section map_err_lemmas.
Context {E E' A B : Type}.
Implicit Types (m : outcome E A) (g : E → E').

Lemma map_err_Ok_iff m g a : map_err g m = Ok a ↔ m = Ok a.
Proof. outcome_inv m. Qed.

Lemma map_err_Panic_iff m g : map_err g m = Panic ↔ m = Panic.
Proof. outcome_inv m. Qed.

Lemma map_err_Err_inv m g e' :
  map_err g m = Err e' ↔ ∃ e, m = Err e ∧ e' = g e.
Proof. outcome_inv m. Qed.

Lemma map_err_fmap m g (f : A → B) :
  map_err g (f <$> m) = f <$> map_err g m.
Proof. by destruct m. Qed.

End map_err_lemmas.

#[export] Hint Rewrite @bind_Ok @bind_Err @bind_Panic
  @fmap_Ok @fmap_Err @fmap_Panic : evaluated.

(** ** Lemmas on orderings *)

Lemma reverse_involutive o : reverse (reverse o) = o.
Proof. by destruct o. Qed.

Lemma reverse_Equal o : reverse o = Equal ↔ o = Equal.
Proof. by destruct o. Qed.

Lemma reverse_Less o : reverse o = Less ↔ o = Greater.
Proof. by destruct o. Qed.

Lemma reverse_Greater o : reverse o = Greater ↔ o = Less.
Proof. by destruct o. Qed.

Lemma fmap_reverse_involutive (o : option Ordering) :
  reverse <$> (reverse <$> o) = o.
Proof. destruct o as [[]|]; done. Qed.

Lemma Z_compare_reverse (a b : Z) : (a ?= b)%Z = reverse (b ?= a)%Z.
Proof. apply Z.compare_antisym. Qed.

Lemma str_cmp_reverse l r : str_cmp l r = reverse (str_cmp r l).
Proof. apply String.compare_antisym. Qed.

Lemma str_cmp_refl s : str_cmp s s = Equal.
Proof.
  pose proof (str_cmp_reverse s s) as H. by destruct (str_cmp s s).
Qed.

Lemma str_cmp_Equal l r : str_cmp l r = Equal ↔ l = r.
Proof.
  split; [apply String.compare_eq_iff|]. intros ->. apply str_cmp_refl.
Qed.

Lemma Z_compare_trans o (x y z : Z) :
  (x ?= y)%Z = o → (y ?= z)%Z = o → (x ?= z)%Z = o.
Proof.
  intros <-. destruct (Z.compare_spec x y) as [->|Hxy|Hxy];
    rewrite ?Z.compare_lt_iff, ?Z.compare_gt_iff; [done|lia..].
Qed.

Lemma ascii_compare_trans o (a b c : ascii) :
  Ascii.compare a b = o → Ascii.compare b c = o → Ascii.compare a c = o.
Proof. unfold Ascii.compare. rewrite <-!N2Z.inj_compare. apply Z_compare_trans. Qed.

Lemma ascii_compare_Eq_l (a b c : ascii) :
  Ascii.compare a b = Eq → Ascii.compare a c = Ascii.compare b c.
Proof. by intros ->%Ascii.compare_eq_iff. Qed.

Lemma ascii_compare_Eq_r (a b c : ascii) :
  Ascii.compare b c = Eq → Ascii.compare a c = Ascii.compare a b.
Proof. by intros ->%Ascii.compare_eq_iff. Qed.

Lemma str_cmp_trans o (s1 s2 s3 : string) :
  str_cmp s1 s2 = o → str_cmp s2 s3 = o → str_cmp s1 s3 = o.
Proof.
  unfold str_cmp. revert s2 s3.
  induction s1 as [|c1 s1 IH]; intros [|c2 s2] [|c3 s3]; simpl;
    try congruence.
  destruct (Ascii.compare c1 c2) eqn:H12, (Ascii.compare c2 c3) eqn:H23;
    try congruence;
    first [ rewrite (ascii_compare_Eq_l _ _ _ H12), H23
          | rewrite (ascii_compare_Eq_r _ _ _ H23), H12
          | rewrite (ascii_compare_trans _ _ _ _ H12 H23) ];
    eauto.
Qed.

Lemma str_eqb_sym (l r : string) : String.eqb l r = String.eqb r l.
Proof. apply String.eqb_sym. Qed.

#[export] Hint Rewrite reverse_involutive fmap_reverse_involutive : evaluated.
#[export] Hint Resolve Z_compare_reverse str_cmp_reverse str_eqb_sym : evaluated.
