(* ===== verification/Int64.v ===== *)
(** * Int64: Rust's [i64] as the source uses it

    The literal helpers of [evaluated.rs] call [str::parse::<i64>], apply
    [+], [-], [*] or [/] to two [i64] and print the result with
    [to_string].  None of that code is in the repository: it is modelled
    here from the documented behaviour of the Rust standard library.

    - An [i64] is a [Z] with [in_i64].
    - [+], [-] and [*] that leave the range panic in a build with overflow
      checks and wrap otherwise ([overflowing]); [/] panics on a zero
      divisor and on [i64::MIN / -1] whatever the build ([i64_div]).
    - [parse_i64] is the loop of [from_str_radix] at radix 10: an optional
      sign, at least one digit, a checked multiplication and a checked
      addition (or subtraction) per digit.
    - [i64_to_string] prints the decimal numeral with no leading zero.
    - [numeral_value] reads the same grammar without any bound and
      [checked_op] is the exact result of an operator when it is an [i64]:
      the two references the parser and the machine operators are proved
      against. *)

From Stdlib Require Import ZArith Lia String Ascii.
From Stdlib Require Import DecimalString DecimalZ DecimalPos DecimalFacts.
From stdpp Require Import base tactics option numbers.
From S2P Require Import Prelude.

#[local] Open Scope Z_scope.

(** ** The range *)

Definition i64_min : Z := - 2 ^ 63.
Definition i64_max : Z := 2 ^ 63 - 1.

Definition in_i64 (z : Z) : bool := (i64_min <=? z) && (z <=? i64_max).

(** Two's complement wrap-around to 64 bits. *)
Definition wrap_i64 (z : Z) : Z := (z + 2 ^ 63) mod 2 ^ 64 - 2 ^ 63.

(** An integer if it is an [i64]. *)
Definition narrow (z : Z) : option Z := if in_i64 z then Some z else None.

(** ** The operators *)

(** The build profile decides whether arithmetic overflow is checked. *)
Inductive profile := Debug | Release.

Definition overflow_checks (p : profile) : bool :=
  match p with Debug => true | Release => false end.

Inductive binop := Add | Sub | Mul | Div.

#[export] Instance profile_eq_dec : EqDecision profile.
Proof. solve_decision. Defined.

#[export] Instance binop_eq_dec : EqDecision binop.
Proof. solve_decision. Defined.

(** The exact result [z] of [+], [-] or [*], as the machine delivers it. *)
Definition overflowing {E} (p : profile) (z : Z) : outcome E Z :=
  if in_i64 z then Ok z
  else if overflow_checks p then Panic
  else Ok (wrap_i64 z).

(** [a / b]: truncation toward zero. *)
Definition i64_div {E} (a b : Z) : outcome E Z :=
  if b =? 0 then Panic
  else if (a =? i64_min) && (b =? -1) then Panic
  else Ok (a ÷ b).

Definition i64_binop {E} (p : profile) (op : binop) (a b : Z) : outcome E Z :=
  match op with
  | Add => overflowing p (a + b)
  | Sub => overflowing p (a - b)
  | Mul => overflowing p (a * b)
  | Div => i64_div a b
  end.

(** The exact result of an operator when it is an [i64]: what
    [checked_add], [checked_sub], [checked_mul] and [checked_div] return,
    and the reference the machine operators are compared with. *)
Definition checked_op (op : binop) (a b : Z) : option Z :=
  match op with
  | Add => narrow (a + b)
  | Sub => narrow (a - b)
  | Mul => narrow (a * b)
  | Div => if b =? 0 then None else narrow (a ÷ b)
  end.

(** Reference: the operator of the ring of integers, for the three
    operators that are compatible with wrap-around. *)
Definition ring_op (op : binop) (a b : Z) : option Z :=
  match op with
  | Add => Some (a + b)
  | Sub => Some (a - b)
  | Mul => Some (a * b)
  | Div => None
  end.

(** ** Parsing *)

(** [char::to_digit(10)]: the value of an ASCII digit, by its code. *)
Definition digit_of_ascii (c : ascii) : option Z :=
  let n := Z.of_N (N_of_ascii c) in
  if (48 <=? n) && (n <=? 57) then Some (n - 48) else None.

(** One round of the loop: [checked_mul(10)] then [checked_add] (or
    [checked_sub] for a negative numeral). *)
Definition parse_step (positive : bool) (acc d : Z) : option Z :=
  let m := acc * 10 in
  if in_i64 m then
    let r := if positive then m + d else m - d in
    if in_i64 r then Some r else None
  else None.

Fixpoint parse_digits (positive : bool) (s : string) (acc : Z) : option Z :=
  match s with
  | EmptyString => Some acc
  | String c s' =>
      d ← digit_of_ascii c;
      r ← parse_step positive acc d;
      parse_digits positive s' r
  end.

Definition nonempty (s : string) : bool :=
  match s with EmptyString => false | String _ _ => true end.

(** [s.parse::<i64>()], [None] for every [ParseIntError]. *)
Definition parse_i64 (s : string) : option Z :=
  match s with
  | EmptyString => None
  | String c s' =>
      if Ascii.eqb c "+" then
        if nonempty s' then parse_digits true s' 0 else None
      else if Ascii.eqb c "-" then
        if nonempty s' then parse_digits false s' 0 else None
      else parse_digits true s 0
  end.

(** ** Printing *)

(** [z.to_string()] *)
Definition i64_to_string (z : Z) : string :=
  NilZero.string_of_int (Z.to_int z).

(** ** The value of a numeral (specification of the parser's loop) *)

Definition digit_step (positive : bool) (acc d : Z) : Z :=
  if positive then acc * 10 + d else acc * 10 - d.

#[local] Arguments digit_step : simpl never.

(** The digits of [d], most significant first, pushed onto [acc]; for a
    negative numeral the digits are subtracted, as the parser does, so that
    [i64::MIN] is reached without passing through its opposite. *)
Fixpoint uint_val (positive : bool) (d : Decimal.uint) (acc : Z) : Z :=
  match d with
  | Decimal.Nil => acc
  | Decimal.D0 d => uint_val positive d (digit_step positive acc 0)
  | Decimal.D1 d => uint_val positive d (digit_step positive acc 1)
  | Decimal.D2 d => uint_val positive d (digit_step positive acc 2)
  | Decimal.D3 d => uint_val positive d (digit_step positive acc 3)
  | Decimal.D4 d => uint_val positive d (digit_step positive acc 4)
  | Decimal.D5 d => uint_val positive d (digit_step positive acc 5)
  | Decimal.D6 d => uint_val positive d (digit_step positive acc 6)
  | Decimal.D7 d => uint_val positive d (digit_step positive acc 7)
  | Decimal.D8 d => uint_val positive d (digit_step positive acc 8)
  | Decimal.D9 d => uint_val positive d (digit_step positive acc 9)
  end.

(** ** The integer a numeral denotes (specification of [parse_i64])

    The same grammar read without any bound: an optional sign and at least
    one digit, leading zeros allowed.  [parse_i64] is this value when it is
    in range. *)

Fixpoint digits_value (s : string) (acc : Z) : option Z :=
  match s with
  | EmptyString => Some acc
  | String c s' => d ← digit_of_ascii c; digits_value s' (acc * 10 + d)
  end.

Definition numeral_value (s : string) : option Z :=
  match s with
  | EmptyString => None
  | String c s' =>
      if Ascii.eqb c "+" then
        if nonempty s' then digits_value s' 0 else None
      else if Ascii.eqb c "-" then
        if nonempty s' then Z.opp <$> digits_value s' 0 else None
      else digits_value s 0
  end.

(** ** The range and the operators *)

Lemma in_i64_spec z : in_i64 z = true ↔ i64_min ≤ z ≤ i64_max.
Proof. unfold in_i64. rewrite andb_true_iff, !Z.leb_le. done. Qed.

Lemma in_i64_false z : in_i64 z = false ↔ z < i64_min ∨ i64_max < z.
Proof.
  unfold in_i64. rewrite andb_false_iff, !Z.leb_gt. done.
Qed.

(** Brings every range test of the context to linear arithmetic. *)
Ltac i64_range :=
  repeat match goal with
    | H : in_i64 _ = true |- _ => apply in_i64_spec in H
    | H : in_i64 _ = false |- _ => apply in_i64_false in H
    | |- in_i64 _ = true => apply in_i64_spec
    | |- in_i64 _ = false => apply in_i64_false
    end;
  unfold i64_min, i64_max in *.

Lemma wrap_i64_in_range z : in_i64 (wrap_i64 z) = true.
Proof.
  i64_range. unfold wrap_i64.
  pose proof (Z.mod_pos_bound (z + 2 ^ 63) (2 ^ 64)). lia.
Qed.

Lemma wrap_i64_id z : in_i64 z = true → wrap_i64 z = z.
Proof.
  intros H. i64_range. unfold wrap_i64. rewrite Z.mod_small; lia.
Qed.

Lemma wrap_i64_congr z : (wrap_i64 z - z) mod 2 ^ 64 = 0.
Proof.
  unfold wrap_i64.
  replace ((z + 2 ^ 63) mod 2 ^ 64 - 2 ^ 63 - z)
    with ((z + 2 ^ 63) mod 2 ^ 64 - (z + 2 ^ 63)) by lia.
  rewrite Zminus_mod, Z.mod_mod, Z.sub_diag by lia. done.
Qed.

Lemma wrap_i64_unique (z r : Z) :
  in_i64 r = true → (r - z) mod 2 ^ 64 = 0 → wrap_i64 z = r.
Proof.
  intros Hr Hm. apply Z.mod_divide in Hm as [k Hk]; [|done].
  pose proof (wrap_i64_in_range z) as Hw.
  pose proof (wrap_i64_congr z) as Hc.
  apply Z.mod_divide in Hc as [k' Hk']; [|done].
  i64_range. lia.
Qed.

Lemma wrap_i64_shift (r d : Z) :
  in_i64 r = true → wrap_i64 (wrap_i64 (r + d) - d) = r.
Proof.
  intros Hr. apply wrap_i64_unique; [done|].
  pose proof (wrap_i64_congr (r + d)) as Hc.
  apply Z.mod_divide in Hc as [k Hk]; [|done].
  apply Z.mod_divide; [done|]. exists (- k). lia.
Qed.

(** [wrap_i64] picks one representative of each class modulo [2^64]. *)
Lemma wrap_i64_proper x y : (x - y) mod 2 ^ 64 = 0 → wrap_i64 x = wrap_i64 y.
Proof.
  intros [k Hk]%Z.mod_divide; [|done].
  apply wrap_i64_unique; [apply wrap_i64_in_range|].
  pose proof (wrap_i64_congr y) as [k' Hk']%Z.mod_divide; [|done].
  apply Z.mod_divide; [done|]. exists (k' - k). lia.
Qed.

(** Wrap-around is a ring homomorphism: wrapping the operands first does
    not change the wrapped result. *)
Lemma wrap_i64_ring_op op x y z :
  ring_op op x y = Some z →
  ∃ z', ring_op op (wrap_i64 x) (wrap_i64 y) = Some z'
        ∧ wrap_i64 z' = wrap_i64 z.
Proof.
  pose proof (wrap_i64_congr x) as [k Hk]%Z.mod_divide; [|done].
  pose proof (wrap_i64_congr y) as [k' Hk']%Z.mod_divide; [|done].
  destruct op; intros; simplify_eq/=; eexists; (split; [done|]);
    apply wrap_i64_proper, Z.mod_divide; try done.
  - exists (k + k'). lia.
  - exists (k - k'). lia.
  - exists (k * k' * 2 ^ 64 + k * y + k' * x). lia.
Qed.

Lemma narrow_Some z r : narrow z = Some r ↔ in_i64 z = true ∧ r = z.
Proof. unfold narrow. case_match; naive_solver. Qed.

Lemma narrow_in_range z : in_i64 z = true → narrow z = Some z.
Proof. unfold narrow. by intros ->. Qed.

Lemma narrow_out_of_range z : in_i64 z = false → narrow z = None.
Proof. unfold narrow. by intros ->. Qed.

Section operators.
Context {E : Type}.

Lemma overflowing_exact p z :
  in_i64 z = true → overflowing (E:=E) p z = Ok z.
Proof. intros H. unfold overflowing. by rewrite H. Qed.

Lemma overflowing_Debug z :
  in_i64 z = false → overflowing (E:=E) Debug z = Panic.
Proof. intros H. unfold overflowing. by rewrite H. Qed.

Lemma overflowing_Release z :
  overflowing (E:=E) Release z = Ok (wrap_i64 z).
Proof.
  unfold overflowing. destruct (in_i64 z) eqn:H; [|done].
  by rewrite wrap_i64_id.
Qed.

Lemma overflowing_in_range p z r :
  overflowing (E:=E) p z = Ok r → in_i64 r = true.
Proof.
  unfold overflowing. intros H. repeat case_match; simplify_eq; [done|].
  apply wrap_i64_in_range.
Qed.

(** What one operation adds, the opposite one takes back, in every
    profile: with overflow checks nothing was lost, without them the two
    wrap-arounds cancel. *)
Lemma overflowing_cancel p x d z :
  in_i64 x = true →
  overflowing (E:=E) p (x + d) = Ok z → overflowing (E:=E) p (z - d) = Ok x.
Proof.
  intros Hx H. destruct (in_i64 (x + d)) eqn:Hxd.
  - rewrite overflowing_exact in H by done. simplify_eq.
    replace (x + d - d) with x by lia. by apply overflowing_exact.
  - destruct p; [by rewrite overflowing_Debug in H|].
    rewrite overflowing_Release in H |- *. simplify_eq.
    by rewrite wrap_i64_shift.
Qed.

Lemma overflowing_no_Err p z e : overflowing (E:=E) p z ≠ Err e.
Proof. unfold overflowing. by repeat case_match. Qed.

Lemma i64_div_zero a : i64_div (E:=E) a 0 = Panic.
Proof. done. Qed.

Lemma i64_div_min : i64_div (E:=E) i64_min (-1) = Panic.
Proof. done. Qed.

Lemma i64_div_Ok a b r :
  i64_div (E:=E) a b = Ok r ↔
  b ≠ 0 ∧ ¬ (a = i64_min ∧ b = -1) ∧ r = a ÷ b.
Proof.
  unfold i64_div.
  destruct (Z.eqb_spec b 0), (Z.eqb_spec a i64_min), (Z.eqb_spec b (-1));
    simpl; split; intros; destruct_and?; simplify_eq; try done; try lia.
  all: split_and?; try done; lia.
Qed.

Lemma i64_div_in_range a b r :
  in_i64 a = true → i64_div (E:=E) a b = Ok r → in_i64 r = true.
Proof.
  intros Ha (Hb & Hm & ->)%i64_div_Ok. i64_range.
  Z.quot_rem_to_equations. nia.
Qed.

Lemma i64_div_no_Err a b e : i64_div (E:=E) a b ≠ Err e.
Proof. unfold i64_div. by repeat case_match. Qed.

Lemma i64_binop_in_range p op a b r :
  in_i64 a = true → i64_binop (E:=E) p op a b = Ok r → in_i64 r = true.
Proof.
  destruct op; simpl; eauto using overflowing_in_range, i64_div_in_range.
Qed.

Lemma i64_binop_no_Err p op a b e : i64_binop (E:=E) p op a b ≠ Err e.
Proof. destruct op; simpl; auto using overflowing_no_Err, i64_div_no_Err. Qed.

(** ** The machine operators against the exact result *)

Lemma checked_op_in_range op a b z : checked_op op a b = Some z → in_i64 z = true.
Proof.
  destruct op; simpl; intros H; repeat case_match; try done;
    by apply narrow_Some in H as [? ->].
Qed.

Lemma checked_op_comm op a b :
  op = Add ∨ op = Mul → checked_op op a b = checked_op op b a.
Proof. intros [-> | ->]; simpl; f_equal; lia. Qed.

(** A result that is representable is delivered, in every profile. *)
Lemma checked_op_binop p op a b z :
  checked_op op a b = Some z → i64_binop (E:=E) p op a b = Ok z.
Proof.
  destruct op; simpl; try (intros [? ->]%narrow_Some; by apply overflowing_exact).
  destruct (Z.eqb_spec b 0) as [|Hb]; [done|]. intros [Hr ->]%narrow_Some.
  apply i64_div_Ok. split_and!; [done| |done]. by intros [-> ->].
Qed.

(** With overflow checks the machine operator returns only exact results. *)
Lemma binop_Debug_checked op a b z :
  i64_binop (E:=E) Debug op a b = Ok z → in_i64 a = true →
  checked_op op a b = Some z.
Proof.
  destruct op; simpl.
  1-3: unfold overflowing; intros H _; case_match eqn:Hr; simplify_eq/=;
    by apply narrow_in_range.
  intros (Hb & Hm & ->)%i64_div_Ok Ha.
  destruct (Z.eqb_spec b 0); [done|].
  apply narrow_in_range. eapply i64_div_in_range; [done|].
  by apply i64_div_Ok.
Qed.

Lemma binop_Debug_Panic op a b :
  in_i64 a = true → checked_op op a b = None →
  i64_binop (E:=E) Debug op a b = Panic.
Proof.
  intros Ha Hn. destruct (i64_binop Debug op a b) as [z|e|] eqn:H; [| |done].
  - apply binop_Debug_checked in H; [congruence|done].
  - by apply i64_binop_no_Err in H.
Qed.

(** Without overflow checks the three ring operators return the wrapped
    result of the ring. *)
Lemma binop_Release_ring op a b z :
  ring_op op a b = Some z → i64_binop (E:=E) Release op a b = Ok (wrap_i64 z).
Proof. destruct op; intros; simplify_eq/=; apply overflowing_Release. Qed.

End operators.

(** ** Parsing inverts printing *)

Lemma uint_val_mono d acc : 0 ≤ acc → acc ≤ uint_val true d acc.
Proof.
  revert acc. induction d; intros acc Hacc; simpl; [lia|..];
    (etrans; [|apply IHd]); unfold digit_step; lia.
Qed.

Lemma uint_val_neg d acc : uint_val false d acc = - uint_val true d (- acc).
Proof.
  revert acc. induction d; intros acc; simpl; [lia|..];
    rewrite IHd; f_equal; f_equal; unfold digit_step; lia.
Qed.

Lemma parse_step_Some positive acc d :
  in_i64 (acc * 10) = true → in_i64 (digit_step positive acc d) = true →
  parse_step positive acc d = Some (digit_step positive acc d).
Proof. unfold parse_step, digit_step. by intros -> ->. Qed.

Lemma parse_digits_pos d acc :
  0 ≤ acc → in_i64 (uint_val true d acc) = true →
  parse_digits true (NilEmpty.string_of_uint d) acc = Some (uint_val true d acc).
Proof.
  revert acc. induction d; intros acc Hacc Hr; simpl; [done|..];
    cbn [uint_val] in Hr.
  all: match goal with |- context [uint_val true ?d' (digit_step true ?a ?n)] =>
    pose proof (uint_val_mono d' (digit_step true a n)) as Hm end.
  all: unfold digit_step in Hm.
  all: rewrite parse_step_Some;
    [simpl; apply IHd; [unfold digit_step; lia|done]
    |i64_range; unfold digit_step in *; lia..].
Qed.

Lemma parse_digits_neg d acc :
  acc ≤ 0 → in_i64 (uint_val false d acc) = true →
  parse_digits false (NilEmpty.string_of_uint d) acc
  = Some (uint_val false d acc).
Proof.
  revert acc. induction d; intros acc Hacc Hr; simpl; [done|..];
    cbn [uint_val] in Hr.
  all: match goal with |- context [uint_val false ?d' (digit_step false ?a ?n)] =>
    pose proof (uint_val_mono d' (- digit_step false a n)) as Hm;
    rewrite <-(Z.opp_involutive (uint_val true _ _)), <-uint_val_neg in Hm
    end.
  all: unfold digit_step in Hm.
  all: rewrite parse_step_Some;
    [simpl; apply IHd; [unfold digit_step; lia|done]
    |i64_range; unfold digit_step in *; lia..].
Qed.

Lemma of_uint_acc_val d p :
  Z.pos (Pos.of_uint_acc d p) = uint_val true d (Z.pos p).
Proof.
  revert p. induction d; intros p; simpl; [done|..];
    rewrite IHd; f_equal; unfold digit_step; lia.
Qed.

Lemma of_uint_val d : Z.of_uint d = uint_val true d 0.
Proof.
  unfold Z.of_uint. induction d; simpl; [done|done|..];
    by rewrite of_uint_acc_val.
Qed.

Lemma string_of_uint_nonempty d :
  d ≠ Decimal.Nil → nonempty (NilEmpty.string_of_uint d) = true.
Proof. by destruct d. Qed.

Lemma parse_i64_digits d :
  d ≠ Decimal.Nil →
  parse_i64 (NilEmpty.string_of_uint d)
  = parse_digits true (NilEmpty.string_of_uint d) 0.
Proof. by destruct d. Qed.

Lemma to_int_nonnil z :
  match Z.to_int z with Decimal.Pos d | Decimal.Neg d => d ≠ Decimal.Nil end.
Proof. destruct z; simpl; [done|apply Unsigned.to_uint_nonnil..]. Qed.

Lemma NilZero_string_of_uint d :
  d ≠ Decimal.Nil → NilZero.string_of_uint d = NilEmpty.string_of_uint d.
Proof. by destruct d. Qed.

Lemma parse_i64_to_string z :
  in_i64 z = true → parse_i64 (i64_to_string z) = Some z.
Proof.
  intros Hz. unfold i64_to_string.
  pose proof (to_int_nonnil z) as Hn. pose proof (DecimalZ.of_to z) as Hof.
  destruct (Z.to_int z) as [d|d]; simpl in Hof |- *;
    rewrite NilZero_string_of_uint by done.
  - assert (uint_val true d 0 = z) as Hv by by rewrite <-of_uint_val.
    rewrite parse_i64_digits, parse_digits_pos by (rewrite ?Hv; done).
    by rewrite Hv.
  - assert (uint_val false d 0 = z) as Hv
      by by rewrite uint_val_neg, <-of_uint_val.
    rewrite string_of_uint_nonempty, parse_digits_neg by (rewrite ?Hv; done).
    by rewrite Hv.
Qed.

(** ** What the parser accepts *)

Lemma parse_step_in_range positive acc d r :
  parse_step positive acc d = Some r → in_i64 r = true.
Proof. unfold parse_step. intros; repeat case_match; by simplify_eq. Qed.

Lemma parse_digits_in_range positive s acc z :
  in_i64 acc = true → parse_digits positive s acc = Some z → in_i64 z = true.
Proof.
  revert acc. induction s as [|c s IH]; intros acc Hacc H; simplify_eq/=;
    [done|].
  destruct (digit_of_ascii c); simplify_eq/=.
  destruct (parse_step _ _ _) eqn:Hs; simplify_eq/=.
  eauto using parse_step_in_range.
Qed.

Lemma parse_i64_in_range s z : parse_i64 s = Some z → in_i64 z = true.
Proof.
  destruct s as [|c s]; [done|]. unfold parse_i64.
  intros H; repeat case_match; try done;
    by eapply parse_digits_in_range in H.
Qed.

Lemma parse_i64_normal s z :
  parse_i64 s = Some z → parse_i64 (i64_to_string z) = Some z.
Proof. intros ?%parse_i64_in_range. by apply parse_i64_to_string. Qed.

(** ** The parser against the value of the numeral *)

Lemma digit_of_ascii_range c d : digit_of_ascii c = Some d → 0 ≤ d ≤ 9.
Proof.
  unfold digit_of_ascii. intros H. case_match eqn:Hc; simplify_eq. lia.
Qed.

Lemma digits_value_mono s acc z :
  0 ≤ acc → digits_value s acc = Some z → acc ≤ z.
Proof.
  revert acc. induction s as [|c s IH]; intros acc Hacc H; simplify_eq/=;
    [lia|].
  destruct (digit_of_ascii c) as [d|] eqn:Hd; simplify_eq/=.
  apply digit_of_ascii_range in Hd. apply IH in H; lia.
Qed.

(** Once the accumulator has left the range the numeral cannot come back. *)
Lemma digits_value_overflow s acc :
  i64_max < acc → digits_value s acc ≫= narrow = None.
Proof.
  intros Hacc. destruct (digits_value s acc) as [z|] eqn:Hz; [|done].
  apply digits_value_mono in Hz; [|unfold i64_max in *; lia].
  apply narrow_out_of_range. i64_range. lia.
Qed.

Lemma digits_value_underflow s acc :
  i64_max + 1 < acc → digits_value s acc ≫= (λ z, narrow (- z)) = None.
Proof.
  intros Hacc. destruct (digits_value s acc) as [z|] eqn:Hz; [|done].
  apply digits_value_mono in Hz; [|unfold i64_max in *; lia].
  apply narrow_out_of_range. i64_range. lia.
Qed.

Lemma parse_digits_pos_spec s acc :
  0 ≤ acc → in_i64 acc = true →
  parse_digits true s acc = digits_value s acc ≫= narrow.
Proof.
  revert acc. induction s as [|c s IH]; intros acc H0 Hacc; simpl;
    [by rewrite narrow_in_range|].
  destruct (digit_of_ascii c) as [d|] eqn:Hd; [simpl|done].
  apply digit_of_ascii_range in Hd. unfold parse_step.
  destruct (in_i64 (acc * 10)) eqn:Hm;
    [destruct (in_i64 (acc * 10 + d)) eqn:Hr|]; simpl.
  - apply IH; [lia|done].
  - symmetry. apply digits_value_overflow. i64_range. lia.
  - symmetry. apply digits_value_overflow. i64_range. lia.
Qed.

Lemma parse_digits_neg_spec s acc :
  acc ≤ 0 → in_i64 acc = true →
  parse_digits false s acc = digits_value s (- acc) ≫= λ z, narrow (- z).
Proof.
  revert acc. induction s as [|c s IH]; intros acc H0 Hacc; simpl;
    [by rewrite Z.opp_involutive, narrow_in_range|].
  destruct (digit_of_ascii c) as [d|] eqn:Hd; [simpl|done].
  apply digit_of_ascii_range in Hd. unfold parse_step.
  replace (- acc * 10 + d) with (- (acc * 10 - d)) by lia.
  destruct (in_i64 (acc * 10)) eqn:Hm;
    [destruct (in_i64 (acc * 10 - d)) eqn:Hr|]; simpl.
  - apply IH; [lia|done].
  - symmetry. apply digits_value_underflow. i64_range. lia.
  - symmetry. apply digits_value_underflow. i64_range. lia.
Qed.

(** [parse_i64], with its checked multiplication and addition per digit,
    returns the integer the numeral denotes when that integer is an [i64],
    and fails otherwise. *)
Lemma parse_i64_spec s : parse_i64 s = numeral_value s ≫= narrow.
Proof.
  destruct s as [|c s]; [done|]. unfold parse_i64, numeral_value.
  repeat case_match; try done.
  - by apply parse_digits_pos_spec.
  - rewrite parse_digits_neg_spec by done. change (- 0) with 0.
    by destruct (digits_value s 0).
  - by apply parse_digits_pos_spec.
Qed.

Lemma parse_i64_Some s z :
  parse_i64 s = Some z ↔ numeral_value s = Some z ∧ in_i64 z = true.
Proof.
  rewrite parse_i64_spec. destruct (numeral_value s) as [x|]; simpl;
    [rewrite narrow_Some|]; naive_solver.
Qed.

Example parse_i64_plain : parse_i64 "42" = Some 42.
Proof. done. Qed.

Example parse_i64_leading_zeros : parse_i64 "007" = Some 7.
Proof. done. Qed.

Example parse_i64_plus : parse_i64 "+5" = Some 5.
Proof. done. Qed.

Example parse_i64_empty : parse_i64 "" = None.
Proof. done. Qed.

Example parse_i64_sign_only : parse_i64 "-" = None.
Proof. done. Qed.

Example parse_i64_decimal_point : parse_i64 "1.5" = None.
Proof. done. Qed.

Example parse_i64_blank : parse_i64 " 1" = None.
Proof. done. Qed.

Example parse_i64_min : parse_i64 "-9223372036854775808" = Some i64_min.
Proof. done. Qed.

Example parse_i64_max : parse_i64 "9223372036854775807" = Some i64_max.
Proof. done. Qed.

Example parse_i64_overflow : parse_i64 "9223372036854775808" = None.
Proof. done. Qed.

Example parse_i64_underflow : parse_i64 "-9223372036854775809" = None.
Proof. done. Qed.

Example i64_to_string_zero : i64_to_string 0 = "0"%string.
Proof. done. Qed.

Example i64_to_string_neg : i64_to_string (-120) = "-120"%string.
Proof. done. Qed.
