(* ===== verification/AstValue.v ===== *)
(** * AstValue: the literal node of the SQL parser, and the crate's errors

    [sqlparser::ast::Value], imported by [evaluated.rs] as [AstValue], is the
    literal as written in the SQL text.  The evaluator reads two of its
    kinds, [Number] (the numeral's text, not yet parsed) and
    [SingleQuotedString]; every other kind falls in the default arm of each
    match.  The type derives [PartialEq]: two literals are equal when they
    have the same constructor and the same text, so [Number "1"] and
    [Number "01"] differ.

    [EvaluateError] and [Error] are the error values of the crate as far as
    this file of the source raises or forwards them. *)

From Stdlib Require Import String Bool.
From stdpp Require Import base tactics decidable strings.
From S2P Require Import Prelude.

Inductive AstValue :=
| Number (s : string)
| SingleQuotedString (s : string)
| NationalStringLiteral (s : string)
| HexStringLiteral (s : string)
| Boolean (b : bool)
| Null.

#[export] Instance AstValue_eq_dec : EqDecision AstValue.
Proof. solve_decision. Defined.

(** The derived [PartialEq] of [AstValue]. *)
Definition ast_eq (l r : AstValue) : bool :=
  match l, r with
  | Number l, Number r => String.eqb l r
  | SingleQuotedString l, SingleQuotedString r => String.eqb l r
  | NationalStringLiteral l, NationalStringLiteral r => String.eqb l r
  | HexStringLiteral l, HexStringLiteral r => String.eqb l r
  | Boolean l, Boolean r => Bool.eqb l r
  | Null, Null => true
  | _, _ => false
  end.

(** The two views the evaluator takes of a literal. *)
Definition as_number (l : AstValue) : option string :=
  match l with Number s => Some s | _ => None end.

Definition as_single_quoted (l : AstValue) : option string :=
  match l with SingleQuotedString s => Some s | _ => None end.

(** The errors of [executor::evaluate] that [evaluated.rs] raises. *)
Inductive EvaluateError :=
| UnreachableEvaluatedArithmetic
| UnreachableLiteralArithmetic.

#[export] Instance EvaluateError_eq_dec : EqDecision EvaluateError.
Proof. solve_decision. Defined.

(** [crate::result::Error]: an error of the evaluator, or an error [VE] of
    the typed value domain. *)
Inductive Error (VE : Type) :=
| EvaluateErr (e : EvaluateError)
| ValueErr (e : VE).

Arguments EvaluateErr {VE} e.
Arguments ValueErr {VE} e.

#[export] Instance Error_eq_dec {VE} `{EqDecision VE} : EqDecision (Error VE).
Proof. solve_decision. Defined.

(** The result of a method of the typed domain as a result of the crate.
    The source makes no conversion here: the method returns the crate's
    [Result] already.  The model gives the domain an error type of its
    own, and [into] is the inclusion of that type in [Error]; an error of
    the domain is therefore never an [EvaluateErr]. *)
Definition into {VE A} (m : outcome VE A) : outcome (Error VE) A :=
  map_err ValueErr m.

(** ** Equality of literals *)

Lemma ast_eq_spec l r : ast_eq l r = true ↔ l = r.
Proof.
  destruct l, r; simpl; rewrite ?String.eqb_eq, ?Bool.eqb_true_iff;
    naive_solver.
Qed.

Lemma ast_eq_refl l : ast_eq l l = true.
Proof. by apply ast_eq_spec. Qed.

Lemma ast_eq_sym l r : ast_eq l r = ast_eq r l.
Proof.
  destruct l, r; simpl; auto using String.eqb_sym.
  by destruct b, b0.
Qed.

Lemma ast_eq_decide l r : ast_eq l r = bool_decide (l = r).
Proof.
  apply eq_true_iff_eq. by rewrite ast_eq_spec, bool_decide_eq_true.
Qed.

Lemma ast_eq_textual : ast_eq (Number "1") (Number "01") = false.
Proof. done. Qed.

(** ** Errors *)

Section into_lemmas.
Context {VE A : Type}.
Implicit Types m : outcome VE A.

Lemma into_Ok_iff m a : into m = Ok a ↔ m = Ok a.
Proof. apply map_err_Ok_iff. Qed.

Lemma into_Panic_iff m : into m = Panic ↔ m = Panic.
Proof. apply map_err_Panic_iff. Qed.

Lemma into_Ok_inv m a : into m = Ok a → m = Ok a.
Proof. apply into_Ok_iff. Qed.

Lemma into_Panic_inv m : into m = Panic → m = Panic.
Proof. apply into_Panic_iff. Qed.

Lemma into_Err_iff m e : into m = Err (ValueErr e) ↔ m = Err e.
Proof. destruct m; naive_solver. Qed.

Lemma into_not_EvaluateErr m e : into m ≠ Err (EvaluateErr e).
Proof. by destruct m. Qed.

End into_lemmas.

#[export] Hint Resolve ast_eq_sym ast_eq_refl : evaluated.
