(* ===== verification/ValueDomain.v ===== *)
(** * ValueDomain: what the evaluator expects of the typed value domain

    [evaluated.rs] uses [crate::data::Value] through a fixed set of
    operations: its equality with another value and with a literal, its
    partial order against a value and against a literal, the four
    arithmetic methods, [clone_by] (build a value of the receiver's type
    from a literal) and the pattern [Value::Str(s)].  The class
    [ValueDomain] lists them; [ValueDomainLaws] states what the theorems on
    [Evaluated] need of them.  No law asks equality to be reflexive, so that
    a domain with IEEE floating-point values is an instance.

    The types of the class are a choice of the model, since the domain is
    not in the repository: equality and order are total (a comparison of
    the domain does not panic); an arithmetic method and [clone_by] return,
    fail with an error of the domain's own type [VE] or panic, and take no
    build profile (an instance is the domain as compiled in one build).
    The source passes the result of such a method on unchanged, in the
    error type of the crate; [AstValue.into] is the embedding of [VE] in
    that type, so the domain is assumed not to return an error of
    [EvaluateError] by itself. *)

From Stdlib Require Import String.
From stdpp Require Import base tactics option.
From S2P Require Import Prelude AstValue.

Class ValueDomain (V VE : Type) := {
  (** [impl PartialEq for Value] *)
  value_eq : V → V → bool;
  (** [impl PartialEq<AstValue> for Value] *)
  value_eq_literal : V → AstValue → bool;
  (** [impl PartialOrd for Value] *)
  value_partial_cmp : V → V → option Ordering;
  (** [impl PartialOrd<AstValue> for Value] *)
  value_partial_cmp_literal : V → AstValue → option Ordering;
  (** The text of a [Value::Str], [None] for any other value. *)
  value_as_str : V → option string;
  (** [Value::add] and the like: receiver first. *)
  value_add : V → V → outcome VE V;
  value_subtract : V → V → outcome VE V;
  value_multiply : V → V → outcome VE V;
  value_divide : V → V → outcome VE V;
  (** [Value::clone_by]: the literal as a value of the receiver's type. *)
  value_clone_by : V → AstValue → outcome VE V;
}.

#[global] Hint Mode ValueDomain ! - : typeclass_instances.

Class ValueDomainLaws (V VE : Type) `{!ValueDomain V VE} : Prop := {
  value_eq_sym (a b : V) : value_eq a b = value_eq b a;
  value_partial_cmp_antisym (a b : V) :
    value_partial_cmp a b = reverse <$> value_partial_cmp b a;
}.

(** Addition of the domain does not depend on the order of its operands. *)
Class ValueAddComm (V VE : Type) `{!ValueDomain V VE} : Prop :=
  value_add_comm (a b : V) : value_add a b = value_add b a.

(** A text value is determined by its text, the order of two text values
    is the order of their texts, and a text value is neither equal nor
    comparable to a value of another kind. *)
Class ValueStrLaws (V VE : Type) `{!ValueDomain V VE} : Prop := {
  value_str_eq (a b : V) s t :
    value_as_str a = Some s → value_as_str b = Some t →
    value_eq a b = String.eqb s t;
  value_str_cmp (a b : V) s t :
    value_as_str a = Some s → value_as_str b = Some t →
    value_partial_cmp a b = Some (str_cmp s t);
  value_str_eq_other (a b : V) s :
    value_as_str a = Some s → value_as_str b = None → value_eq a b = false;
  value_str_cmp_other (a b : V) s :
    value_as_str a = Some s → value_as_str b = None →
    value_partial_cmp a b = None;
  value_str_eq_literal (a : V) s l :
    value_as_str a = Some s →
    value_eq_literal a l =
      match l with SingleQuotedString t => String.eqb s t | _ => false end;
  value_str_cmp_literal (a : V) s l :
    value_as_str a = Some s →
    value_partial_cmp_literal a l =
      match l with SingleQuotedString t => Some (str_cmp s t) | _ => None end;
}.

(** Equality against a literal is equality against the literal converted
    to the type of the value; a literal that cannot be converted is
    unequal. *)
Class ValueLiteralLaws (V VE : Type) `{!ValueDomain V VE} : Prop :=
  value_eq_literal_convert (v : V) l :
    value_eq_literal v l =
      match value_clone_by v l with Ok w => value_eq v w | _ => false end.

Section derived.
Context {V VE : Type} `{!ValueDomain V VE} `{!ValueDomainLaws V VE}.

Lemma value_partial_cmp_reverse (a b : V) :
  reverse <$> value_partial_cmp a b = value_partial_cmp b a.
Proof.
  rewrite (value_partial_cmp_antisym a b). apply fmap_reverse_involutive.
Qed.

Lemma value_partial_cmp_Less (a b : V) :
  value_partial_cmp a b = Some Less ↔ value_partial_cmp b a = Some Greater.
Proof.
  rewrite (value_partial_cmp_antisym a b).
  destruct (value_partial_cmp b a) as [[]|]; naive_solver.
Qed.

Lemma value_partial_cmp_None (a b : V) :
  value_partial_cmp a b = None ↔ value_partial_cmp b a = None.
Proof.
  rewrite (value_partial_cmp_antisym a b).
  destruct (value_partial_cmp b a); naive_solver.
Qed.

End derived.
