(* ===== verification/Data.v ===== *)
(** * Data: a sample instance of the typed value domain

    [crate::data::Value] is outside the verified file.  This file gives the
    instance of [ValueDomain] the witnesses and the scenarios run on: 64-bit
    integers, text, booleans and the SQL null, with the behaviour the
    specification states for the typed domain.

    - Equality is structural; a value equals a literal of its own kind that
      denotes it (a numeral is parsed first).
    - Values of different kinds are incomparable; so are a value and a
      literal of another kind.
    - Arithmetic is defined on two integers; overflow and a zero divisor are
      errors of the domain (never a panic), any other operand is an error.
    - [clone_by] parses a numeral for an integer receiver, copies the text
      for a text receiver and the truth value for a boolean one. *)

From Stdlib Require Import ZArith String Bool.
From stdpp Require Import base tactics option numbers strings.
From S2P Require Import Prelude Int64 AstValue ValueDomain.

Inductive Value :=
| Bool (b : bool)
| I64 (z : Z)
| Str (s : string)
| Empty.

Inductive ValueError :=
| FailedToParseNumber
| LiteralNotSupported
| AddOnNonNumeric
| SubtractOnNonNumeric
| MultiplyOnNonNumeric
| DivideOnNonNumeric
| ArithmeticOverflow
| DivisorShouldNotBeZero.

#[export] Instance Value_eq_dec : EqDecision Value.
Proof. solve_decision. Defined.

#[export] Instance ValueError_eq_dec : EqDecision ValueError.
Proof. solve_decision. Defined.

Definition data_eq (l r : Value) : bool :=
  match l, r with
  | Bool l, Bool r => Bool.eqb l r
  | I64 l, I64 r => Z.eqb l r
  | Str l, Str r => String.eqb l r
  | Empty, Empty => true
  | _, _ => false
  end.

Definition data_eq_literal (l : Value) (r : AstValue) : bool :=
  match l, r with
  | Bool l, Boolean r => Bool.eqb l r
  | I64 l, Number r =>
      match parse_i64 r with Some r => Z.eqb l r | None => false end
  | Str l, SingleQuotedString r => String.eqb l r
  | _, _ => false
  end.

Definition bool_cmp (l r : bool) : Ordering :=
  match l, r with
  | false, true => Less
  | true, false => Greater
  | _, _ => Equal
  end.

Definition data_partial_cmp (l r : Value) : option Ordering :=
  match l, r with
  | Bool l, Bool r => Some (bool_cmp l r)
  | I64 l, I64 r => Some (Z.compare l r)
  | Str l, Str r => Some (str_cmp l r)
  | _, _ => None
  end.

Definition data_partial_cmp_literal (l : Value) (r : AstValue)
    : option Ordering :=
  match l, r with
  | I64 l, Number r =>
      match parse_i64 r with Some r => Some (Z.compare l r) | None => None end
  | Str l, SingleQuotedString r => Some (str_cmp l r)
  | _, _ => None
  end.

Definition data_as_str (v : Value) : option string :=
  match v with Str s => Some s | _ => None end.

Definition non_numeric (op : binop) : ValueError :=
  match op with
  | Add => AddOnNonNumeric
  | Sub => SubtractOnNonNumeric
  | Mul => MultiplyOnNonNumeric
  | Div => DivideOnNonNumeric
  end.

(** The exact result of an operator on two integers, or the error. *)
Definition checked (op : binop) (a b : Z) : outcome ValueError Z :=
  let exact z := if in_i64 z then Ok z else Err ArithmeticOverflow in
  match op with
  | Add => exact (a + b)%Z
  | Sub => exact (a - b)%Z
  | Mul => exact (a * b)%Z
  | Div => if Z.eqb b 0 then Err DivisorShouldNotBeZero else exact (a ÷ b)%Z
  end.

Definition data_arith (op : binop) (l r : Value) : outcome ValueError Value :=
  match l, r with
  | I64 a, I64 b => I64 <$> checked op a b
  | _, _ => Err (non_numeric op)
  end.

Definition clone_by (v : Value) (literal : AstValue)
    : outcome ValueError Value :=
  match v, literal with
  | I64 _, Number s =>
      match parse_i64 s with
      | Some z => Ok (I64 z)
      | None => Err FailedToParseNumber
      end
  | Str _, SingleQuotedString s => Ok (Str s)
  | Bool _, Boolean b => Ok (Bool b)
  | _, _ => Err LiteralNotSupported
  end.

#[export] Instance data_domain : ValueDomain Value ValueError := {
  value_eq := data_eq;
  value_eq_literal := data_eq_literal;
  value_partial_cmp := data_partial_cmp;
  value_partial_cmp_literal := data_partial_cmp_literal;
  value_as_str := data_as_str;
  value_add := data_arith Add;
  value_subtract := data_arith Sub;
  value_multiply := data_arith Mul;
  value_divide := data_arith Div;
  value_clone_by := clone_by;
}.

(** ** The instance satisfies the laws *)

Lemma data_eq_spec l r : data_eq l r = true ↔ l = r.
Proof.
  destruct l, r; simpl;
    rewrite ?String.eqb_eq, ?Bool.eqb_true_iff, ?Z.eqb_eq; naive_solver.
Qed.

Lemma bool_cmp_reverse l r : bool_cmp l r = reverse (bool_cmp r l).
Proof. by destruct l, r. Qed.

Lemma data_eq_sym l r : data_eq l r = data_eq r l.
Proof.
  destruct l, r; simpl; auto using String.eqb_sym, Z.eqb_sym.
  by destruct b, b0.
Qed.

Lemma data_partial_cmp_antisym l r :
  data_partial_cmp l r = reverse <$> data_partial_cmp r l.
Proof.
  destruct l, r; simpl; try done; f_equal;
    auto using bool_cmp_reverse with evaluated.
Qed.

#[export] Instance data_laws : ValueDomainLaws Value ValueError.
Proof. split; [apply data_eq_sym|apply data_partial_cmp_antisym]. Qed.

Lemma checked_add_comm a b : checked Add a b = checked Add b a.
Proof. simpl. by rewrite Z.add_comm. Qed.

#[export] Instance data_add_comm : ValueAddComm Value ValueError.
Proof.
  intros [] []; cbn; try done. by rewrite Z.add_comm.
Qed.

#[export] Instance data_literal_laws : ValueLiteralLaws Value ValueError.
Proof. intros [] []; simpl; try done; by case_match. Qed.

#[export] Instance data_str_laws : ValueStrLaws Value ValueError.
Proof.
  split.
  - intros [] [] ????; by simplify_eq/=.
  - intros [] [] ????; by simplify_eq/=.
  - intros [] [] ???; by simplify_eq/=.
  - intros [] [] ???; by simplify_eq/=.
  - intros [] ? [] ?; by simplify_eq/=.
  - intros [] ? [] ?; by simplify_eq/=.
Qed.

(** ** Behaviour of the instance *)

Lemma checked_in_range op a b z : checked op a b = Ok z → in_i64 z = true.
Proof. destruct op; simpl; intros; repeat case_match; by simplify_eq. Qed.

Lemma checked_Ok op a b z : checked op a b = Ok z ↔ checked_op op a b = Some z.
Proof.
  destruct op; simpl; unfold narrow; repeat case_match; naive_solver.
Qed.

Lemma checked_Err op a b :
  checked_op op a b = None → ∃ e, checked op a b = Err e.
Proof.
  destruct op; simpl; unfold narrow; repeat case_match; naive_solver.
Qed.

Lemma data_arith_Ok op l r v :
  data_arith op l r = Ok v ↔
  ∃ a b z, l = I64 a ∧ r = I64 b ∧ v = I64 z ∧ checked op a b = Ok z.
Proof.
  destruct l, r; simpl; try (split; [done|naive_solver]).
  rewrite fmap_Ok_inv. naive_solver.
Qed.

Lemma data_arith_no_Panic op l r : data_arith op l r ≠ Panic.
Proof.
  destruct l, r; simpl; try done. rewrite fmap_Panic_iff.
  destruct op; simpl; by repeat case_match.
Qed.

Lemma data_divide_zero a : data_arith Div (I64 a) (I64 0) = Err DivisorShouldNotBeZero.
Proof. done. Qed.

Lemma data_cmp_number_text s t :
  data_partial_cmp_literal (Str s) (Number t) = None.
Proof. done. Qed.

Lemma clone_by_number z s :
  parse_i64 s = Some z → clone_by (I64 0) (Number s) = Ok (I64 z).
Proof. simpl. by intros ->. Qed.
