(* ===== verification/Literal.v ===== *)
(** * Literal: comparison and arithmetic of two literals

    The five private functions at the end of [evaluated.rs]:
    [literal_partial_cmp] (lines 118-127) and [literal_add],
    [literal_subtract], [literal_multiply], [literal_divide]
    (lines 251-289).  Each arithmetic helper parses both numerals as [i64],
    applies the machine operator and prints the result as a new numeral; it
    panics when a numeral does not parse and returns
    [UnreachableLiteralArithmetic] when an operand is not a numeral.

    The build profile [p] (overflow checks on or off) is a parameter of the
    arithmetic helpers: it decides what [a + b], [a - b] and [a * b] do out
    of range. *)

From Stdlib Require Import ZArith String.
From stdpp Require Import base tactics option numbers.
From S2P Require Import Prelude Int64 AstValue.

#[local] Open Scope Z_scope.

Definition literal_partial_cmp (a b : AstValue) : option Ordering :=
  match a, b with
  | Number l, Number r =>
      match parse_i64 l, parse_i64 r with
      | Some l, Some r => Some (l ?= r)
      | _, _ => None
      end
  | SingleQuotedString l, SingleQuotedString r => Some (str_cmp l r)
  | _, _ => None
  end.

Section arithmetic.
Context {VE : Type} (p : profile).

Definition literal_add (a b : AstValue) : outcome (Error VE) AstValue :=
  match a, b with
  | Number a, Number b =>
      match parse_i64 a, parse_i64 b with
      | Some a, Some b =>
          z ← overflowing p (a + b); Ok (Number (i64_to_string z))
      | _, _ => Panic
      end
  | _, _ => Err (EvaluateErr UnreachableLiteralArithmetic)
  end.

Definition literal_subtract (a b : AstValue) : outcome (Error VE) AstValue :=
  match a, b with
  | Number a, Number b =>
      match parse_i64 a, parse_i64 b with
      | Some a, Some b =>
          z ← overflowing p (a - b); Ok (Number (i64_to_string z))
      | _, _ => Panic
      end
  | _, _ => Err (EvaluateErr UnreachableLiteralArithmetic)
  end.

Definition literal_multiply (a b : AstValue) : outcome (Error VE) AstValue :=
  match a, b with
  | Number a, Number b =>
      match parse_i64 a, parse_i64 b with
      | Some a, Some b =>
          z ← overflowing p (a * b); Ok (Number (i64_to_string z))
      | _, _ => Panic
      end
  | _, _ => Err (EvaluateErr UnreachableLiteralArithmetic)
  end.

Definition literal_divide (a b : AstValue) : outcome (Error VE) AstValue :=
  match a, b with
  | Number a, Number b =>
      match parse_i64 a, parse_i64 b with
      | Some a, Some b =>
          z ← i64_div a b; Ok (Number (i64_to_string z))
      | _, _ => Panic
      end
  | _, _ => Err (EvaluateErr UnreachableLiteralArithmetic)
  end.

(** The helper of an operator. *)
Definition literal_arith (op : binop) : AstValue → AstValue → outcome (Error VE) AstValue :=
  match op with
  | Add => literal_add
  | Sub => literal_subtract
  | Mul => literal_multiply
  | Div => literal_divide
  end.

(** ** Specification

    What the four helpers have in common: the operands are read as
    integers, the machine operator is applied, the result is printed. *)

(** The numeral that prints an integer. *)
Definition print (z : Z) : AstValue := Number (i64_to_string z).

Inductive operand :=
| Numeral (z : Z)
| Malformed
| NotANumber.

Definition classify (l : AstValue) : operand :=
  match l with
  | Number s => match parse_i64 s with Some z => Numeral z | None => Malformed end
  | _ => NotANumber
  end.

Definition literal_arith_spec (op : binop) (a b : AstValue)
    : outcome (Error VE) AstValue :=
  match classify a, classify b with
  | NotANumber, _ | _, NotANumber =>
      Err (EvaluateErr UnreachableLiteralArithmetic)
  | Numeral x, Numeral y =>
      print <$> i64_binop p op x y
  | _, _ => Panic
  end.

(** A literal the helpers accept and can take back: a numeral in range. *)
Definition numeric (l : AstValue) : bool :=
  match classify l with Numeral _ => true | _ => false end.

Definition literal_value (l : AstValue) : option Z :=
  match classify l with Numeral z => Some z | _ => None end.

End arithmetic.

(** ** The partial order of literals *)

Lemma literal_partial_cmp_numbers l r x y :
  parse_i64 l = Some x → parse_i64 r = Some y →
  literal_partial_cmp (Number l) (Number r) = Some (x ?= y).
Proof. simpl. by intros -> ->. Qed.

Lemma literal_partial_cmp_strings l r :
  literal_partial_cmp (SingleQuotedString l) (SingleQuotedString r)
  = Some (str_cmp l r).
Proof. done. Qed.

Lemma literal_partial_cmp_Some a b o :
  literal_partial_cmp a b = Some o ↔
  (∃ l r x y, a = Number l ∧ b = Number r ∧ parse_i64 l = Some x ∧
      parse_i64 r = Some y ∧ o = (x ?= y)) ∨
  (∃ l r, a = SingleQuotedString l ∧ b = SingleQuotedString r ∧
      o = str_cmp l r).
Proof.
  split.
  - destruct a, b; simpl; intros; repeat case_match; simplify_eq;
      naive_solver.
  - intros [(l & r & x & y & -> & -> & Hl & Hr & ->)|(l & r & -> & -> & ->)];
      simpl; [by rewrite Hl, Hr|done].
Qed.

Lemma literal_partial_cmp_reverse a b :
  literal_partial_cmp a b = reverse <$> literal_partial_cmp b a.
Proof.
  destruct a, b; simpl; try done; repeat case_match; simpl; try done;
    f_equal; auto with evaluated.
Qed.

Section arithmetic_lemmas.
Context {VE : Type} (p : profile).
Implicit Types (a b : AstValue) (op : binop).

#[local] Abbreviation literal_arith := (literal_arith (VE:=VE) p).
#[local] Abbreviation literal_arith_spec := (literal_arith_spec (VE:=VE) p).

Lemma classify_Numeral l z :
  classify l = Numeral z ↔ ∃ s, l = Number s ∧ parse_i64 s = Some z.
Proof.
  unfold classify. destruct l; try (split; [done|naive_solver]).
  destruct (parse_i64 s) eqn:?; naive_solver.
Qed.

Lemma classify_NotANumber l : classify l = NotANumber ↔ as_number l = None.
Proof. unfold classify. destruct l; simpl; by repeat case_match. Qed.

Lemma classify_print z : in_i64 z = true → classify (print z) = Numeral z.
Proof. intros Hz. unfold classify, print. by rewrite parse_i64_to_string. Qed.

Lemma numeric_value l : numeric l = true ↔ is_Some (literal_value l).
Proof.
  unfold numeric, literal_value. destruct (classify l); simpl;
    rewrite ?is_Some_alt; naive_solver.
Qed.

Lemma literal_value_Numeral l z :
  literal_value l = Some z ↔ classify l = Numeral z.
Proof. unfold literal_value. destruct (classify l); naive_solver. Qed.

Lemma literal_value_print z :
  in_i64 z = true → literal_value (print z) = Some z.
Proof. intros Hz. unfold literal_value. by rewrite classify_print. Qed.

Lemma literal_value_in_range l z :
  literal_value l = Some z → in_i64 z = true.
Proof.
  intros (s & -> & Hs)%literal_value_Numeral%classify_Numeral.
  by eapply parse_i64_in_range.
Qed.

(** ** The four helpers, arm by arm *)

(** The two theorems of this part are proved on the arms of the helpers,
    from the definitions alone. *)

(** The arms of a helper against the scheme. *)
Ltac literal_arms a b :=
  destruct a, b; simpl; try done; repeat case_match; simplify_eq;
    try done; by rewrite bind_fmap.

(** C14: [literal_divide] panics on a divisor whose value is zero, and on
    [i64::MIN / -1]: the division of two [i64] is not checked by the code,
    so no error value is returned. *)
Theorem literal_divide_panics (s t : string) x y :
  parse_i64 s = Some x → parse_i64 t = Some y →
  y = 0 ∨ (x = i64_min ∧ y = -1) →
  literal_divide (VE:=VE) (Number s) (Number t) = Panic.
Proof.
  intros Hs Ht Hy. simpl. rewrite Hs, Ht.
  by destruct Hy as [->|[-> ->]].
Qed.

(** C4: The four literal helpers implement one scheme: classify both
    operands, fail with [UnreachableLiteralArithmetic] when one is not a
    numeral, panic when a numeral does not parse, and otherwise print the
    result of the machine operator. *)
Theorem literal_arith_refinement a b :
  literal_add (VE:=VE) p a b = literal_arith_spec Add a b ∧
  literal_subtract (VE:=VE) p a b = literal_arith_spec Sub a b ∧
  literal_multiply (VE:=VE) p a b = literal_arith_spec Mul a b ∧
  literal_divide (VE:=VE) a b = literal_arith_spec Div a b.
Proof. unfold literal_arith_spec, classify. split_and!; literal_arms a b. Qed.

(** ** The scheme, for each operator *)

Lemma literal_arith_refines op a b :
  literal_arith op a b = literal_arith_spec op a b.
Proof. unfold literal_arith_spec, classify. destruct op; literal_arms a b. Qed.

Lemma literal_arith_numerals op a b x y :
  classify a = Numeral x → classify b = Numeral y →
  literal_arith op a b = print <$> i64_binop p op x y.
Proof.
  intros Ha Hb. by rewrite literal_arith_refines; unfold literal_arith_spec;
    rewrite Ha, Hb.
Qed.

Lemma literal_arith_Ok op a b r :
  literal_arith op a b = Ok r ↔
  ∃ x y z, classify a = Numeral x ∧ classify b = Numeral y ∧
    i64_binop (E:=Error VE) p op x y = Ok z ∧ r = print z.
Proof.
  rewrite literal_arith_refines. unfold literal_arith_spec. split.
  - destruct (classify a), (classify b); try done.
    intros (z' & ? & ?)%fmap_Ok_inv. naive_solver.
  - intros (x & y & z & -> & -> & -> & ->). done.
Qed.

(** C11: Literal arithmetic is closed on numerals in range: whenever a
    helper returns, both operands were numerals that parse, the result is
    again a numeral that parses, and its value is the result of the machine
    operator on the operands' values.  So a result can be an operand of the
    next operation without a parse failure. *)
Theorem literal_arith_closed op a b r :
  literal_arith op a b = Ok r →
  numeric r = true ∧
  ∃ x y z, literal_value a = Some x ∧ literal_value b = Some y ∧
    i64_binop (E:=Error VE) p op x y = Ok z ∧ literal_value r = Some z.
Proof.
  intros (x & y & z & Ha & Hb & Hz & ->)%literal_arith_Ok.
  assert (in_i64 x = true) as Hx
    by (apply classify_Numeral in Ha as (? & _ & ?); by eapply parse_i64_in_range).
  pose proof (i64_binop_in_range _ _ _ _ _ Hx Hz) as Hr.
  unfold numeric, literal_value. rewrite Ha, Hb, classify_print by done.
  naive_solver.
Qed.

(** When the exact sum, difference or product of the operands' values
    is in the range of [i64], [literal_add], [literal_subtract] and
    [literal_multiply] return the numeral that prints it, in every build
    profile. *)
Theorem literal_exact (s t : string) x y :
  parse_i64 s = Some x → parse_i64 t = Some y →
  (in_i64 (x + y) = true →
    literal_add (VE:=VE) p (Number s) (Number t) = Ok (print (x + y))) ∧
  (in_i64 (x - y) = true →
    literal_subtract (VE:=VE) p (Number s) (Number t) = Ok (print (x - y))) ∧
  (in_i64 (x * y) = true →
    literal_multiply (VE:=VE) p (Number s) (Number t) = Ok (print (x * y))).
Proof.
  intros Hs Ht. simpl. rewrite Hs, Ht.
  split_and!; intros H; by rewrite (overflowing_exact _ _ H).
Qed.

(** [literal_divide] truncates toward zero: for a divisor other than
    zero, and unless the quotient is [i64::MIN / -1], the result is the
    numeral that prints [x ÷ y]. *)
Theorem literal_divide_truncates (s t : string) x y :
  parse_i64 s = Some x → parse_i64 t = Some y →
  y ≠ 0 → ¬ (x = i64_min ∧ y = -1) →
  literal_divide (VE:=VE) (Number s) (Number t) = Ok (print (x ÷ y)).
Proof.
  intros Hs Ht Hy Hm. simpl. rewrite Hs, Ht.
  by rewrite (proj2 (i64_div_Ok x y (x ÷ y))).
Qed.

(** An operand that is not a numeral makes each of the four helpers
    return the error [UnreachableLiteralArithmetic], whatever the other
    operand is. *)
Theorem literal_not_a_number op a b :
  as_number a = None ∨ as_number b = None →
  literal_arith op a b = Err (EvaluateErr UnreachableLiteralArithmetic).
Proof.
  rewrite literal_arith_refines, <-!classify_NotANumber.
  unfold literal_arith_spec. intros [->| ->]; [done|].
  by destruct (classify a).
Qed.

(** Two numerals of which one does not parse as [i64] (a decimal
    point, an exponent, a value out of range) make each of the four helpers
    panic. *)
Theorem literal_malformed_panics op (s t : string) :
  parse_i64 s = None ∨ parse_i64 t = None →
  literal_arith op (Number s) (Number t) = Panic.
Proof.
  rewrite literal_arith_refines. unfold literal_arith_spec, classify.
  intros [->| ->]; by repeat case_match.
Qed.

(** Literal addition and multiplication are commutative as outcomes:
    exchanging the operands gives the same numeral, the same error or the
    same panic, in every build profile. *)
Theorem literal_commutative a b :
  literal_add (VE:=VE) p a b = literal_add p b a ∧
  literal_multiply (VE:=VE) p a b = literal_multiply p b a.
Proof.
  split;
    [change (literal_arith Add a b = literal_arith Add b a)
    |change (literal_arith Mul a b = literal_arith Mul b a)];
    rewrite !literal_arith_refines;
    unfold literal_arith_spec; destruct (classify a), (classify b);
    simpl; try done; by rewrite 1?Z.add_comm, 1?Z.mul_comm.
Qed.

(** C29: Subtraction undoes addition on literals: when [a + b] returns [c],
    [c - b] returns a numeral with the value of [a], in every build profile
    (with overflow checks nothing was lost; without them the two
    wrap-arounds cancel). *)
Theorem literal_add_subtract a b c :
  literal_add (VE:=VE) p a b = Ok c →
  ∃ a', literal_subtract (VE:=VE) p c b = Ok a' ∧
    literal_value a' = literal_value a ∧ numeric a' = true.
Proof.
  intros (x & y & z & Ha & Hb & Hz & ->)%(literal_arith_Ok Add).
  assert (in_i64 x = true) as Hx
    by (apply classify_Numeral in Ha as (? & _ & ?); by eapply parse_i64_in_range).
  pose proof (i64_binop_in_range _ _ _ _ _ Hx Hz) as Hr.
  exists (print x). unfold literal_value, numeric.
  rewrite Ha, classify_print by done. split; [|done].
  etrans; [apply (literal_arith_numerals Sub); [by apply classify_print|done]|].
  simpl in *. by rewrite (overflowing_cancel _ _ _ _ Hx Hz).
Qed.

End arithmetic_lemmas.

(** C28: Out of the range of [i64], the sum, difference or product panics
    in a build with overflow checks and wraps around to 64 bits in a build
    without: the result is then the numeral of the wrapped value. *)
Theorem literal_overflow {VE} op a b x y z :
  op ≠ Div → classify a = Numeral x → classify b = Numeral y →
  z = match op with Add => x + y | Sub => x - y | _ => x * y end →
  in_i64 z = false →
  literal_arith (VE:=VE) Debug op a b = Panic ∧
  literal_arith (VE:=VE) Release op a b = Ok (print (wrap_i64 z)).
Proof.
  intros Hop Ha Hb -> Hz. rewrite !(literal_arith_numerals _ _ _ _ _ _ Ha Hb).
  destruct op; try done; simpl;
    by rewrite overflowing_Release, (overflowing_Debug _ Hz).
Qed.

Lemma literal_partial_cmp_defined_int a b x y :
  literal_value a = Some x → literal_value b = Some y →
  literal_partial_cmp a b = Some (x ?= y).
Proof.
  intros (s & -> & Hs)%literal_value_Numeral%classify_Numeral
    (t & -> & Ht)%literal_value_Numeral%classify_Numeral.
  by apply literal_partial_cmp_numbers.
Qed.

(** [literal_partial_cmp] answers for exactly two kinds of pairs: two
    numerals that both parse, compared as integers, and two single-quoted
    strings, compared as texts. *)
Theorem literal_partial_cmp_defined a b o :
  literal_partial_cmp a b = Some o ↔
  (∃ x y, literal_value a = Some x ∧ literal_value b = Some y ∧
      o = (x ?= y)) ∨
  (∃ l r, a = SingleQuotedString l ∧ b = SingleQuotedString r ∧
      o = str_cmp l r).
Proof.
  rewrite literal_partial_cmp_Some. unfold literal_value.
  split; (intros [H|H]; [left|by right]).
  - destruct H as (l & r & x & y & -> & -> & Hl & Hr & ->).
    exists x, y. simpl. by rewrite Hl, Hr.
  - destruct H as (x & y & Ha & Hb & ->).
    destruct (classify a) eqn:Ha', (classify b) eqn:Hb'; simplify_eq.
    apply classify_Numeral in Ha' as (l & -> & ?).
    apply classify_Numeral in Hb' as (r & -> & ?). naive_solver.
Qed.

(** C31: [literal_partial_cmp] is transitive: two comparisons with the same
    ordering compose, for numerals and for strings. *)
Theorem literal_partial_cmp_trans a b c o :
  literal_partial_cmp a b = Some o → literal_partial_cmp b c = Some o →
  literal_partial_cmp a c = Some o.
Proof.
  rewrite !literal_partial_cmp_Some.
  intros [(l & r & x & y & -> & -> & Hl & Hr & Ho)|(l & r & -> & -> & Ho)]
    [(l' & r' & x' & y' & ? & -> & Hl' & Hr' & Ho')|(l' & r' & ? & -> & Ho')];
    simplify_eq; [left|right].
  - exists l, r', x, y'. split_and!; try done.
    symmetry. by eapply Z_compare_trans.
  - exists l, r'. split_and!; try done. symmetry. by eapply str_cmp_trans.
Qed.

(** C30: Numerals are ordered by the integers they denote, not by their
    texts: [literal_partial_cmp] on two numerals answers exactly when both
    denote an integer in the range of [i64] (an optional sign, digits,
    leading zeros allowed), with the order of the two integers. *)
Theorem literal_partial_cmp_numerals (s t : string) o :
  literal_partial_cmp (Number s) (Number t) = Some o ↔
  ∃ x y, numeral_value s = Some x ∧ numeral_value t = Some y ∧
    in_i64 x = true ∧ in_i64 y = true ∧ o = (x ?= y).
Proof.
  simpl. destruct (parse_i64 s) as [x|] eqn:Hs, (parse_i64 t) as [y|] eqn:Ht.
  - apply parse_i64_Some in Hs, Ht. naive_solver.
  - split; [done|]. intros (x' & y' & ? & ? & ? & ? & _).
    by rewrite (proj2 (parse_i64_Some t y')) in Ht.
  - split; [done|]. intros (x' & y' & ? & ? & ? & ? & _).
    by rewrite (proj2 (parse_i64_Some s x')) in Hs.
  - split; [done|]. intros (x' & y' & ? & ? & ? & ? & _).
    by rewrite (proj2 (parse_i64_Some s x')) in Hs.
Qed.

(** The order and the equality of literals disagree on numerals: two
    numerals with different texts and the same value compare [Equal] and
    are not equal. *)
Theorem literal_cmp_eq_disagree :
  literal_partial_cmp (Number "1") (Number "01") = Some Equal ∧
  ast_eq (Number "1") (Number "01") = false.
Proof. done. Qed.

(** ** Witnesses *)

Lemma literal_arith_closed_witness :
  numeric (Number "6") = true ∧
  ∃ x y z, literal_value (Number "2") = Some x ∧
    literal_value (Number "3") = Some y ∧
    i64_binop (E:=Error Empty_set) Debug Mul x y = Ok z ∧
    literal_value (Number "6") = Some z.
Proof.
  exact (literal_arith_closed (VE:=Empty_set) Debug Mul
    (Number "2") (Number "3") (Number "6") eq_refl).
Defined.

Lemma literal_add_subtract_witness :
  ∃ a', literal_subtract (VE:=Empty_set) Release
      (Number "-9223372036854775808") (Number "1") = Ok a' ∧
    literal_value a' = literal_value (Number "+9223372036854775807") ∧
    numeric a' = true.
Proof.
  exact (literal_add_subtract (VE:=Empty_set) Release
    (Number "+9223372036854775807") (Number "1")
    (Number "-9223372036854775808") eq_refl).
Defined.

Lemma literal_partial_cmp_trans_witness :
  literal_partial_cmp (Number "1") (Number "10") = Some Less.
Proof.
  exact (literal_partial_cmp_trans (Number "1") (Number "02") (Number "10")
    Less eq_refl eq_refl).
Defined.

Lemma literal_exact_witness :
  literal_add (VE:=Empty_set) Release (Number "2") (Number "3")
    = Ok (Number "5") ∧
  literal_subtract (VE:=Empty_set) Release (Number "2") (Number "3")
    = Ok (Number "-1") ∧
  literal_multiply (VE:=Empty_set) Release (Number "2") (Number "3")
    = Ok (Number "6").
Proof.
  destruct (literal_exact (VE:=Empty_set) Release "2" "3" 2 3 eq_refl eq_refl)
    as (Ha & Hs & Hm).
  exact (conj (Ha eq_refl) (conj (Hs eq_refl) (Hm eq_refl))).
Defined.

Lemma literal_divide_truncates_witness :
  literal_divide (VE:=Empty_set) (Number "-7") (Number "2")
    = Ok (Number "-3").
Proof.
  apply (literal_divide_truncates (VE:=Empty_set) "-7" "2" (-7) 2);
    [reflexivity|reflexivity|lia|lia].
Defined.

Lemma literal_divide_panics_witness :
  literal_divide (VE:=Empty_set) (Number "1") (Number "0") = Panic.
Proof.
  apply (literal_divide_panics (VE:=Empty_set) "1" "0" 1 0);
    [reflexivity|reflexivity|left; reflexivity].
Defined.

Lemma literal_not_a_number_witness :
  literal_arith (VE:=Empty_set) Debug Add (Number "1") (SingleQuotedString "2")
    = Err (EvaluateErr UnreachableLiteralArithmetic).
Proof.
  apply (literal_not_a_number (VE:=Empty_set) Debug Add). right. reflexivity.
Defined.

Lemma literal_malformed_panics_witness :
  literal_arith (VE:=Empty_set) Debug Add (Number "1.5") (Number "2") = Panic.
Proof.
  apply (literal_malformed_panics (VE:=Empty_set) Debug Add). left.
  reflexivity.
Defined.

Lemma literal_overflow_witness :
  literal_arith (VE:=Empty_set) Debug Add
    (Number "9223372036854775807") (Number "1") = Panic ∧
  literal_arith (VE:=Empty_set) Release Add
    (Number "9223372036854775807") (Number "1")
    = Ok (Number "-9223372036854775808").
Proof.
  apply (literal_overflow (VE:=Empty_set) Add _ _ i64_max 1 (i64_max + 1));
    [discriminate|reflexivity..].
Defined.
