(* ===== verification/Evaluated.v ===== *)
(** * Evaluated: the five representations, their equality and their order

    [enum Evaluated] (lines 11-17 of [evaluated.rs]) with its
    [impl PartialEq] (lines 19-71) and [impl PartialOrd] (lines 73-116).
    Both methods match on the pair of representations; some pairs are
    answered by the literal or by the typed domain, some are fixed, and some
    [panic!()].  The result type is [outcome Empty_set _]: a value or a
    panic, never an error.

    The specification gives the two methods by domain, whatever the
    ownership of the operands (sections 4.1 and 4.2).  [eq_spec] and
    [partial_cmp_spec] are these rules on what an operand holds
    ([datum_of]), with the pairs of representations on which the code
    departs from them; [eq_refinement] and [partial_cmp_refinement] say
    that the code implements them.

    The theorems are proved for every typed domain; those on symmetry
    need [ValueDomainLaws].  The witnesses run on the sample instance of
    [Data]. *)

From Stdlib Require Import ZArith String.
From stdpp Require Import base tactics option list sets.
From S2P Require Import Prelude Int64 AstValue ValueDomain Data Literal.

Inductive Evaluated (V : Type) :=
| LiteralRef (l : AstValue)
| Literal (l : AstValue)
| StringRef (s : string)
| ValueRef (v : V)
| Value (v : V).

Arguments LiteralRef {V} l.
Arguments Literal {V} l.
Arguments StringRef {V} s.
Arguments ValueRef {V} v.
Arguments Value {V} v.

#[export] Instance Evaluated_eq_dec {V} `{EqDecision V} :
  EqDecision (Evaluated V).
Proof. solve_decision. Defined.

(** The representation of a value, without its content. *)
Inductive kind := KLiteralRef | KLiteral | KStringRef | KValueRef | KValue.

#[export] Instance kind_eq_dec : EqDecision kind.
Proof. solve_decision. Defined.

Definition kind_of {V} (e : Evaluated V) : kind :=
  match e with
  | LiteralRef _ => KLiteralRef
  | Literal _ => KLiteral
  | StringRef _ => KStringRef
  | ValueRef _ => KValueRef
  | Value _ => KValue
  end.

Section evaluated.
Context {V VE : Type} `{!ValueDomain V VE}.

(** The closure [eq_ast] of [eq]. *)
Definition eq_ast (l : AstValue) (r : string) : bool :=
  match l with
  | SingleQuotedString l => String.eqb l r
  | _ => false
  end.

(** The closure [eq_val] of [eq]. *)
Definition eq_val (l : V) (r : string) : bool :=
  match value_as_str l with
  | Some l => String.eqb l r
  | None => false
  end.

(** [PartialEq::eq] *)
Definition eq (self other : Evaluated V) : outcome Empty_set bool :=
  match self with
  | LiteralRef l =>
      match other with
      | LiteralRef r => Ok (ast_eq l r)
      | StringRef r => Ok (eq_ast l r)
      | ValueRef r => Ok (value_eq_literal r l)
      | Value r => Ok (value_eq_literal r l)
      | Literal _ => Panic
      end
  | StringRef l =>
      match other with
      | LiteralRef r => Ok (eq_ast r l)
      | StringRef r => Ok (String.eqb l r)
      | ValueRef r => Ok (eq_val r l)
      | Value r => Ok (eq_val r l)
      | Literal _ => Ok false
      end
  | ValueRef l =>
      match other with
      | LiteralRef r => Ok (value_eq_literal l r)
      | Literal r => Ok (value_eq_literal l r)
      | StringRef r => Ok (eq_val l r)
      | ValueRef r => Ok (value_eq l r)
      | Value r => Ok (value_eq l r)
      end
  | Value l =>
      match other with
      | LiteralRef r => Ok (value_eq_literal l r)
      | StringRef r => Ok (eq_val l r)
      | ValueRef r => Ok (value_eq l r)
      | Value r => Ok (value_eq l r)
      | Literal _ => Panic
      end
  | Literal l =>
      match other with
      | ValueRef r => Ok (value_eq_literal r l)
      | StringRef _ => Ok false
      | _ => Panic
      end
  end.

(** The arm [StringRef(r) => match l { Value::Str(l) => ..., _ => None }]. *)
Definition str_partial_cmp (l : V) (r : string) : option Ordering :=
  match value_as_str l with
  | Some l => Some (str_cmp l r)
  | None => None
  end.

(** [PartialOrd::partial_cmp] *)
Definition partial_cmp (self other : Evaluated V)
    : outcome Empty_set (option Ordering) :=
  match self with
  | LiteralRef l =>
      match other with
      | LiteralRef r => Ok (literal_partial_cmp l r)
      | ValueRef r => Ok (reverse <$> value_partial_cmp_literal r l)
      | Value r => Ok (reverse <$> value_partial_cmp_literal r l)
      | StringRef _ => Ok None
      | Literal _ => Panic
      end
  | ValueRef l =>
      match other with
      | LiteralRef r => Ok (value_partial_cmp_literal l r)
      | ValueRef r => Ok (value_partial_cmp l r)
      | Value r => Ok (value_partial_cmp l r)
      | StringRef r => Ok (str_partial_cmp l r)
      | Literal _ => Panic
      end
  | Value l =>
      match other with
      | LiteralRef r => Ok (value_partial_cmp_literal l r)
      | ValueRef r => Ok (value_partial_cmp l r)
      | Value r => Ok (value_partial_cmp l r)
      | StringRef r => Ok (str_partial_cmp l r)
      | Literal _ => Panic
      end
  | StringRef l =>
      match other with
      | LiteralRef _ => Ok None
      | ValueRef r =>
          match value_as_str r with
          | Some r => Ok (Some (str_cmp l r))
          | None => Ok None
          end
      | Value r =>
          match value_as_str r with
          | Some r => Ok (Some (str_cmp l r))
          | None => Ok None
          end
      | StringRef r => Ok (Some (str_cmp l r))
      | Literal _ => Panic
      end
  | Literal _ => Panic
  end.

(** The pairs of representations on which [eq] panics. *)
Definition eq_unreachable : list (kind * kind) :=
  [ (KLiteralRef, KLiteral); (KValue, KLiteral);
    (KLiteral, KLiteralRef); (KLiteral, KLiteral); (KLiteral, KValue) ].

End evaluated.

(** The typed value an [Evaluated] holds, borrowed or owned. *)
Definition typed_value {V} (e : Evaluated V) : option V :=
  match e with
  | ValueRef v | Value v => Some v
  | _ => None
  end.

(** The literal an [Evaluated] borrows. *)
Definition borrowed_literal {V} (e : Evaluated V) : option AstValue :=
  match e with LiteralRef l => Some l | _ => None end.

(** ** The rules of the specification

    The specification (sections 4.1 and 4.2) gives the equality and the
    order by domain: an operand holds a literal node, a text or a typed
    value, and its ownership plays no role.  [datum_eq] and [datum_cmp]
    are these rules on the three domains; [eq_spec] and
    [partial_cmp_spec] add the pairs of representations on which the code
    departs from them. *)

(** What an operand holds, without its ownership. *)
Inductive datum (V : Type) :=
| DLiteral (l : AstValue)
| DText (s : string)
| DTyped (v : V).

Arguments DLiteral {V} l.
Arguments DText {V} s.
Arguments DTyped {V} v.

Definition datum_of {V} (e : Evaluated V) : datum V :=
  match e with
  | LiteralRef l | Literal l => DLiteral l
  | StringRef s => DText s
  | ValueRef v | Value v => DTyped v
  end.

(** The pairs of representations on which [eq] is false whatever the
    operands hold. *)
Definition eq_never : list (kind * kind) :=
  [ (KLiteral, KStringRef); (KStringRef, KLiteral) ].

Section specification.
Context {V VE : Type} `{!ValueDomain V VE}.

(** Section 4.1: two literals and two typed values are compared in their
    domain, a text equals the single-quoted literal and the text value
    with that text.  For a typed value against a literal the section has
    no rule; the rule here is the code's, which asks the typed domain
    ([impl PartialEq<AstValue> for Value]). *)
Definition datum_eq (x y : datum V) : bool :=
  match x, y with
  | DLiteral l, DLiteral r => ast_eq l r
  | DTyped v, DTyped w => value_eq v w
  | DTyped v, DLiteral l | DLiteral l, DTyped v => value_eq_literal v l
  | DText s, DText t => bool_decide (s = t)
  | DText s, DLiteral l | DLiteral l, DText s =>
      bool_decide (l = SingleQuotedString s)
  | DText s, DTyped v | DTyped v, DText s =>
      bool_decide (value_as_str v = Some s)
  end.

(** Section 4.2: two literals are ordered by [literal_partial_cmp], a
    typed value against a typed value or a literal by the typed domain
    (reversed when the literal comes first), a text against a text or a
    text value by their texts; a text and a literal are not ordered. *)
Definition datum_cmp (x y : datum V) : option Ordering :=
  match x, y with
  | DLiteral l, DLiteral r => literal_partial_cmp l r
  | DTyped v, DTyped w => value_partial_cmp v w
  | DTyped v, DLiteral l => value_partial_cmp_literal v l
  | DLiteral l, DTyped v => reverse <$> value_partial_cmp_literal v l
  | DText s, DText t => Some (str_cmp s t)
  | DText s, DTyped v => str_cmp s <$> value_as_str v
  | DTyped v, DText s => (λ t, str_cmp t s) <$> value_as_str v
  | DText _, DLiteral _ | DLiteral _, DText _ => None
  end.

(** [eq] as the specification has it: the rules on what the operands
    hold, but for the pairs of representations that panic and those that
    are never equal. *)
Definition eq_spec (a b : Evaluated V) : outcome Empty_set bool :=
  if bool_decide ((kind_of a, kind_of b) ∈ eq_unreachable) then Panic
  else if bool_decide ((kind_of a, kind_of b) ∈ eq_never) then Ok false
  else Ok (datum_eq (datum_of a) (datum_of b)).

(** [partial_cmp] as the specification has it: the rules on what the
    operands hold, but for an owned literal, which panics. *)
Definition partial_cmp_spec (a b : Evaluated V)
    : outcome Empty_set (option Ordering) :=
  if bool_decide (kind_of a = KLiteral ∨ kind_of b = KLiteral) then Panic
  else Ok (datum_cmp (datum_of a) (datum_of b)).

End specification.

Section evaluated_lemmas.
Context {V VE : Type} `{!ValueDomain V VE}.
Implicit Types (a b : Evaluated V) (l r : AstValue) (s t : string) (v w : V).
Implicit Types (x y : datum V).

Lemma eq_ast_true l s : eq_ast l s = true ↔ l = SingleQuotedString s.
Proof. destruct l; simpl; rewrite ?String.eqb_eq; naive_solver. Qed.

Lemma eq_ast_decide l s :
  eq_ast l s = bool_decide (l = SingleQuotedString s).
Proof.
  apply eq_true_iff_eq. by rewrite eq_ast_true, bool_decide_eq_true.
Qed.

Lemma eq_val_true v s : eq_val v s = true ↔ value_as_str v = Some s.
Proof.
  unfold eq_val. destruct (value_as_str v); rewrite ?String.eqb_eq;
    naive_solver.
Qed.

Lemma eq_val_decide v s :
  eq_val v s = bool_decide (value_as_str v = Some s).
Proof.
  apply eq_true_iff_eq. by rewrite eq_val_true, bool_decide_eq_true.
Qed.

Lemma typed_value_Some a v :
  typed_value a = Some v ↔ a = ValueRef v ∨ a = Value v.
Proof. destruct a; naive_solver. Qed.

Lemma eqb_decide s t : String.eqb s t = bool_decide (s = t).
Proof.
  apply eq_true_iff_eq. by rewrite String.eqb_eq, bool_decide_eq_true.
Qed.

(** ** Equality *)

(** The three theorems on [eq] are proved on its 25 arms, from the
    definition alone.  The lemmas after them state the same facts under
    the names the rest of the library uses. *)

(** The arms of [eq] that panic. *)
Ltac eq_panic_arms a b :=
  unfold eq_unreachable; destruct a, b; simpl; split; try done;
    intros ?; try set_solver.

(** The arms of [eq] against the mirrored arms. *)
Ltac eq_mirrored_arms a b :=
  destruct a, b; simpl; f_equal;
    auto using value_eq_sym, String.eqb_sym with evaluated.

(** The arms of [eq] against the rules. *)
Ltac eq_arms_by_rule a b :=
  destruct a, b; unfold eq_spec; simpl;
    by rewrite ?eq_ast_decide, ?eq_val_decide, ?eqb_decide.

(** C12: [eq] panics on exactly five pairs of representations, each with an
    owned literal: a borrowed literal or an owned value against an owned
    literal, and an owned literal against a borrowed literal, an owned
    literal or an owned value.  On every other pair it returns. *)
Theorem eq_panics_iff a b :
  eq a b = Panic ↔ (kind_of a, kind_of b) ∈ eq_unreachable.
Proof. eq_panic_arms a b. Qed.

(** C6: [eq] is symmetric as an outcome: for every pair of representations,
    [eq a b] and [eq b a] return the same truth value or both panic,
    provided the equality of the typed domain is symmetric. *)
Theorem eq_symmetric `{!ValueDomainLaws V VE} a b : eq a b = eq b a.
Proof. eq_mirrored_arms a b. Qed.

(** C2: [eq] implements the rules of the specification (section 4.1) on
    what the two operands hold, a literal node, a text or a typed value,
    for all 25 pairs of representations but seven: the five pairs that
    panic and an owned literal against a string slice, in both orders,
    which is never equal. *)
Theorem eq_refinement a b : eq a b = eq_spec a b.
Proof. eq_arms_by_rule a b. Qed.

Lemma eq_flip `{!ValueDomainLaws V VE} a b : eq a b = eq b a.
Proof. eq_mirrored_arms a b. Qed.

Lemma eq_Panic a b :
  eq a b = Panic ↔ (kind_of a, kind_of b) ∈ eq_unreachable.
Proof. eq_panic_arms a b. Qed.

Lemma eq_Panic_owned a b :
  eq a b = Panic → kind_of a = KLiteral ∨ kind_of b = KLiteral.
Proof. destruct a, b; simpl; intros; simplify_eq; auto. Qed.

Lemma eq_eq_spec a b : eq a b = eq_spec a b.
Proof. eq_arms_by_rule a b. Qed.

(** The rules of section 4.1 are symmetric when the equality of the typed
    domain is. *)
Lemma datum_eq_sym `{!ValueDomainLaws V VE} x y : datum_eq x y = datum_eq y x.
Proof.
  destruct x, y; simpl; auto using value_eq_sym with evaluated;
    apply bool_decide_ext; naive_solver.
Qed.

(** Where neither operand is an owned literal, [eq] is the rules. *)
Lemma eq_datum a b :
  kind_of a ≠ KLiteral → kind_of b ≠ KLiteral →
  eq a b = Ok (datum_eq (datum_of a) (datum_of b)).
Proof. rewrite eq_eq_spec. by destruct a, b. Qed.

(** On two typed values [eq] is the equality of the typed domain,
    whether each value is borrowed or owned. *)
Theorem eq_typed a b v w :
  typed_value a = Some v → typed_value b = Some w →
  eq a b = Ok (value_eq v w).
Proof. intros [->| ->]%typed_value_Some [->| ->]%typed_value_Some; done. Qed.

(** A string slice equals a borrowed literal exactly when the literal
    is the single-quoted string with that text, in both orders of the
    operands. *)
Theorem eq_string_literal s l :
  eq (V:=V) (StringRef s) (LiteralRef l)
    = Ok (bool_decide (l = SingleQuotedString s)) ∧
  eq (V:=V) (LiteralRef l) (StringRef s)
    = Ok (bool_decide (l = SingleQuotedString s)).
Proof. simpl. by rewrite eq_ast_decide. Qed.

(** A string slice equals a typed value, borrowed or owned, exactly
    when the value is a text value with that text. *)
Theorem eq_string_typed s a v :
  typed_value a = Some v →
  eq (StringRef s) a = Ok (bool_decide (value_as_str v = Some s)) ∧
  eq a (StringRef s) = Ok (bool_decide (value_as_str v = Some s)).
Proof.
  intros [->| ->]%typed_value_Some; simpl; by rewrite eq_val_decide.
Qed.

(** Ownership of a literal changes the answer of [eq] against a string
    slice: the borrowed single-quoted string equals the slice with its
    text, the owned one does not, and neither call panics. *)
Theorem eq_owned_literal_string s :
  eq (V:=V) (LiteralRef (SingleQuotedString s)) (StringRef s) = Ok true ∧
  eq (V:=V) (Literal (SingleQuotedString s)) (StringRef s) = Ok false ∧
  eq (V:=V) (StringRef s) (Literal (SingleQuotedString s)) = Ok false.
Proof. simpl. by rewrite String.eqb_refl. Qed.

(** Ownership of a typed value changes the outcome of [eq] against an
    owned literal: the borrowed value is compared by the typed domain, the
    owned value panics. *)
Theorem eq_owned_value_literal v l :
  eq (ValueRef v) (Literal l) = Ok (value_eq_literal v l) ∧
  eq (Value v) (Literal l) = Panic.
Proof. done. Qed.

(** ** The partial order *)

Lemma str_partial_cmp_Some v s o :
  str_partial_cmp v s = Some o ↔
  ∃ t, value_as_str v = Some t ∧ o = str_cmp t s.
Proof. unfold str_partial_cmp. destruct (value_as_str v); naive_solver. Qed.

(** As for [eq], the three theorems on [partial_cmp] are proved on its
    arms, and the lemmas after them state the same facts for the rest of
    the library. *)

(** The arms of [partial_cmp] that panic. *)
Ltac cmp_panic_arms a b :=
  destruct a, b; simpl; repeat case_match; naive_solver.

(** The arms of [partial_cmp] against the mirrored arms. *)
Ltac cmp_mirrored_arms a b :=
  destruct a, b; simpl; unfold str_partial_cmp; repeat case_match;
    simpl; rewrite ?fmap_Ok; try done; f_equal;
    rewrite ?fmap_reverse_involutive;
    auto using literal_partial_cmp_reverse, value_partial_cmp_antisym;
    simpl; f_equal; auto with evaluated.

(** The arms of [partial_cmp] against the rules. *)
Ltac cmp_arms_by_rule a b :=
  destruct a, b; unfold partial_cmp_spec, str_partial_cmp; simpl;
    by repeat case_match.

(** C13: [partial_cmp] panics exactly when one of the two operands is an
    owned literal. *)
Theorem partial_cmp_panics_iff a b :
  partial_cmp a b = Panic ↔ kind_of a = KLiteral ∨ kind_of b = KLiteral.
Proof. cmp_panic_arms a b. Qed.

(** C7: [partial_cmp] is antisymmetric as an outcome: [partial_cmp b a] is
    [partial_cmp a b] with the ordering reversed; one is absent exactly
    when the other is, and one panics exactly when the other does. *)
Theorem partial_cmp_antisymmetric `{!ValueDomainLaws V VE} a b :
  partial_cmp a b = fmap (M:=option) reverse <$> partial_cmp b a.
Proof. cmp_mirrored_arms a b. Qed.

(** C3: [partial_cmp] implements the rules of the specification (section
    4.2) on what the two operands hold, for every pair of representations
    without an owned literal, and panics as soon as an operand is an
    owned literal. *)
Theorem partial_cmp_refinement a b : partial_cmp a b = partial_cmp_spec a b.
Proof. cmp_arms_by_rule a b. Qed.

Lemma partial_cmp_flip `{!ValueDomainLaws V VE} a b :
  partial_cmp a b = fmap (M:=option) reverse <$> partial_cmp b a.
Proof. cmp_mirrored_arms a b. Qed.

Lemma partial_cmp_Panic a b :
  partial_cmp a b = Panic ↔ kind_of a = KLiteral ∨ kind_of b = KLiteral.
Proof. cmp_panic_arms a b. Qed.

Lemma partial_cmp_eq_spec a b : partial_cmp a b = partial_cmp_spec a b.
Proof. cmp_arms_by_rule a b. Qed.

(** The rules of section 4.2 are antisymmetric when the order of the
    typed domain is. *)
Lemma datum_cmp_flip `{!ValueDomainLaws V VE} x y :
  datum_cmp x y = reverse <$> datum_cmp y x.
Proof.
  destruct x, y; simpl; rewrite ?fmap_reverse_involutive;
    auto using literal_partial_cmp_reverse, value_partial_cmp_antisym;
    try (destruct (value_as_str _)); simpl; f_equal; auto with evaluated.
Qed.

(** Where neither operand is an owned literal, [partial_cmp] is the
    rules. *)
Lemma partial_cmp_datum a b :
  kind_of a ≠ KLiteral → kind_of b ≠ KLiteral →
  partial_cmp a b = Ok (datum_cmp (datum_of a) (datum_of b)).
Proof. rewrite partial_cmp_eq_spec. by destruct a, b. Qed.

(** A string slice is ordered against another string slice and against
    a text value, by their texts, and against nothing else: whenever
    [partial_cmp] on a string slice returns an ordering, the other operand
    is one of those two. *)
Theorem partial_cmp_string s b o :
  partial_cmp (StringRef s) b = Ok (Some o) ↔
  (∃ t, b = StringRef t ∧ o = str_cmp s t) ∨
  (∃ v t, typed_value b = Some v ∧ value_as_str v = Some t ∧
      o = str_cmp s t).
Proof.
  destruct b; simpl; repeat case_match; split; intros; simplify_eq;
    try naive_solver.
Qed.

(** C36: Every borrowed literal is equal to itself, and it is comparable
    with itself only when it is a numeral that parses as [i64] or a
    single-quoted string: a numeral with a decimal point, a boolean or NULL
    is equal to itself by [eq] and has no order against itself. *)
Theorem literal_reflexivity l :
  eq (V:=V) (LiteralRef l) (LiteralRef l) = Ok true ∧
  (partial_cmp (V:=V) (LiteralRef l) (LiteralRef l) = Ok (Some Equal) ↔
    numeric l = true ∨ is_Some (as_single_quoted l)).
Proof.
  simpl. rewrite ast_eq_refl. split; [done|]. split.
  - intros [= [(s & t & x & y & -> & _ & Hs & _)|(s & t & -> & _)]
      %literal_partial_cmp_Some]; [left|by right].
    unfold numeric. simpl. by rewrite Hs.
  - intros [Hn|[s Hs]]; do 2 f_equal.
    + apply numeric_value in Hn as [x Hx].
      rewrite (literal_partial_cmp_defined_int l l x x) by done.
      by rewrite Z.compare_refl.
    + destruct l; simplify_eq/=. by rewrite str_cmp_refl.
Qed.

(** [eq] and [partial_cmp] disagree on a string slice against the
    borrowed single-quoted string with the same text: they are equal and
    incomparable. *)
Theorem eq_partial_cmp_disagree s :
  eq (V:=V) (StringRef s) (LiteralRef (SingleQuotedString s)) = Ok true ∧
  partial_cmp (V:=V) (StringRef s) (LiteralRef (SingleQuotedString s))
    = Ok None.
Proof. simpl. by rewrite String.eqb_refl. Qed.

(** A typed value against an owned literal: [eq] asks the typed
    domain, [partial_cmp] panics, for a borrowed and for an owned value. *)
Theorem partial_cmp_owned_literal a v l :
  typed_value a = Some v →
  partial_cmp a (Literal l) = Panic ∧
  eq (ValueRef v) (Literal l) = Ok (value_eq_literal v l).
Proof. by intros [->| ->]%typed_value_Some. Qed.

(** On two typed values [partial_cmp] is the partial order of the
    typed domain, and on a typed value against a borrowed literal it is the
    domain's order against literals, reversed when the literal comes
    first; ownership of the value plays no role. *)
Theorem partial_cmp_typed a v :
  typed_value a = Some v →
  (∀ b w, typed_value b = Some w →
    partial_cmp a b = Ok (value_partial_cmp v w)) ∧
  (∀ l, partial_cmp a (LiteralRef l) = Ok (value_partial_cmp_literal v l) ∧
    partial_cmp (LiteralRef l) a
      = Ok (reverse <$> value_partial_cmp_literal v l)).
Proof.
  intros [->| ->]%typed_value_Some; (split; [|done]);
    by intros b w [->| ->]%typed_value_Some.
Qed.

End evaluated_lemmas.

(** ** A string slice is a text value that was not allocated *)

Section string_as_value.
Context {V VE : Type} `{!ValueDomain V VE} `{!ValueStrLaws V VE}.
Implicit Types (a b : Evaluated V) (s t : string) (v w : V).

Lemma eq_val_text w v s :
  value_as_str w = Some s → eq_val v s = value_eq w v.
Proof.
  intros Hw. unfold eq_val. destruct (value_as_str v) as [t|] eqn:Hv.
  - by rewrite (value_str_eq w v s t), (String.eqb_sym t s).
  - by rewrite (value_str_eq_other w v s).
Qed.

Lemma str_cmp_text w v s :
  value_as_str w = Some s →
  match value_as_str v with Some t => Some (str_cmp s t) | None => None end
  = value_partial_cmp w v.
Proof.
  intros Hw. destruct (value_as_str v) as [t|] eqn:Hv.
  - by rewrite (value_str_cmp w v s t).
  - by rewrite (value_str_cmp_other w v s).
Qed.

(** Against a string slice or a typed value, a string slice behaves as
    the text value with its text, for [eq] and for [partial_cmp]: the
    slice stands for a text value that was not allocated. *)
Theorem string_as_text_value s w b :
  value_as_str w = Some s →
  kind_of b ∈ [KStringRef; KValueRef; KValue] →
  eq (StringRef s) b = eq (Value w) b ∧
  partial_cmp (StringRef s) b = partial_cmp (Value w) b.
Proof.
  intros Hw Hb. destruct b as [| |t|v|v]; simpl in *; try set_solver.
  - unfold eq_val, str_partial_cmp. by rewrite Hw.
  - rewrite (eq_val_text w v s), <-(str_cmp_text w v s) by done.
    by destruct (value_as_str v).
  - rewrite (eq_val_text w v s), <-(str_cmp_text w v s) by done.
    by destruct (value_as_str v).
Qed.

(** C35: [partial_cmp] is not transitive across representations: a quoted
    literal below a text value that is below a string slice is not below
    the slice, since a literal and a string slice are never comparable. *)
Theorem partial_cmp_not_transitive v s t u :
  value_as_str v = Some t → str_cmp s t = Less → str_cmp t u = Less →
  partial_cmp (LiteralRef (SingleQuotedString s)) (ValueRef v)
    = Ok (Some Less) ∧
  partial_cmp (ValueRef v) (StringRef u) = Ok (Some Less) ∧
  partial_cmp (V:=V) (LiteralRef (SingleQuotedString s)) (StringRef u)
    = Ok None.
Proof.
  intros Hv Hst Htu. simpl. unfold str_partial_cmp.
  rewrite (value_str_cmp_literal v t) by done. simpl.
  by rewrite Hv, <-str_cmp_reverse, Hst, Htu.
Qed.

End string_as_value.

(** ** Equality through conversion *)

Section conversion.
Context {V VE : Type} `{!ValueDomain V VE} `{!ValueLiteralLaws V VE}.
Implicit Types (a b : Evaluated V) (v w : V) (l : AstValue).

(** A typed value against a literal is compared as the typed value
    against the literal converted to its type, whatever the type is, and
    is unequal to a literal that cannot be converted.  This is the
    counterpart for [eq] of the conversion the operators make. *)
Theorem eq_conversion a v l :
  typed_value a = Some v →
  eq a (LiteralRef l) =
    match value_clone_by v l with
    | Ok w => eq a (Value w)
    | _ => Ok false
    end.
Proof.
  intros [->| ->]%typed_value_Some; simpl;
    rewrite (value_eq_literal_convert v l); by case_match.
Qed.

End conversion.

(** ** Witnesses, on the sample instance *)

Lemma eq_symmetric_witness :
  eq (ValueRef (I64 1)) (LiteralRef (Number "1"))
  = eq (LiteralRef (Number "1")) (ValueRef (I64 1)).
Proof.
  exact (eq_symmetric (V:=Data.Value) (ValueRef (I64 1))
    (LiteralRef (Number "1"))).
Defined.

Lemma partial_cmp_not_transitive_witness :
  partial_cmp (LiteralRef (SingleQuotedString "a")) (ValueRef (Str "b"))
    = Ok (Some Less) ∧
  partial_cmp (ValueRef (Str "b")) (StringRef "c") = Ok (Some Less) ∧
  partial_cmp (V:=Data.Value) (LiteralRef (SingleQuotedString "a"))
    (StringRef "c") = Ok None.
Proof.
  exact (partial_cmp_not_transitive (V:=Data.Value) (Str "b") "a" "b" "c"
    eq_refl eq_refl eq_refl).
Defined.

Lemma eq_typed_witness : eq (ValueRef (I64 3)) (Value (I64 3)) = Ok true.
Proof.
  exact (eq_typed (V:=Data.Value) (ValueRef (I64 3)) (Value (I64 3))
    (I64 3) (I64 3) eq_refl eq_refl).
Defined.

Lemma eq_string_typed_witness :
  eq (StringRef "abc") (ValueRef (Str "abc")) = Ok true ∧
  eq (ValueRef (Str "abc")) (StringRef "abc") = Ok true.
Proof.
  exact (eq_string_typed (V:=Data.Value) "abc" (ValueRef (Str "abc"))
    (Str "abc") eq_refl).
Defined.

Lemma partial_cmp_antisymmetric_witness :
  partial_cmp (LiteralRef (Number "2")) (ValueRef (I64 5))
  = fmap (M:=option) reverse
      <$> partial_cmp (ValueRef (I64 5)) (LiteralRef (Number "2")).
Proof.
  exact (partial_cmp_antisymmetric (V:=Data.Value) (LiteralRef (Number "2"))
    (ValueRef (I64 5))).
Defined.

Lemma partial_cmp_owned_literal_witness :
  partial_cmp (Value (I64 1)) (Literal (Number "1")) = Panic ∧
  eq (ValueRef (I64 1)) (Literal (Number "1")) = Ok true.
Proof.
  exact (partial_cmp_owned_literal (V:=Data.Value) (Value (I64 1)) (I64 1)
    (Number "1") eq_refl).
Defined.

Lemma partial_cmp_typed_witness :
  partial_cmp (ValueRef (I64 2)) (Value (I64 5)) = Ok (Some Less) ∧
  partial_cmp (ValueRef (I64 2)) (LiteralRef (Number "5")) = Ok (Some Less) ∧
  partial_cmp (LiteralRef (Number "5")) (ValueRef (I64 2))
    = Ok (Some Greater).
Proof.
  destruct (partial_cmp_typed (V:=Data.Value) (ValueRef (I64 2)) (I64 2)
    eq_refl) as [Hv Hl].
  exact (conj (Hv (Value (I64 5)) (I64 5) eq_refl) (Hl (Number "5"))).
Defined.

Lemma string_as_text_value_witness :
  eq (StringRef "b") (ValueRef (Str "a")) = eq (Value (Str "b")) (ValueRef (Str "a")) ∧
  partial_cmp (StringRef "b") (ValueRef (Str "a"))
    = partial_cmp (Value (Str "b")) (ValueRef (Str "a")).
Proof.
  apply (string_as_text_value (V:=Data.Value) "b" (Str "b")
    (ValueRef (Str "a"))); [reflexivity|].
  simpl. right. left.
Defined.
