(* ===== verification/Compare.v ===== *)
(** * Compare: the comparison operators on evaluated values

    [evaluated.rs] implements [PartialEq] and [PartialOrd] by their one
    required method each ([eq], [partial_cmp]).  The operators the
    evaluator applies to two [Evaluated] ([!=], [<], [<=], [>], [>=]) are
    the provided methods of the two traits, which the Rust standard
    library defines from the required ones:

    - [ne] is the negation of [eq];
    - [lt], [le], [gt], [ge] test the result of [partial_cmp] against
      [Some(Less)], [Some(Less | Equal)], [Some(Greater)],
      [Some(Greater | Equal)]: an absent ordering makes the four of them
      false.

    They panic where the required method panics.  The theorems relate the
    operators to each other (duality, strictness) for every typed domain
    with an antisymmetric order. *)

From Stdlib Require Import ZArith String.
From stdpp Require Import base tactics option list.
From S2P Require Import Prelude Int64 AstValue ValueDomain Data Literal.
From S2P Require Import Evaluated.

(** The four tests of an optional ordering. *)
Definition is_lt (o : option Ordering) : bool :=
  match o with Some Less => true | _ => false end.

Definition is_le (o : option Ordering) : bool :=
  match o with Some Less | Some Equal => true | _ => false end.

Definition is_gt (o : option Ordering) : bool :=
  match o with Some Greater => true | _ => false end.

Definition is_ge (o : option Ordering) : bool :=
  match o with Some Greater | Some Equal => true | _ => false end.

Section compare.
Context {V VE : Type} `{!ValueDomain V VE}.

(** [PartialEq::ne]: [!self.eq(other)] *)
Definition ne (self other : Evaluated V) : outcome Empty_set bool :=
  negb <$> eq self other.

(** [PartialOrd::lt]: [matches!(self.partial_cmp(other), Some(Less))] *)
Definition lt (self other : Evaluated V) : outcome Empty_set bool :=
  is_lt <$> partial_cmp self other.

(** [PartialOrd::le]: [matches!(self.partial_cmp(other), Some(Less | Equal))] *)
Definition le (self other : Evaluated V) : outcome Empty_set bool :=
  is_le <$> partial_cmp self other.

(** [PartialOrd::gt]: [matches!(self.partial_cmp(other), Some(Greater))] *)
Definition gt (self other : Evaluated V) : outcome Empty_set bool :=
  is_gt <$> partial_cmp self other.

(** [PartialOrd::ge]: [matches!(self.partial_cmp(other), Some(Greater | Equal))] *)
Definition ge (self other : Evaluated V) : outcome Empty_set bool :=
  is_ge <$> partial_cmp self other.

End compare.

(** ** The tests of an ordering *)

Lemma is_lt_reverse o : is_lt (reverse <$> o) = is_gt o.
Proof. by destruct o as [[]|]. Qed.

Lemma is_le_reverse o : is_le (reverse <$> o) = is_ge o.
Proof. by destruct o as [[]|]. Qed.

Lemma is_le_lt o : is_le o = is_lt o || bool_decide (o = Some Equal).
Proof. by destruct o as [[]|]. Qed.

Lemma is_ge_gt o : is_ge o = is_gt o || bool_decide (o = Some Equal).
Proof. by destruct o as [[]|]. Qed.

Lemma is_lt_strict o :
  is_lt o = true → is_le o = true ∧ is_gt o = false ∧ is_ge o = false.
Proof. by destruct o as [[]|]. Qed.

Lemma is_le_ge o : is_le o && is_ge o = bool_decide (o = Some Equal).
Proof. by destruct o as [[]|]. Qed.

Section compare_lemmas.
Context {V VE : Type} `{!ValueDomain V VE}.
Implicit Types (a b : Evaluated V) (l : AstValue) (s : string) (v w : V).

(** An operator returns what its test says of the ordering. *)
Lemma lt_Ok a b r :
  lt a b = Ok r ↔ ∃ o, partial_cmp a b = Ok o ∧ r = is_lt o.
Proof. unfold lt. rewrite fmap_Ok_inv. naive_solver. Qed.

Lemma le_Ok a b r :
  le a b = Ok r ↔ ∃ o, partial_cmp a b = Ok o ∧ r = is_le o.
Proof. unfold le. rewrite fmap_Ok_inv. naive_solver. Qed.

Lemma gt_Ok a b r :
  gt a b = Ok r ↔ ∃ o, partial_cmp a b = Ok o ∧ r = is_gt o.
Proof. unfold gt. rewrite fmap_Ok_inv. naive_solver. Qed.

Lemma ge_Ok a b r :
  ge a b = Ok r ↔ ∃ o, partial_cmp a b = Ok o ∧ r = is_ge o.
Proof. unfold ge. rewrite fmap_Ok_inv. naive_solver. Qed.

Lemma order_flip `{!ValueDomainLaws V VE} (f g : option Ordering → bool) a b :
  (∀ o, f (reverse <$> o) = g o) →
  f <$> partial_cmp a b = g <$> partial_cmp b a.
Proof.
  intros Hfg. rewrite (partial_cmp_flip a b).
  destruct (partial_cmp b a) as [o| |]; simpl; by rewrite ?Hfg.
Qed.

(** The order operators are dual: [a < b] is [b > a] and [a <= b] is
    [b >= a], as outcomes (same truth value, or both panic), whatever the
    representations of [a] and [b], provided the order of the typed domain
    is antisymmetric.  This is what the code obtains by reversing the
    ordering of the typed domain when the literal comes first. *)
Theorem lt_gt_dual `{!ValueDomainLaws V VE} a b :
  lt a b = gt b a ∧ le a b = ge b a.
Proof.
  split; apply order_flip; [apply is_lt_reverse|apply is_le_reverse].
Qed.

(** The order operators agree with each other on every pair of
    operands: [a <= b] holds exactly when [a < b] or the operands compare
    [Equal]; [a < b] excludes [a > b] and [a >= b]; [a <= b] and [a >= b]
    hold together exactly when the operands compare [Equal]; and the four
    of them are false when the operands are incomparable. *)
Theorem order_operators_consistent a b o :
  partial_cmp a b = Ok o →
  le a b = Ok (is_lt o || bool_decide (o = Some Equal)) ∧
  (lt a b = Ok true → gt a b = Ok false ∧ ge a b = Ok false) ∧
  (le a b = Ok true ∧ ge a b = Ok true ↔ o = Some Equal) ∧
  (o = None →
    lt a b = Ok false ∧ le a b = Ok false ∧
    gt a b = Ok false ∧ ge a b = Ok false).
Proof.
  intros Ho. unfold lt, le, gt, ge. rewrite Ho. simpl.
  destruct o as [[]|]; naive_solver.
Qed.

(** An operator panics exactly when its required method does: [!=]
    on the five pairs of [eq_unreachable], the four order operators as soon
    as one operand is an owned literal. *)
Theorem operators_panic_iff a b :
  (ne a b = Panic ↔ (kind_of a, kind_of b) ∈ eq_unreachable) ∧
  (lt a b = Panic ↔ kind_of a = KLiteral ∨ kind_of b = KLiteral) ∧
  (le a b = Panic ↔ kind_of a = KLiteral ∨ kind_of b = KLiteral) ∧
  (gt a b = Panic ↔ kind_of a = KLiteral ∨ kind_of b = KLiteral) ∧
  (ge a b = Panic ↔ kind_of a = KLiteral ∨ kind_of b = KLiteral).
Proof.
  unfold ne, lt, le, gt, ge.
  by rewrite !fmap_Panic_iff, eq_Panic, partial_cmp_Panic.
Qed.

End compare_lemmas.

(** ** Witnesses, on the sample instance *)

Lemma order_operators_consistent_witness :
  le (LiteralRef (Number "2")) (ValueRef (I64 5)) = Ok true ∧
  gt (LiteralRef (Number "2")) (ValueRef (I64 5)) = Ok false ∧
  ge (LiteralRef (Number "2")) (ValueRef (I64 5)) = Ok false.
Proof.
  destruct (@order_operators_consistent _ _ data_domain
    (LiteralRef (Number "2")) (ValueRef (I64 5)) (Some Less) eq_refl)
    as (Hle & Hlt & _).
  split; [exact Hle|apply Hlt; reflexivity].
Defined.

Lemma lt_gt_dual_witness :
  lt (LiteralRef (Number "2")) (ValueRef (I64 5))
    = gt (ValueRef (I64 5)) (LiteralRef (Number "2")) ∧
  le (LiteralRef (Number "2")) (ValueRef (I64 5))
    = ge (ValueRef (I64 5)) (LiteralRef (Number "2")).
Proof.
  exact (lt_gt_dual (V:=Data.Value) (LiteralRef (Number "2"))
    (ValueRef (I64 5))).
Defined.
