(* ===== verification/Arithmetic.v ===== *)
(** * Arithmetic: the four operators on evaluated values

    [impl Evaluated { add, subtract, multiply, divide }] (lines 129-249 of
    [evaluated.rs]).  Each method builds three closures: [unreachable]
    (the error for a string operand), one for a literal on the left and one
    for a typed value on the left, and dispatches on [self].

    - literal and literal: the literal helper of [Literal], result an owned
      literal;
    - literal and typed value, in either order: the literal is turned into
      a value of the typed operand's type with [clone_by], then the typed
      domain's method is called, result an owned value;
    - typed and typed: the typed domain's method;
    - a string slice on either side: [UnreachableEvaluatedArithmetic].

    [add] with the literal on the left calls the typed domain with the
    typed operand as receiver ([r.add(&r.clone_by(l)?)]); the other three
    call it with the converted literal as receiver
    ([(r.clone_by(l)?).subtract(r)]).  The model keeps the difference.

    [arith_spec] is the scheme of the specification, one definition for the
    four operators; the refinement theorems relate each method to it. *)

From Stdlib Require Import ZArith String.
From stdpp Require Import base tactics option list sets.
From S2P Require Import Prelude Int64 AstValue ValueDomain Data Literal.
From S2P Require Import Evaluated.

Section arithmetic.
Context {V VE : Type} `{!ValueDomain V VE} (p : profile).

#[local] Abbreviation result := (outcome (Error VE) (Evaluated V)).

(** The closure [unreachable]. *)
Definition unreachable : result :=
  Err (EvaluateErr UnreachableEvaluatedArithmetic).

(** The closure [add_literal] of [add]. *)
Definition add_literal (l : AstValue) (other : Evaluated V) : result :=
  match other with
  | LiteralRef r => Literal <$> literal_add p l r
  | Literal r => Literal <$> literal_add p l r
  | ValueRef r =>
      c ← into (value_clone_by r l); Value <$> into (value_add r c)
  | Value r =>
      c ← into (value_clone_by r l); Value <$> into (value_add r c)
  | StringRef _ => unreachable
  end.

(** The closure [add_value] of [add]. *)
Definition add_value (l : V) (other : Evaluated V) : result :=
  match other with
  | LiteralRef r =>
      c ← into (value_clone_by l r); Value <$> into (value_add l c)
  | Literal r =>
      c ← into (value_clone_by l r); Value <$> into (value_add l c)
  | ValueRef r => Value <$> into (value_add l r)
  | Value r => Value <$> into (value_add l r)
  | StringRef _ => unreachable
  end.

Definition add (self other : Evaluated V) : result :=
  match self with
  | LiteralRef l => add_literal l other
  | Literal l => add_literal l other
  | ValueRef l => add_value l other
  | Value l => add_value l other
  | StringRef _ => unreachable
  end.

(** The closure [subtract_literal] of [subtract]. *)
Definition subtract_literal (l : AstValue) (other : Evaluated V) : result :=
  match other with
  | LiteralRef r => Literal <$> literal_subtract p l r
  | Literal r => Literal <$> literal_subtract p l r
  | ValueRef r =>
      c ← into (value_clone_by r l); Value <$> into (value_subtract c r)
  | Value r =>
      c ← into (value_clone_by r l); Value <$> into (value_subtract c r)
  | StringRef _ => unreachable
  end.

(** The closure [subtract_value] of [subtract]. *)
Definition subtract_value (l : V) (other : Evaluated V) : result :=
  match other with
  | LiteralRef r =>
      c ← into (value_clone_by l r); Value <$> into (value_subtract l c)
  | Literal r =>
      c ← into (value_clone_by l r); Value <$> into (value_subtract l c)
  | ValueRef r => Value <$> into (value_subtract l r)
  | Value r => Value <$> into (value_subtract l r)
  | StringRef _ => unreachable
  end.

Definition subtract (self other : Evaluated V) : result :=
  match self with
  | LiteralRef l => subtract_literal l other
  | Literal l => subtract_literal l other
  | ValueRef l => subtract_value l other
  | Value l => subtract_value l other
  | StringRef _ => unreachable
  end.

(** The closure [multiply_literal] of [multiply]. *)
Definition multiply_literal (l : AstValue) (other : Evaluated V) : result :=
  match other with
  | LiteralRef r => Literal <$> literal_multiply p l r
  | Literal r => Literal <$> literal_multiply p l r
  | ValueRef r =>
      c ← into (value_clone_by r l); Value <$> into (value_multiply c r)
  | Value r =>
      c ← into (value_clone_by r l); Value <$> into (value_multiply c r)
  | StringRef _ => unreachable
  end.

(** The closure [multiply_value] of [multiply]. *)
Definition multiply_value (l : V) (other : Evaluated V) : result :=
  match other with
  | LiteralRef r =>
      c ← into (value_clone_by l r); Value <$> into (value_multiply l c)
  | Literal r =>
      c ← into (value_clone_by l r); Value <$> into (value_multiply l c)
  | ValueRef r => Value <$> into (value_multiply l r)
  | Value r => Value <$> into (value_multiply l r)
  | StringRef _ => unreachable
  end.

Definition multiply (self other : Evaluated V) : result :=
  match self with
  | LiteralRef l => multiply_literal l other
  | Literal l => multiply_literal l other
  | ValueRef l => multiply_value l other
  | Value l => multiply_value l other
  | StringRef _ => unreachable
  end.

(** The closure [divide_literal] of [divide]. *)
Definition divide_literal (l : AstValue) (other : Evaluated V) : result :=
  match other with
  | LiteralRef r => Literal <$> literal_divide l r
  | Literal r => Literal <$> literal_divide l r
  | ValueRef r =>
      c ← into (value_clone_by r l); Value <$> into (value_divide c r)
  | Value r =>
      c ← into (value_clone_by r l); Value <$> into (value_divide c r)
  | StringRef _ => unreachable
  end.

(** The closure [divide_value] of [divide]. *)
Definition divide_value (l : V) (other : Evaluated V) : result :=
  match other with
  | LiteralRef r =>
      c ← into (value_clone_by l r); Value <$> into (value_divide l c)
  | Literal r =>
      c ← into (value_clone_by l r); Value <$> into (value_divide l c)
  | ValueRef r => Value <$> into (value_divide l r)
  | Value r => Value <$> into (value_divide l r)
  | StringRef _ => unreachable
  end.

Definition divide (self other : Evaluated V) : result :=
  match self with
  | LiteralRef l => divide_literal l other
  | Literal l => divide_literal l other
  | ValueRef l => divide_value l other
  | Value l => divide_value l other
  | StringRef _ => unreachable
  end.

(** The method of an operator. *)
Definition arith (op : binop) : Evaluated V → Evaluated V → result :=
  match op with
  | Add => add
  | Sub => subtract
  | Mul => multiply
  | Div => divide
  end.

(** ** The dispatch scheme *)

(** The typed domain's method of an operator. *)
Definition value_op (op : binop) : V → V → outcome VE V :=
  match op with
  | Add => value_add
  | Sub => value_subtract
  | Mul => value_multiply
  | Div => value_divide
  end.

(** An operand up to ownership. *)
Inductive operand_class :=
| LiteralLike (l : AstValue)
| TypedLike (v : V)
| StringOnly.

Definition class_of (e : Evaluated V) : operand_class :=
  match e with
  | LiteralRef l | Literal l => LiteralLike l
  | ValueRef v | Value v => TypedLike v
  | StringRef _ => StringOnly
  end.

(** Both operands in the typed domain, [l] first. *)
Definition typed_op (op : binop) (l r : V) : result :=
  Value <$> into (value_op op l r).

Definition arith_spec (op : binop) (a b : Evaluated V) : result :=
  match class_of a, class_of b with
  | StringOnly, _ | _, StringOnly => unreachable
  | LiteralLike l, LiteralLike r => Literal <$> literal_arith p op l r
  | LiteralLike l, TypedLike r =>
      c ← into (value_clone_by r l); typed_op op c r
  | TypedLike l, LiteralLike r =>
      c ← into (value_clone_by l r); typed_op op l c
  | TypedLike l, TypedLike r => typed_op op l r
  end.

(** The call the code makes for a literal [l] on the left of a typed value
    [r], [c] being [l] converted: [add] gives [r] as receiver, the other
    three give [c]. *)
Definition mixed_op (op : binop) (c r : V) : result :=
  match op with
  | Add => typed_op Add r c
  | _ => typed_op op c r
  end.

(** The four methods as one function of the operands up to ownership. *)
Definition dispatch (op : binop) (a b : Evaluated V) : result :=
  match class_of a, class_of b with
  | StringOnly, _ | _, StringOnly => unreachable
  | LiteralLike l, LiteralLike r => Literal <$> literal_arith p op l r
  | LiteralLike l, TypedLike r =>
      c ← into (value_clone_by r l); mixed_op op c r
  | TypedLike l, LiteralLike r =>
      c ← into (value_clone_by l r); typed_op op l c
  | TypedLike l, TypedLike r => typed_op op l r
  end.

(** A result that borrows nothing. *)
Definition owned (e : Evaluated V) : bool :=
  match e with Literal _ | Value _ => true | _ => false end.

End arithmetic.

Section arithmetic_lemmas.
Context {V VE : Type} `{!ValueDomain V VE} (p : profile).
Implicit Types (a b r : Evaluated V) (l : AstValue) (v w c : V) (op : binop).

#[local] Abbreviation arith := (arith (V:=V) (VE:=VE) p).
#[local] Abbreviation arith_spec := (arith_spec (V:=V) (VE:=VE) p).
#[local] Abbreviation dispatch := (dispatch (V:=V) (VE:=VE) p).

(** ** The four methods, arm by arm *)

(** The theorems of this part are proved on the arms of the four methods
    and of their closures, from the definitions alone; the lemmas of the
    parts that follow go through [dispatch]. *)

(** C8: The result of an operator is always owned: when [add],
    [subtract], [multiply] or [divide] returns a value, it is an owned
    literal or an owned typed value, never a borrow of an operand. *)
Theorem arith_result_owned op a b r : arith op a b = Ok r → owned r = true.
Proof. destruct op, a, b; simpl; intros H; outcome_cases. Qed.

(** C1: [subtract], [multiply] and [divide] implement the dispatch scheme
    of the specification on every pair of operands: a string slice is
    refused, two literals go to the literal helper, a literal next to a
    typed value is converted with [clone_by] and the typed domain's method
    is applied to the operands in their order. *)
Theorem arith_refinement a b :
  subtract p a b = arith_spec Sub a b ∧
  multiply p a b = arith_spec Mul a b ∧
  divide a b = arith_spec Div a b.
Proof. split_and!; by destruct a, b. Qed.

(** C9: What [add] computes for a literal on the left of a typed value,
    each of them borrowed or owned, with no assumption on the domain: the
    literal converted by the typed operand, then the domain's addition
    with the typed operand as receiver.  [subtract] on the same operands
    gives the converted literal as receiver. *)
Theorem add_receiver_order a b l v :
  class_of a = LiteralLike l → typed_value b = Some v →
  add p a b
    = (c ← into (value_clone_by v l); Value <$> into (value_add v c)) ∧
  subtract p a b
    = (c ← into (value_clone_by v l); Value <$> into (value_subtract c v)).
Proof.
  destruct a; intros [= ->]; by intros [->| ->]%typed_value_Some.
Qed.

(** C5: [add] implements the dispatch scheme when the addition of the
    typed domain is commutative: with a literal on the left of a typed
    value the code calls the domain with the typed value first. *)
Theorem add_refinement `{!ValueAddComm V VE} a b :
  add p a b = arith_spec Add a b.
Proof.
  destruct a, b; try done; unfold add, add_literal, arith_spec; simpl;
    apply bind_ext; intros c; unfold typed_op; simpl;
    by rewrite (value_add_comm v c).
Qed.

(** ** The operators up to ownership *)

Lemma arith_dispatch op a b : arith op a b = dispatch op a b.
Proof. by destruct op, a, b. Qed.

Lemma class_of_typed a v : class_of a = TypedLike v ↔ typed_value a = Some v.
Proof. destruct a; naive_solver. Qed.

Lemma class_of_string a : class_of a = StringOnly ↔ kind_of a = KStringRef.
Proof. by destruct a. Qed.

Lemma class_of_literal a l :
  class_of a = LiteralLike l ↔ a = LiteralRef l ∨ a = Literal l.
Proof. destruct a; naive_solver. Qed.

(** Splits a dispatched call on the classes of its operands [a] and [b]. *)
Ltac by_dispatch a b :=
  unfold Arithmetic.dispatch;
  destruct (class_of a) eqn:?, (class_of b) eqn:?.

Lemma typed_op_Ok op v w r :
  typed_op op v w = Ok r ↔ ∃ u, value_op op v w = Ok u ∧ r = Value u.
Proof.
  unfold typed_op. rewrite fmap_Ok_inv.
  split; intros (u & Hu & ->); exists u; (split; [|done]);
    by apply into_Ok_iff.
Qed.

Lemma typed_op_Panic op v w :
  typed_op (VE:=VE) op v w = Panic ↔ value_op op v w = Panic.
Proof. unfold typed_op. by rewrite fmap_Panic_iff, into_Panic_iff. Qed.

Lemma typed_op_not_unreachable op v w :
  typed_op (VE:=VE) op v w ≠ unreachable.
Proof.
  unfold typed_op, unreachable. intros H%fmap_Err_inv.
  by eapply into_not_EvaluateErr.
Qed.

Lemma mixed_op_cases op c w :
  mixed_op (VE:=VE) op c w = typed_op op c w ∨
  mixed_op (VE:=VE) op c w = typed_op op w c.
Proof. destruct op; auto. Qed.

Lemma mixed_op_typed op c w :
  op ≠ Add → mixed_op (VE:=VE) op c w = typed_op op c w.
Proof. by destruct op. Qed.

Lemma mixed_op_comm `{!ValueAddComm V VE} op c w :
  mixed_op (VE:=VE) op c w = typed_op op c w.
Proof.
  destruct op; try done. unfold mixed_op, typed_op. simpl.
  by rewrite (value_add_comm w c).
Qed.

Lemma literal_arith_Err op l1 l2 (e : Error VE) :
  literal_arith p op l1 l2 = Err e →
  e = EvaluateErr UnreachableLiteralArithmetic.
Proof.
  rewrite literal_arith_refines. unfold literal_arith_spec.
  destruct (classify l1), (classify l2); try naive_solver.
  intros ?%fmap_Err_inv. by edestruct @i64_binop_no_Err.
Qed.

(** ** [dispatch] and the scheme *)

(** [dispatch], through which the lemmas below go, is the scheme of the
    specification but for the receiver of the mixed call. *)
Lemma dispatch_spec op a b :
  (∀ c w, mixed_op (VE:=VE) op c w = typed_op op c w) →
  dispatch op a b = arith_spec op a b.
Proof.
  intros Hm. unfold Arithmetic.dispatch, Arithmetic.arith_spec.
  destruct (class_of a), (class_of b); try done.
  apply bind_ext. intros c. apply Hm.
Qed.

(** ** Results *)

(** The result of a dispatched call: an owned literal when both operands
    are literals, an owned value as soon as one is typed. *)
Lemma dispatch_result op a b r :
  dispatch op a b = Ok r →
  (∃ l, r = Literal l ∧ typed_value a = None ∧ typed_value b = None) ∨
  (∃ v, r = Value v ∧ (is_Some (typed_value a) ∨ is_Some (typed_value b))).
Proof.
  unfold Arithmetic.dispatch.
  destruct a as [l|l|?|v|v], b as [l'|l'|?|w|w]; simpl; try done; intros H.
  all: try (apply fmap_Ok_inv in H as (? & _ & ->); left; by eauto).
  all: right.
  all: try (apply typed_op_Ok in H as (u & _ & ->); by eauto).
  all: apply bind_Ok_inv in H as (c & _ & H);
    try (destruct (mixed_op_cases op c w) as [Hm|Hm]; rewrite Hm in H);
    apply typed_op_Ok in H as (u & _ & ->); by eauto.
Qed.

Lemma dispatch_owned op a b r : dispatch op a b = Ok r → owned r = true.
Proof. by intros [(l & -> & _)|(v & -> & _)]%dispatch_result. Qed.

(** Two literals, borrowed or owned, are handled by the literal helper
    alone, and the result is an owned literal: no value of the typed
    domain is built. *)
Theorem arith_literals op a b l1 l2 :
  class_of a = LiteralLike l1 → class_of b = LiteralLike l2 →
  arith op a b = Literal <$> literal_arith p op l1 l2.
Proof.
  intros Ha Hb. rewrite arith_dispatch. unfold Arithmetic.dispatch.
  by rewrite Ha, Hb.
Qed.

(** Two typed values, borrowed or owned, are handled by the typed
    domain's method alone, receiver first, and the result is an owned
    value; an error of the domain is returned unchanged. *)
Theorem arith_typed op a b v w :
  typed_value a = Some v → typed_value b = Some w →
  arith op a b = Value <$> into (value_op op v w).
Proof.
  intros Ha%class_of_typed Hb%class_of_typed. rewrite arith_dispatch.
  unfold Arithmetic.dispatch. by rewrite Ha, Hb.
Qed.

(** ** The error for a string operand *)

(** C10: An operator returns [UnreachableEvaluatedArithmetic] exactly when
    one of its operands is a string slice: a string operand is always
    refused with that error, and neither the literal helpers nor the typed
    domain can produce it. *)
Theorem arith_unreachable_iff op a b :
  arith op a b = unreachable ↔
  kind_of a = KStringRef ∨ kind_of b = KStringRef.
Proof.
  rewrite <-!class_of_string, arith_dispatch.
  by_dispatch a b; split; try naive_solver.
  all: intros H; exfalso; revert H.
  - by intros [=]%fmap_Err_inv%literal_arith_Err.
  - intros [H|(c & _ & H)]%bind_Err_inv;
      [by eapply into_not_EvaluateErr|].
    destruct (mixed_op_cases op c v) as [Hm|Hm]; rewrite Hm in H;
      by eapply typed_op_not_unreachable.
  - intros [H|(c & _ & H)]%bind_Err_inv;
      [by eapply into_not_EvaluateErr|by eapply typed_op_not_unreachable].
  - apply typed_op_not_unreachable.
Qed.

(** Operands with the same class have the same outcome. *)
Lemma arith_class_of op a a' b b' :
  class_of a = class_of a' → class_of b = class_of b' →
  arith op a b = arith op a' b'.
Proof.
  intros Ha Hb. rewrite !arith_dispatch. unfold Arithmetic.dispatch.
  by rewrite Ha, Hb.
Qed.

(** An operator does not distinguish a borrowed operand from an owned
    one: two calls whose operands agree up to ownership have the same
    outcome. *)
Theorem arith_ownership_irrelevant op a a' b b' :
  class_of a = class_of a' → class_of b = class_of b' →
  arith op a b = arith op a' b'.
Proof. apply arith_class_of. Qed.

(** Converting the literal first and then operating on two typed
    values gives the result of the mixed call: for a typed value on the
    left in all four operators, and for a literal on the left in
    [subtract], [multiply] and [divide]. *)
Theorem arith_coercion op a v l :
  typed_value a = Some v →
  arith op a (LiteralRef l)
    = (c ← into (value_clone_by v l); arith op a (Value c)) ∧
  (op ≠ Add →
    arith op (LiteralRef l) a
      = (c ← into (value_clone_by v l); arith op (Value c) a)).
Proof.
  intros Ha%class_of_typed. split; [|intros Hop].
  all: rewrite arith_dispatch; unfold Arithmetic.dispatch; rewrite Ha.
  all: cbn [class_of]; apply bind_ext.
  all: intros c; rewrite arith_dispatch; unfold Arithmetic.dispatch.
  all: rewrite Ha; cbn [class_of]; by rewrite ?mixed_op_typed.
Qed.

(** A literal that the typed operand cannot convert makes the operator
    return the conversion's error, in either order of the operands; the
    typed domain's method is not called. *)
Theorem arith_conversion_error op a v l e :
  typed_value a = Some v → value_clone_by v l = Err e →
  arith op a (LiteralRef l) = Err (ValueErr e) ∧
  arith op (LiteralRef l) a = Err (ValueErr e).
Proof.
  intros Ha%class_of_typed He. rewrite !arith_dispatch.
  unfold Arithmetic.dispatch. rewrite Ha. cbn [class_of]. by rewrite He.
Qed.

(** An operator panics only where the literal helper or the typed
    domain does: on two literals when the helper panics, and otherwise
    when [clone_by] or the domain's method panics. *)
Theorem arith_panic_provenance op a b :
  arith op a b = Panic →
  (∃ l1 l2, class_of a = LiteralLike l1 ∧ class_of b = LiteralLike l2 ∧
      literal_arith (VE:=VE) p op l1 l2 = Panic) ∨
  (∃ v l, value_clone_by v l = Panic) ∨
  (∃ v w, value_op op v w = Panic).
Proof.
  rewrite arith_dispatch. by_dispatch a b; try done.
  - intros ?%fmap_Panic_inv. left. eauto.
  - intros [?%into_Panic_inv|(c & _ & H)]%bind_Panic_inv;
      right; [left; eauto|right].
    destruct (mixed_op_cases op c v) as [Hm|Hm]; rewrite Hm in H;
      apply typed_op_Panic in H; eauto.
  - intros [?%into_Panic_inv|(c & _ & H%typed_op_Panic)]%bind_Panic_inv;
      right; [left|right]; eauto.
  - intros ?%typed_op_Panic. right; right; eauto.
Qed.

End arithmetic_lemmas.

(** ** Witnesses, on the sample instance *)

Lemma add_refinement_witness :
  add Debug (LiteralRef (Number "2")) (ValueRef (I64 3))
  = arith_spec Debug Add (LiteralRef (Number "2")) (ValueRef (I64 3)).
Proof.
  exact (add_refinement (V:=Data.Value) Debug (LiteralRef (Number "2"))
    (ValueRef (I64 3))).
Defined.

Lemma add_receiver_order_witness :
  add Debug (LiteralRef (Number "2")) (ValueRef (I64 3))
    = (c ← into (value_clone_by (I64 3) (Number "2"));
       Value <$> into (value_add (I64 3) c)) ∧
  subtract Debug (LiteralRef (Number "2")) (ValueRef (I64 3))
    = (c ← into (value_clone_by (I64 3) (Number "2"));
       Value <$> into (value_subtract c (I64 3))).
Proof.
  exact (add_receiver_order (V:=Data.Value) Debug (LiteralRef (Number "2"))
    (ValueRef (I64 3)) (Number "2") (I64 3) eq_refl eq_refl).
Defined.

Lemma arith_result_owned_witness : owned (Value (I64 5)) = true.
Proof.
  exact (arith_result_owned (V:=Data.Value) Debug Add (ValueRef (I64 2))
    (LiteralRef (Number "3")) (Value (I64 5)) eq_refl).
Defined.

Lemma arith_literals_witness :
  arith Debug Mul (LiteralRef (Number "2")) (Literal (Number "3"))
  = Literal (V:=Data.Value)
      <$> literal_arith Debug Mul (Number "2") (Number "3").
Proof.
  exact (arith_literals (V:=Data.Value) Debug Mul (LiteralRef (Number "2"))
    (Literal (Number "3")) (Number "2") (Number "3") eq_refl eq_refl).
Defined.

Lemma arith_typed_witness :
  arith Debug Div (ValueRef (I64 7)) (Value (I64 0))
  = Value <$> into (value_op Div (I64 7) (I64 0)).
Proof.
  exact (arith_typed (V:=Data.Value) Debug Div (ValueRef (I64 7))
    (Value (I64 0)) (I64 7) (I64 0) eq_refl eq_refl).
Defined.

Lemma arith_coercion_witness :
  arith Debug Sub (ValueRef (I64 3)) (LiteralRef (Number "2"))
    = (c ← into (value_clone_by (I64 3) (Number "2"));
       arith Debug Sub (ValueRef (I64 3)) (Value c)) ∧
  arith Debug Sub (LiteralRef (Number "2")) (ValueRef (I64 3))
    = (c ← into (value_clone_by (I64 3) (Number "2"));
       arith Debug Sub (Value c) (ValueRef (I64 3))).
Proof.
  destruct (arith_coercion (V:=Data.Value) Debug Sub (ValueRef (I64 3))
    (I64 3) (Number "2") eq_refl) as [Hl Hr].
  split; [exact Hl|apply Hr; discriminate].
Defined.

Lemma arith_conversion_error_witness :
  arith Debug Add (ValueRef (I64 3)) (LiteralRef (Number "1.5"))
    = Err (ValueErr FailedToParseNumber) ∧
  arith Debug Add (LiteralRef (Number "1.5")) (ValueRef (I64 3))
    = Err (ValueErr FailedToParseNumber).
Proof.
  exact (arith_conversion_error (V:=Data.Value) Debug Add (ValueRef (I64 3))
    (I64 3) (Number "1.5") FailedToParseNumber eq_refl eq_refl).
Defined.

Lemma arith_panic_provenance_witness :
  (∃ l1 l2,
    class_of (V:=Data.Value) (LiteralRef (Number "1")) = LiteralLike l1 ∧
    class_of (V:=Data.Value) (Literal (Number "0")) = LiteralLike l2 ∧
    literal_arith (VE:=ValueError) Debug Div l1 l2 = Panic) ∨
  (∃ v l, value_clone_by (V:=Data.Value) v l = Panic) ∨
  (∃ v w, value_op (V:=Data.Value) Div v w = Panic).
Proof.
  exact (arith_panic_provenance (V:=Data.Value) Debug Div
    (LiteralRef (Number "1")) (Literal (Number "0")) eq_refl).
Defined.

Lemma arith_ownership_irrelevant_witness :
  arith Debug Sub (LiteralRef (Number "2")) (ValueRef (I64 3))
  = arith Debug Sub (Literal (Number "2")) (Value (I64 3)).
Proof.
  exact (arith_ownership_irrelevant (V:=Data.Value) Debug Sub
    (LiteralRef (Number "2")) (Literal (Number "2"))
    (ValueRef (I64 3)) (Value (I64 3)) eq_refl eq_refl).
Defined.
