(* ===== verification/Ownership.v ===== *)
(** * Ownership: evaluated values up to borrowed and owned

    Two of the five representations of [Evaluated] hold a literal and two
    hold a typed value; the members of each pair differ in ownership only
    ([LiteralRef] and [Literal], [ValueRef] and [Value]).  The
    specification says that ownership is an optimisation and plays no role
    in a result (sections 4.1 and 9).  This file states that as an
    equivalence on operands, [same_data], and proves where the code
    respects it:

    - the four operators respect it without exception: [arith] is a
      morphism ([arith_proper]), so an operand may be exchanged for its
      borrowed form by rewriting;
    - [eq] and [partial_cmp] respect it on typed values and do not on
      literals ([ownership_irrelevant], [eq_not_proper],
      [partial_cmp_not_proper]). *)

From Stdlib Require Import ZArith String.
From stdpp Require Import base tactics option list.
From S2P Require Import Prelude Int64 AstValue ValueDomain Data Literal.
From S2P Require Import Evaluated Arithmetic.

#[local] Open Scope string_scope.

Section ownership.
Context {V VE : Type} `{!ValueDomain V VE}.

(** The borrowed form of an operand. *)
Definition borrow (e : Evaluated V) : Evaluated V :=
  match e with
  | Literal l => LiteralRef l
  | Value v => ValueRef v
  | _ => e
  end.

(** Operands that hold the same data. *)
Definition same_data : relation (Evaluated V) := λ a b, borrow a = borrow b.

(** An operand that is not an owned literal. *)
Definition comparable (e : Evaluated V) : bool :=
  match e with Literal _ => false | _ => true end.

End ownership.

Declare Scope ownership_scope.
Infix "≈" := same_data (at level 70, no associativity) : ownership_scope.
#[local] Open Scope ownership_scope.

Section ownership_lemmas.
Context {V VE : Type} `{!ValueDomain V VE}.
Implicit Types (a b r : Evaluated V) (p : profile) (op : binop).

#[global] Instance same_data_equivalence : Equivalence (same_data (V:=V)).
Proof. unfold same_data. split; red; congruence. Qed.

#[global] Instance borrow_proper : Proper (same_data ==> (=)) (borrow (V:=V)).
Proof. by intros a a' Ha. Qed.

Lemma borrow_idemp a : borrow (borrow a) = borrow a.
Proof. by destruct a. Qed.

Lemma borrow_same a : borrow a ≈ a.
Proof. apply borrow_idemp. Qed.

Lemma owned_borrow a : owned (borrow a) = false.
Proof. by destruct a. Qed.

Lemma class_of_borrow a : class_of (borrow a) = class_of a.
Proof. by destruct a. Qed.

Lemma typed_value_borrow a : typed_value (borrow a) = typed_value a.
Proof. by destruct a. Qed.

#[global] Instance class_of_proper :
  Proper (same_data ==> (=)) (class_of (V:=V)).
Proof.
  intros a a' Ha. by rewrite <-(class_of_borrow a), Ha, class_of_borrow.
Qed.

#[global] Instance typed_value_proper :
  Proper (same_data ==> (=)) (typed_value (V:=V)).
Proof.
  intros a a' Ha. by rewrite <-(typed_value_borrow a), Ha, typed_value_borrow.
Qed.

(** The operators are morphisms. *)
#[global] Instance arith_proper p op :
  Proper (same_data ==> same_data ==> (=)) (arith (V:=V) (VE:=VE) p op).
Proof.
  intros a a' Ha b b' Hb. apply arith_class_of; by apply class_of_proper.
Qed.

#[global] Instance dispatch_proper p op :
  Proper (same_data ==> same_data ==> (=)) (dispatch (V:=V) (VE:=VE) p op).
Proof.
  intros a a' Ha b b' Hb. rewrite <-!arith_dispatch. by apply arith_proper.
Qed.

(** An operator may be computed on the borrowed forms of its operands. *)
Lemma arith_borrow p op a b :
  arith p op a b = arith p op (borrow a) (borrow b).
Proof. by rewrite !borrow_same. Qed.

(** Operands that hold the same data and differ: a borrow and its owned
    counterpart. *)
Lemma same_data_inv a b :
  a ≈ b → a = b ∨ owned a ≠ owned b ∧ kind_of a ≠ KStringRef.
Proof. unfold same_data. destruct a, b; naive_solver. Qed.

(** Operands hold the same data when they hold the same datum. *)
Lemma same_data_datum a b : a ≈ b ↔ datum_of a = datum_of b.
Proof. unfold same_data. destruct a, b; naive_solver. Qed.

#[global] Instance datum_of_proper :
  Proper (same_data ==> (=)) (datum_of (V:=V)).
Proof. by intros a b ?%same_data_datum. Qed.

Lemma comparable_kind a : comparable a = true ↔ kind_of a ≠ KLiteral.
Proof. destruct a; naive_solver. Qed.

Lemma compare_same a a' b b' :
  a ≈ a' → b ≈ b' →
  comparable a && comparable a' && comparable b && comparable b' = true →
  eq a b = eq a' b' ∧ partial_cmp a b = partial_cmp a' b'.
Proof.
  rewrite !andb_true_iff, !comparable_kind. intros Ha Hb [[[??]?]?].
  rewrite !eq_datum, !partial_cmp_datum by done. by rewrite Ha, Hb.
Qed.

(** C32: Ownership plays no role in the result of an operator: [add],
    [subtract], [multiply] and [divide] have the same outcome on operands
    that hold the same data.  It plays none in a comparison either, as
    long as no operand is an owned literal: there [eq] and [partial_cmp]
    have the same outcome too. *)
Theorem ownership_irrelevant p op a a' b b' :
  a ≈ a' → b ≈ b' →
  arith p op a b = arith p op a' b' ∧
  (comparable a && comparable a' && comparable b && comparable b' = true →
    eq a b = eq a' b' ∧ partial_cmp a b = partial_cmp a' b').
Proof.
  intros Ha Hb. split; [by rewrite Ha, Hb|]. by apply compare_same.
Qed.

(** An owned literal against a borrowed one does make a difference: [eq]
    and [partial_cmp] are not morphisms. *)
Lemma eq_not_proper (l : AstValue) :
  ¬ Proper (same_data ==> same_data ==> (=)) (eq (V:=V)).
Proof.
  intros H.
  by specialize (H (LiteralRef l) (Literal l) eq_refl
    (LiteralRef l) (LiteralRef l) eq_refl).
Qed.

Lemma partial_cmp_not_proper (l : AstValue) :
  ¬ Proper (same_data ==> same_data ==> (=)) (partial_cmp (V:=V)).
Proof.
  intros H.
  by specialize (H (LiteralRef l) (Literal l) eq_refl
    (LiteralRef l) (LiteralRef l) eq_refl).
Qed.

End ownership_lemmas.

(** ** The theorems at concrete operands *)

Lemma ownership_irrelevant_witness :
  arith Debug Sub (LiteralRef (Number "2")) (ValueRef (I64 3))
    = arith Debug Sub (Literal (Number "2")) (Value (I64 3)) ∧
  eq (ValueRef (I64 3)) (LiteralRef (Number "3"))
    = eq (Value (I64 3)) (LiteralRef (Number "3")) ∧
  partial_cmp (ValueRef (I64 3)) (LiteralRef (Number "3"))
    = partial_cmp (Value (I64 3)) (LiteralRef (Number "3")).
Proof.
  destruct (ownership_irrelevant (V:=Data.Value) Debug Sub
    (LiteralRef (Number "2")) (Literal (Number "2"))
    (ValueRef (I64 3)) (Value (I64 3)) eq_refl eq_refl) as [Ha _].
  destruct (ownership_irrelevant (V:=Data.Value) Debug Sub
    (ValueRef (I64 3)) (Value (I64 3))
    (LiteralRef (Number "3")) (LiteralRef (Number "3")) eq_refl eq_refl)
    as [_ Hc].
  split; [exact Ha|exact (Hc eq_refl)].
Defined.
