(* ===== verification/Coherence.v ===== *)
(** * Coherence: the integer an evaluated value denotes

    A number reaches the evaluator as a numeral of the query text (a
    literal) or as a typed value read from a row.  The operators and the
    comparisons of [evaluated.rs] treat the two differently: literals are
    parsed and computed on by the [literal_*] helpers, typed values by the
    typed domain, and a mixed pair goes through [clone_by].  This file
    states what the representations have in common: the integer [int_of]
    reads in an operand, whatever its representation.

    - [IntegerDomain] is what the evaluator needs of the typed domain for
      that: an integer view of its values that [clone_by], the four
      operators, the order and the equality respect.  The reference
      instance of [Data] satisfies it.
    - The theorems show that the operators and [partial_cmp] compute on the
      denoted integers whatever the representations, that [eq] does so as
      soon as one operand is typed, and where the representations part:
      the failure mode of an operation that has no exact result, the
      equality of two literals, and transitivity. *)

From Stdlib Require Import ZArith String.
From stdpp Require Import base tactics option list sets.
From S2P Require Import Prelude Int64 AstValue ValueDomain Data Literal.
From S2P Require Import Evaluated Compare Arithmetic.

#[local] Open Scope string_scope.
#[local] Open Scope Z_scope.

(** The integer view of a typed domain, and its laws. *)
Class IntegerDomain (V VE : Type) `{!ValueDomain V VE} := {
  value_int : V → option Z;
  value_int_range v x : value_int v = Some x → in_i64 x = true;
  value_int_clone_by v l x z :
    value_int v = Some x → literal_value l = Some z →
    ∃ c, value_clone_by v l = Ok c ∧ value_int c = Some z;
  value_int_op op v w x y :
    value_int v = Some x → value_int w = Some y →
    match checked_op op x y with
    | Some z => ∃ u, value_op op v w = Ok u ∧ value_int u = Some z
    | None => ∃ e, value_op op v w = Err e
    end;
  value_int_cmp v w x y :
    value_int v = Some x → value_int w = Some y →
    value_partial_cmp v w = Some (x ?= y);
  value_int_cmp_literal v l x y :
    value_int v = Some x → literal_value l = Some y →
    value_partial_cmp_literal v l = Some (x ?= y);
  value_int_eq v w x y :
    value_int v = Some x → value_int w = Some y →
    value_eq v w = (x =? y);
  value_int_eq_literal v l x y :
    value_int v = Some x → literal_value l = Some y →
    value_eq_literal v l = (x =? y);
}.

Arguments value_int {V VE _ _} v.
#[global] Hint Mode IntegerDomain ! - - : typeclass_instances.

(** The integer an operand denotes: the value of a numeral, or the integer
    of a typed value. *)
Definition int_of {V VE} `{!ValueDomain V VE, !IntegerDomain V VE}
    (e : Evaluated V) : option Z :=
  match class_of e with
  | LiteralLike l => literal_value l
  | TypedLike v => value_int v
  | StringOnly => None
  end.

(** The integers of the sample instance. *)
Definition data_int (v : Data.Value) : option Z :=
  match v with I64 z => narrow z | _ => None end.

Section coherence.
Context {V VE : Type} `{!ValueDomain V VE, !IntegerDomain V VE}.
Implicit Types (a b r : Evaluated V) (l : AstValue) (v w c u : V).
Implicit Types (op : binop) (p : profile) (x y z : Z).

(** ** The typed domain on integers *)

Lemma typed_op_exact op v w x y z :
  value_int v = Some x → value_int w = Some y →
  checked_op op x y = Some z →
  ∃ u, typed_op (VE:=VE) op v w = Ok (Value u) ∧ value_int u = Some z.
Proof.
  intros Hv Hw Hz. pose proof (value_int_op op v w x y Hv Hw) as H.
  rewrite Hz in H. destruct H as (u & Hu & ?). exists u.
  unfold typed_op. by rewrite Hu.
Qed.

Lemma typed_op_inexact op v w x y :
  value_int v = Some x → value_int w = Some y →
  checked_op op x y = None →
  ∃ e, typed_op (VE:=VE) op v w = Err (ValueErr e).
Proof.
  intros Hv Hw Hz. pose proof (value_int_op op v w x y Hv Hw) as H.
  rewrite Hz in H. destruct H as (e & He). exists e.
  unfold typed_op. by rewrite He.
Qed.

(** The call [add] makes with its operands exchanged computes the same
    integer: on integers the exchange is not observable. *)
Lemma mixed_op_int op c w x y :
  value_int c = Some x → value_int w = Some y →
  ∃ v' w' x' y', mixed_op (VE:=VE) op c w = typed_op op v' w' ∧
    value_int v' = Some x' ∧ value_int w' = Some y' ∧
    checked_op op x' y' = checked_op op x y.
Proof.
  intros Hc Hw. destruct (decide (op = Add)) as [->|Hop].
  - exists w, c, y, x. split_and!; try done. apply checked_op_comm. by left.
  - exists c, w, x, y. by rewrite mixed_op_typed.
Qed.

(** ** The operators on integers *)

Lemma dispatch_exact p op a b x y z :
  int_of a = Some x → int_of b = Some y → checked_op op x y = Some z →
  ∃ r, dispatch p op a b = Ok r ∧ int_of r = Some z.
Proof.
  unfold int_of, dispatch. intros Ha Hb Hz.
  destruct (class_of a) as [l|v|], (class_of b) as [l'|w|]; try done.
  - exists (Literal (print z)).
    rewrite (literal_arith_numerals p op l l' x y)
      by by apply literal_value_Numeral.
    rewrite (checked_op_binop p op x y z Hz). split; [done|].
    by eapply literal_value_print, checked_op_in_range.
  - destruct (value_int_clone_by w l y x Hb Ha) as (c & -> & Hc). simpl.
    destruct (mixed_op_int op c w x y Hc Hb)
      as (v' & w' & x' & y' & -> & Hv' & Hw' & Hxy).
    rewrite <-Hxy in Hz.
    destruct (typed_op_exact op v' w' x' y' z) as (u & -> & ?); eauto.
  - destruct (value_int_clone_by v l' x y Ha Hb) as (c & -> & Hc). simpl.
    destruct (typed_op_exact op v c x y z) as (u & -> & ?); eauto.
  - destruct (typed_op_exact op v w x y z) as (u & -> & ?); eauto.
Qed.

(** Without an exact result the representations part: two literals panic
    (with overflow checks), a typed operand makes the typed domain return
    its error. *)
Lemma dispatch_inexact p op a b x y :
  int_of a = Some x → int_of b = Some y → checked_op op x y = None →
  match typed_value a, typed_value b with
  | None, None => dispatch Debug op a b = Panic
  | _, _ => ∃ e, dispatch p op a b = Err (ValueErr e)
  end.
Proof.
  unfold int_of, dispatch. intros Ha Hb Hz.
  destruct a as [l|l|?|v|v], b as [l'|l'|?|w|w]; simplify_eq/=.
  all: try (rewrite (literal_arith_numerals Debug op _ _ x y)
      by (by apply literal_value_Numeral);
    by rewrite binop_Debug_Panic by eauto using literal_value_in_range).
  all: try (by eapply typed_op_inexact).
  all: try (destruct (value_int_clone_by _ _ _ _ Hb Ha) as (c & -> & Hc);
    simpl; destruct (mixed_op_int op c _ x y Hc Hb)
      as (v' & w' & x' & y' & -> & Hv' & Hw' & Hxy);
    rewrite <-Hxy in Hz; by eapply typed_op_inexact).
  all: destruct (value_int_clone_by _ _ _ _ Ha Hb) as (c & -> & Hc);
    simpl; by eapply typed_op_inexact.
Qed.

Lemma dispatch_sound op a b x y r :
  int_of a = Some x → int_of b = Some y → dispatch Debug op a b = Ok r →
  ∃ z, checked_op op x y = Some z ∧ int_of r = Some z.
Proof.
  intros Ha Hb Hr. destruct (checked_op op x y) as [z|] eqn:Hz.
  - destruct (dispatch_exact Debug op a b x y z) as (r' & Hr' & ?); try done.
    exists z. split; [done|]. congruence.
  - pose proof (dispatch_inexact Debug op a b x y Ha Hb Hz) as H.
    rewrite Hr in H. repeat case_match; first [done|by destruct H as [e ?]].
Qed.

(** On integers an operator returns an integer, panics, or returns an
    error of the typed domain: never one of the evaluator's own errors. *)
Lemma dispatch_int_outcome p op a b x y :
  int_of a = Some x → int_of b = Some y →
  (∃ r z, dispatch p op a b = Ok r ∧ int_of r = Some z) ∨
  dispatch p op a b = Panic ∨
  ∃ e, dispatch p op a b = Err (ValueErr e).
Proof.
  intros Ha Hb. destruct (checked_op op x y) as [z|] eqn:Hz.
  { destruct (dispatch_exact p op a b x y z) as (r & ? & ?); eauto. }
  pose proof (dispatch_inexact p op a b x y Ha Hb Hz) as H.
  destruct (typed_value a) eqn:Ta, (typed_value b) eqn:Tb; auto.
  clear H. unfold int_of, dispatch in *.
  destruct a as [l|l|?|v|v], b as [l'|l'|?|w|w]; simplify_eq/=.
  all: rewrite (literal_arith_numerals p op _ _ x y)
    by by apply literal_value_Numeral.
  all: destruct (i64_binop p op x y) as [z| |] eqn:Hop; simpl; auto;
    [|by apply i64_binop_no_Err in Hop].
  all: left; eexists _, z; split; [done|]; simpl;
    eapply literal_value_print, i64_binop_in_range; [|done];
    by eapply literal_value_in_range.
Qed.

(** ** The order and the equality on integers *)

Lemma partial_cmp_int a b x y :
  int_of a = Some x → int_of b = Some y →
  partial_cmp a b =
    if decide (kind_of a = KLiteral ∨ kind_of b = KLiteral) then Panic
    else Ok (Some (x ?= y)).
Proof.
  unfold int_of. intros Ha Hb.
  destruct a as [l|l|?|v|v], b as [l'|l'|?|w|w]; simplify_eq/=;
    try done; do 2 f_equal.
  - apply literal_partial_cmp_defined_int; by rewrite ?Ha, ?Hb.
  - rewrite (value_int_cmp_literal _ _ _ _ Hb Ha). simpl.
    by rewrite <-Z_compare_reverse.
  - rewrite (value_int_cmp_literal _ _ _ _ Hb Ha). simpl.
    by rewrite <-Z_compare_reverse.
  - by apply value_int_cmp_literal.
  - by apply value_int_cmp.
  - by apply value_int_cmp.
  - by apply value_int_cmp_literal.
  - by apply value_int_cmp.
  - by apply value_int_cmp.
Qed.

Lemma partial_cmp_int_borrowed a b x y :
  int_of a = Some x → int_of b = Some y →
  kind_of a ≠ KLiteral → kind_of b ≠ KLiteral →
  partial_cmp a b = Ok (Some (x ?= y)).
Proof.
  intros Ha Hb ??. rewrite (partial_cmp_int a b x y) by done.
  case_decide; naive_solver.
Qed.

Lemma order_int a b x y :
  int_of a = Some x → int_of b = Some y →
  kind_of a ≠ KLiteral → kind_of b ≠ KLiteral →
  lt a b = Ok (x <? y) ∧ le a b = Ok (x <=? y) ∧
  gt a b = Ok (x >? y) ∧ ge a b = Ok (x >=? y).
Proof.
  intros Ha Hb ??. unfold lt, le, gt, ge.
  rewrite (partial_cmp_int_borrowed a b x y) by done. simpl.
  unfold Z.ltb, Z.leb, Z.gtb, Z.geb. by destruct (x ?= y).
Qed.

Lemma eq_int a b x y :
  int_of a = Some x → int_of b = Some y →
  is_Some (typed_value a) ∨ is_Some (typed_value b) →
  eq a b =
    if decide ((kind_of a, kind_of b) ∈ eq_unreachable) then Panic
    else Ok (x =? y).
Proof.
  unfold int_of, eq_unreachable. intros Ha Hb Ht.
  destruct a as [l|l|?|v|v], b as [l'|l'|?|w|w]; simplify_eq/=;
    try done; try (by destruct Ht as [[]|[]]); f_equal;
    rewrite 1?(Z.eqb_sym x y);
    first [by apply value_int_eq|by apply value_int_eq_literal
          |rewrite Z.eqb_sym].
  all: first [by apply value_int_eq|by apply value_int_eq_literal].
Qed.

(** C15: The operators compute on the integers their operands denote,
    whatever the representations: when the exact result of the operator on
    the two integers is an [i64], the call returns, in every build profile,
    a value that denotes it.  (For [add] with a literal on the left the
    typed domain receives the operands exchanged; on integers this is not
    observable.) *)
Theorem arith_exact p op a b x y z :
  int_of a = Some x → int_of b = Some y → checked_op op x y = Some z →
  ∃ r, arith p op a b = Ok r ∧ int_of r = Some z.
Proof. rewrite arith_dispatch. apply dispatch_exact. Qed.

(** C16: With overflow checks, an operator returns on two integer operands
    only the exact result: if the call returns, the exact result is an
    [i64] and the returned value denotes it. *)
Theorem arith_integer_sound op a b x y r :
  int_of a = Some x → int_of b = Some y → arith Debug op a b = Ok r →
  ∃ z, checked_op op x y = Some z ∧ int_of r = Some z.
Proof. rewrite arith_dispatch. apply dispatch_sound. Qed.

(** C24: When the exact result is not an [i64] (overflow, a zero divisor)
    the failure depends on the representation of the operands: two
    literals panic (with overflow checks), while a typed operand on either
    side makes the call return the error of the typed domain. *)
Theorem arith_failure_mode p op a b x y :
  int_of a = Some x → int_of b = Some y → checked_op op x y = None →
  match typed_value a, typed_value b with
  | None, None => arith Debug op a b = Panic
  | _, _ => ∃ e, arith p op a b = Err (ValueErr e)
  end.
Proof. rewrite !arith_dispatch. apply dispatch_inexact. Qed.

(** C21: [partial_cmp] orders integer operands by the integers they denote,
    whatever the representations: a numeral against a typed value, in
    either order, compares as the two integers do.  (An owned literal
    panics, as for every operand.) *)
Theorem partial_cmp_integers a b x y :
  int_of a = Some x → int_of b = Some y →
  partial_cmp a b =
    if decide (kind_of a = KLiteral ∨ kind_of b = KLiteral) then Panic
    else Ok (Some (x ?= y)).
Proof. apply partial_cmp_int. Qed.

(** On integer operands the order operators are the order of the
    integers, whatever the representations: a numeral is below a typed
    integer exactly when its value is below the integer.  (Borrowed
    operands: an owned literal panics.) *)
Theorem operators_on_integers a b x y :
  int_of a = Some x → int_of b = Some y →
  kind_of a ≠ KLiteral → kind_of b ≠ KLiteral →
  lt a b = Ok (x <? y) ∧ le a b = Ok (x <=? y) ∧
  gt a b = Ok (x >? y) ∧ ge a b = Ok (x >=? y).
Proof. apply order_int. Qed.

(** C22: [eq] compares integer operands by the integers they denote as soon
    as one of them is typed: a typed value equals a numeral when the
    numeral's value is the integer, whatever its text.  (The pairs of
    [eq_unreachable] panic.) *)
Theorem eq_integers a b x y :
  int_of a = Some x → int_of b = Some y →
  is_Some (typed_value a) ∨ is_Some (typed_value b) →
  eq a b =
    if decide ((kind_of a, kind_of b) ∈ eq_unreachable) then Panic
    else Ok (x =? y).
Proof. apply eq_int. Qed.

(** C34: Numerals are equal to typed integers by value and to each other
    by text: two numerals with different texts and the same value are both
    equal to the typed integer with that value and are not equal to each
    other, although they compare [Equal].  So [eq] is not transitive across
    representations, and disagrees with [partial_cmp] on numerals. *)
Theorem numerals_by_value (s t : string) v x :
  parse_i64 s = Some x → parse_i64 t = Some x → s ≠ t →
  int_of (ValueRef v) = Some x →
  eq (LiteralRef (Number s)) (ValueRef v) = Ok true ∧
  eq (ValueRef v) (LiteralRef (Number t)) = Ok true ∧
  eq (V:=V) (LiteralRef (Number s)) (LiteralRef (Number t)) = Ok false ∧
  partial_cmp (V:=V) (LiteralRef (Number s)) (LiteralRef (Number t))
    = Ok (Some Equal).
Proof.
  intros Hs Ht Hst Hv. simpl.
  rewrite !(value_int_eq_literal v _ x x), Z.eqb_refl, Hs, Ht, Z.compare_refl
    by (done || unfold literal_value; simpl; by rewrite ?Hs, ?Ht).
  split_and!; try done. f_equal. apply not_true_is_false.
  by intros ?%String.eqb_eq.
Qed.

End coherence.

(** ** The sample instance has integers *)

Lemma data_int_Some v x : data_int v = Some x ↔ v = I64 x ∧ in_i64 x = true.
Proof. destruct v; simpl; rewrite ?narrow_Some; naive_solver. Qed.

Lemma data_int_range v x : data_int v = Some x → in_i64 x = true.
Proof. by intros [_ ?]%data_int_Some. Qed.

Lemma data_int_clone_by v l x z :
  data_int v = Some x → literal_value l = Some z →
  ∃ c, clone_by v l = Ok c ∧ data_int c = Some z.
Proof.
  intros [-> _]%data_int_Some Hl.
  pose proof (literal_value_in_range _ _ Hl) as Hz.
  apply literal_value_Numeral, classify_Numeral in Hl as (s & -> & Hs).
  exists (I64 z). simpl. by rewrite Hs, narrow_in_range.
Qed.

Lemma data_int_op op v w x y :
  data_int v = Some x → data_int w = Some y →
  match checked_op op x y with
  | Some z => ∃ u, value_op op v w = Ok u ∧ data_int u = Some z
  | None => ∃ e, value_op op v w = Err e
  end.
Proof.
  intros [-> _]%data_int_Some [-> _]%data_int_Some.
  assert (value_op op (I64 x) (I64 y) = I64 <$> checked op x y) as ->
    by by destruct op.
  destruct (checked_op op x y) as [z|] eqn:Hz.
  - exists (I64 z). rewrite (proj2 (checked_Ok op x y z) Hz). simpl.
    by erewrite narrow_in_range by by eapply checked_op_in_range.
  - destruct (checked_Err op x y Hz) as (e & ->). by exists e.
Qed.

Lemma data_int_cmp v w x y :
  data_int v = Some x → data_int w = Some y →
  data_partial_cmp v w = Some (x ?= y).
Proof. by intros [-> _]%data_int_Some [-> _]%data_int_Some. Qed.

Lemma data_int_cmp_literal v l x y :
  data_int v = Some x → literal_value l = Some y →
  data_partial_cmp_literal v l = Some (x ?= y).
Proof.
  intros [-> _]%data_int_Some
    (s & -> & Hs)%literal_value_Numeral%classify_Numeral.
  simpl. by rewrite Hs.
Qed.

Lemma data_int_eq v w x y :
  data_int v = Some x → data_int w = Some y → data_eq v w = (x =? y).
Proof. by intros [-> _]%data_int_Some [-> _]%data_int_Some. Qed.

Lemma data_int_eq_literal v l x y :
  data_int v = Some x → literal_value l = Some y →
  data_eq_literal v l = (x =? y).
Proof.
  intros [-> _]%data_int_Some
    (s & -> & Hs)%literal_value_Numeral%classify_Numeral.
  simpl. by rewrite Hs.
Qed.

#[export] Instance data_integers : IntegerDomain Data.Value ValueError := {
  value_int := data_int;
  value_int_range := data_int_range;
  value_int_clone_by := data_int_clone_by;
  value_int_op := data_int_op;
  value_int_cmp := data_int_cmp;
  value_int_cmp_literal := data_int_cmp_literal;
  value_int_eq := data_int_eq;
  value_int_eq_literal := data_int_eq_literal;
}.

(** ** Where the representations part *)

(** Without overflow checks the same sum wraps around on two literals and
    is an error of the typed domain as soon as one operand is typed. *)
Example overflow_by_representation :
  arith Release Add (LiteralRef (Number "9223372036854775807"))
    (LiteralRef (Number "1"))
    = Ok (Literal (V:=Data.Value) (Number "-9223372036854775808")) ∧
  arith Release Add (ValueRef (I64 9223372036854775807))
    (LiteralRef (Number "1"))
    = Err (ValueErr ArithmeticOverflow).
Proof. done. Qed.

(** ** Witnesses, on the sample instance *)

Lemma numerals_by_value_witness :
  eq (LiteralRef (Number "1")) (ValueRef (I64 1)) = Ok true ∧
  eq (ValueRef (I64 1)) (LiteralRef (Number "01")) = Ok true ∧
  eq (V:=Data.Value) (LiteralRef (Number "1")) (LiteralRef (Number "01"))
    = Ok false ∧
  partial_cmp (V:=Data.Value) (LiteralRef (Number "1"))
    (LiteralRef (Number "01")) = Ok (Some Equal).
Proof.
  apply (numerals_by_value (V:=Data.Value) "1" "01" (I64 1) 1);
    [reflexivity|reflexivity|discriminate|reflexivity].
Defined.

Lemma arith_exact_witness :
  ∃ r, arith Release Mul (LiteralRef (Number "6")) (ValueRef (I64 7)) = Ok r ∧
    int_of r = Some 42.
Proof.
  apply (arith_exact (V:=Data.Value) Release Mul (LiteralRef (Number "6"))
    (ValueRef (I64 7)) 6 7 42); reflexivity.
Defined.

Lemma arith_integer_sound_witness :
  ∃ z, checked_op Sub 5 7 = Some z ∧
    int_of (Value (V:=Data.Value) (I64 (-2))) = Some z.
Proof.
  apply (arith_integer_sound (V:=Data.Value) Sub (ValueRef (I64 5))
    (Literal (Number "7")) 5 7 (Value (I64 (-2)))); reflexivity.
Defined.

Lemma arith_failure_mode_witness :
  arith (V:=Data.Value) Debug Div (LiteralRef (Number "1"))
    (LiteralRef (Number "0")) = Panic ∧
  ∃ e, arith Release Div (ValueRef (I64 1)) (LiteralRef (Number "0"))
    = Err (ValueErr e).
Proof.
  split.
  - apply (arith_failure_mode (V:=Data.Value) Debug Div
      (LiteralRef (Number "1")) (LiteralRef (Number "0")) 1 0); reflexivity.
  - apply (arith_failure_mode (V:=Data.Value) Release Div
      (ValueRef (I64 1)) (LiteralRef (Number "0")) 1 0); reflexivity.
Defined.

Lemma operators_on_integers_witness :
  lt (LiteralRef (Number "007")) (ValueRef (I64 8)) = Ok true ∧
  le (LiteralRef (Number "007")) (ValueRef (I64 8)) = Ok true ∧
  gt (LiteralRef (Number "007")) (ValueRef (I64 8)) = Ok false ∧
  ge (LiteralRef (Number "007")) (ValueRef (I64 8)) = Ok false.
Proof.
  apply (operators_on_integers (V:=Data.Value) (LiteralRef (Number "007"))
    (ValueRef (I64 8)) 7 8); [reflexivity|reflexivity|discriminate..].
Defined.

Lemma partial_cmp_integers_witness :
  partial_cmp (LiteralRef (Number "007")) (ValueRef (I64 7))
    = Ok (Some Equal).
Proof.
  apply (partial_cmp_integers (V:=Data.Value) (LiteralRef (Number "007"))
    (ValueRef (I64 7)) 7 7); reflexivity.
Defined.

Lemma eq_integers_witness :
  eq (ValueRef (I64 7)) (LiteralRef (Number "007")) = Ok true.
Proof.
  apply (eq_integers (V:=Data.Value) (ValueRef (I64 7))
    (LiteralRef (Number "007")) 7 7); [reflexivity..|].
  left. by eexists.
Defined.
