(* ===== verification/Text.v ===== *)
(** * Text: comparisons compute on the texts the operands denote

    A text has four representations in [Evaluated]: a single-quoted
    literal, borrowed or owned, a string slice, and a text value of the
    typed domain, borrowed or owned.  [text_of] is the text an operand
    denotes.  The theorems say how far [eq] and [partial_cmp] are the
    equality and the order of the denoted texts, for a typed domain that
    compares text values by their texts ([ValueStrLaws]):

    - [eq] is the equality of the texts on every pair that does not
      panic, except for an owned literal against a string slice, which is
      never equal ([eq_text]);
    - [partial_cmp] is the order of the texts on every pair that does not
      panic, except for a borrowed literal against a string slice, which
      is never comparable ([partial_cmp_text]).

    This is the counterpart of [Coherence] for text. *)

From Stdlib Require Import String.
From stdpp Require Import base tactics option list.
From S2P Require Import Prelude Int64 AstValue ValueDomain Data Literal.
From S2P Require Import Evaluated Compare.

#[local] Open Scope string_scope.

Create HintDb text discriminated.

(** The text an operand denotes. *)
Definition text_of {V VE} `{!ValueDomain V VE} (e : Evaluated V)
    : option string :=
  match e with
  | LiteralRef l | Literal l => as_single_quoted l
  | StringRef s => Some s
  | ValueRef v | Value v => value_as_str v
  end.

(** A literal of ownership [k] against a string slice, in either order. *)
Definition literal_and_slice (k ka kb : kind) : bool :=
  bool_decide (ka = k ∧ kb = KStringRef ∨ ka = KStringRef ∧ kb = k).

Section text.
Context {V VE : Type} `{!ValueDomain V VE, !ValueStrLaws V VE}.
Implicit Types (a b : Evaluated V) (v w : V) (s t : string).

Lemma text_of_literal l s :
  as_single_quoted l = Some s ↔ l = SingleQuotedString s.
Proof. destruct l; naive_solver. Qed.

Lemma ast_eq_quoted s t :
  ast_eq (SingleQuotedString s) (SingleQuotedString t) = String.eqb s t.
Proof.
  apply Bool.eq_true_iff_eq. rewrite ast_eq_spec, String.eqb_eq.
  naive_solver.
Qed.

Lemma eq_val_str v s t : value_as_str v = Some s → eq_val v t = String.eqb s t.
Proof. unfold eq_val. by intros ->. Qed.

Lemma str_partial_cmp_str v s t :
  value_as_str v = Some s → str_partial_cmp v t = Some (str_cmp s t).
Proof. unfold str_partial_cmp. by intros ->. Qed.

Lemma value_eq_literal_str v s t :
  value_as_str v = Some s →
  value_eq_literal v (SingleQuotedString t) = String.eqb s t.
Proof. intros Hv. by rewrite (value_str_eq_literal v s). Qed.

Lemma value_cmp_literal_str v s t :
  value_as_str v = Some s →
  value_partial_cmp_literal v (SingleQuotedString t) = Some (str_cmp s t).
Proof. intros Hv. by rewrite (value_str_cmp_literal v s). Qed.

#[local] Hint Resolve ast_eq_quoted eq_val_str str_partial_cmp_str
  value_str_eq value_str_cmp value_eq_literal_str value_cmp_literal_str
  str_eqb_sym : text.

(** The equality of two texts. *)
Lemma eq_text a b s t :
  text_of a = Some s → text_of b = Some t →
  eq a b =
    if decide ((kind_of a, kind_of b) ∈ eq_unreachable) then Panic
    else if literal_and_slice KLiteral (kind_of a) (kind_of b) then Ok false
    else Ok (String.eqb s t).
Proof.
  intros Ha Hb.
  destruct a as [l|l|?|v|v], b as [l'|l'|?|w|w]; simplify_eq/=;
    rewrite ?text_of_literal in *; simplify_eq/=; try done; f_equal.
  all: first [by eauto with text|rewrite (str_eqb_sym s t); by eauto with text].
Qed.

(** The order of two texts. *)
Lemma partial_cmp_text a b s t :
  text_of a = Some s → text_of b = Some t →
  partial_cmp a b =
    if decide (kind_of a = KLiteral ∨ kind_of b = KLiteral) then Panic
    else if literal_and_slice KLiteralRef (kind_of a) (kind_of b) then Ok None
    else Ok (Some (str_cmp s t)).
Proof.
  intros Ha Hb.
  destruct a as [l|l|?|v|v], b as [l'|l'|?|w|w]; simplify_eq/=;
    rewrite ?text_of_literal in *; simplify_eq/=; try done; f_equal.
  all: first [by eauto with text
             |erewrite value_cmp_literal_str by done; simpl;
              by rewrite <-str_cmp_reverse
             |by case_match; simplify_eq].
Qed.

(** C23: On two operands that denote texts, neither an owned literal
    (the leaves of an expression never are), [eq] is the equality of the
    two texts, and [partial_cmp] is the order of the two texts unless a
    borrowed literal meets a string slice, which are never comparable:
    the two agree on every pair of representations of two texts but that
    one. *)
Theorem text_comparison a b s t :
  text_of a = Some s → text_of b = Some t →
  kind_of a ≠ KLiteral → kind_of b ≠ KLiteral →
  eq a b = Ok (String.eqb s t) ∧
  partial_cmp a b =
    Ok (if literal_and_slice KLiteralRef (kind_of a) (kind_of b) then None
        else Some (str_cmp s t)).
Proof.
  intros Ha Hb Hka Hkb.
  rewrite (eq_text a b s t), (partial_cmp_text a b s t) by done.
  destruct a, b; try done; by repeat case_decide.
Qed.

End text.

(** ** The theorem at concrete operands *)

Lemma text_comparison_witness :
  eq (LiteralRef (SingleQuotedString "b")) (ValueRef (Str "a")) = Ok false ∧
  partial_cmp (LiteralRef (SingleQuotedString "b")) (ValueRef (Str "a"))
    = Ok (Some Greater).
Proof.
  exact (text_comparison (V:=Data.Value)
    (LiteralRef (SingleQuotedString "b")) (ValueRef (Str "a")) "b" "a"
    eq_refl eq_refl ltac:(done) ltac:(done)).
Defined.

(** A literal and a string slice with the same text are equal and
    incomparable. *)
Example text_equal_incomparable :
  eq (V:=Data.Value) (LiteralRef (SingleQuotedString "a")) (StringRef "a")
    = Ok true ∧
  partial_cmp (V:=Data.Value) (LiteralRef (SingleQuotedString "a"))
    (StringRef "a") = Ok None.
Proof. done. Qed.
