(* ===== verification/Expr.v ===== *)
(** * Expr: evaluated values up the expression tree

    The specification (section 2, control flow) says how the evaluator
    uses [Evaluated]: it builds one for each leaf of an expression by
    borrowing what the query or the row already holds (a literal node, the
    inner text of a quoted literal, a value of the row), and combines the
    results of two sub-expressions with an operator of [evaluated.rs] to
    get the result of their parent.  The evaluator itself is not in the
    repository; [eval] and [check] model that control flow from the
    specification, so that the operations of [Evaluated], [Compare] and
    [Arithmetic] can be composed:

    - [eval] evaluates an arithmetic expression, left operand first;
    - [check] evaluates the two sides of a comparison and applies the
      comparison operator.

    The theorems are the properties of evaluated values that only show on
    a tree: which representation each node has, that an expression without
    a column never reaches the typed domain, that evaluation computes the
    exact integer value of the expression (and, without overflow checks
    and on literals, its value wrapped to 64 bits), and that the result of
    an operator on literals cannot be compared. *)

From Stdlib Require Import ZArith String.
From stdpp Require Import base tactics option list.
From S2P Require Import Prelude Int64 AstValue ValueDomain Data Literal.
From S2P Require Import Evaluated Compare Arithmetic Ownership Coherence.

#[local] Open Scope string_scope.
#[local] Open Scope Z_scope.
#[local] Open Scope ownership_scope.

(** An arithmetic expression, with the three leaves the evaluator borrows
    from. *)
Inductive expr (V : Type) : Type :=
| Lit (l : AstValue)
| Text (s : string)
| Col (v : V)
| Bin (op : binop) (e1 e2 : expr V).

Arguments Lit {V} l.
Arguments Text {V} s.
Arguments Col {V} v.
Arguments Bin {V} op e1 e2.

(** The comparison operators of a condition. *)
Inductive cmp_op := CmpEq | CmpNe | CmpLt | CmpLe | CmpGt | CmpGe.

#[export] Instance cmp_op_eq_dec : EqDecision cmp_op.
Proof. solve_decision. Defined.

(** A node with sub-expressions. *)
Definition compound {V} (e : expr V) : bool :=
  match e with Bin _ _ _ => true | _ => false end.

(** An expression of literals only: no column, no string slice. *)
Fixpoint literal_only {V} (e : expr V) : bool :=
  match e with
  | Lit _ => true
  | Bin _ e1 e2 => literal_only e1 && literal_only e2
  | _ => false
  end.

(** An expression that reads a column of the row. *)
Fixpoint has_column {V} (e : expr V) : bool :=
  match e with
  | Col _ => true
  | Bin _ e1 e2 => has_column e1 || has_column e2
  | _ => false
  end.

(** The representation of the result of [e]: a leaf borrows; a node owns a
    typed value when a column is involved and a literal otherwise. *)
Definition result_kind {V} (e : expr V) : kind :=
  match e with
  | Lit _ => KLiteralRef
  | Text _ => KStringRef
  | Col _ => KValueRef
  | Bin _ _ _ => if has_column e then KValue else KLiteral
  end.

(** The order operators, as opposed to [=] and [!=]. *)
Definition is_order (c : cmp_op) : bool :=
  match c with CmpEq | CmpNe => false | _ => true end.

(** The pairs of representations a comparison operator cannot be applied
    to: an order operator to an owned literal on either side, [=] and
    [!=] to the pairs [eq] panics on. *)
Definition test_unreachable (c : cmp_op) (ka kb : kind) : Prop :=
  if is_order c then ka = KLiteral ∨ kb = KLiteral
  else (ka, kb) ∈ eq_unreachable.

(** The comparison of two integers an operator stands for. *)
Definition int_test (c : cmp_op) (x y : Z) : bool :=
  match c with
  | CmpEq => x =? y
  | CmpNe => negb (x =? y)
  | CmpLt => x <? y
  | CmpLe => x <=? y
  | CmpGt => x >? y
  | CmpGe => x >=? y
  end.

Section expr.
Context {V VE : Type} `{!ValueDomain V VE} (p : profile).

(** The result of an expression: a leaf borrows, a node combines the
    results of its sub-expressions, the left one first. *)
Fixpoint eval (e : expr V) : outcome (Error VE) (Evaluated V) :=
  match e with
  | Lit l => Ok (LiteralRef l)
  | Text s => Ok (StringRef s)
  | Col v => Ok (ValueRef v)
  | Bin op e1 e2 => a ← eval e1; b ← eval e2; arith p op a b
  end.

(** The operator of [Compare] a comparison applies. *)
Definition test (c : cmp_op)
    : Evaluated V → Evaluated V → outcome Empty_set bool :=
  match c with
  | CmpEq => eq
  | CmpNe => ne
  | CmpLt => lt
  | CmpLe => le
  | CmpGt => gt
  | CmpGe => ge
  end.

(** A comparison of two expressions. *)
Definition check (c : cmp_op) (e1 e2 : expr V) : outcome (Error VE) bool :=
  a ← eval e1; b ← eval e2;
  map_err (λ e : Empty_set, match e with end) (test c a b).

(** ** Reference: evaluation on literals alone

    What [eval] is to compute on an expression without a column: the
    literal helpers of [Literal] folded over the tree, with no typed
    domain in sight. *)
Fixpoint lit_eval (e : expr V) : outcome (Error VE) AstValue :=
  match e with
  | Lit l => Ok l
  | Bin op e1 e2 => a ← lit_eval e1; b ← lit_eval e2; literal_arith p op a b
  | _ => Err (EvaluateErr UnreachableEvaluatedArithmetic)
  end.

(** The representation of the result of a literal expression [e]. *)
Definition wrap (e : expr V) (l : AstValue) : Evaluated V :=
  if compound e then Literal l else LiteralRef l.

End expr.

(** ** Reference: the value of an expression of literals in the ring of
    integers, with no bound on the intermediate results *)
Fixpoint ring_value {V} (e : expr V) : option Z :=
  match e with
  | Lit l => literal_value l
  | Bin op e1 e2 => x ← ring_value e1; y ← ring_value e2; ring_op op x y
  | _ => None
  end.

(** ** Reference: the exact integer value of an expression *)

Fixpoint value_of {V VE} `{!ValueDomain V VE, !IntegerDomain V VE}
    (e : expr V) : option Z :=
  match e with
  | Lit l => literal_value l
  | Text _ => None
  | Col v => value_int v
  | Bin op e1 e2 => x ← value_of e1; y ← value_of e2; checked_op op x y
  end.

(** Every leaf denotes an integer. *)
Fixpoint integer_leaves {V VE} `{!ValueDomain V VE, !IntegerDomain V VE}
    (e : expr V) : Prop :=
  match e with
  | Lit l => is_Some (literal_value l)
  | Text _ => False
  | Col v => is_Some (value_int v)
  | Bin _ e1 e2 => integer_leaves e1 ∧ integer_leaves e2
  end.

Section expr_lemmas.
Context {V VE : Type} `{!ValueDomain V VE} (p : profile).
Implicit Types (e : expr V) (a b r : Evaluated V) (l : AstValue) (op : binop).

#[local] Abbreviation eval := (eval (V:=V) (VE:=VE) p).
#[local] Abbreviation check := (check (V:=V) (VE:=VE) p).

(** ** The representation of each node *)

Lemma eval_Bin_Ok op e1 e2 r :
  eval (Bin op e1 e2) = Ok r ↔
  ∃ a b, eval e1 = Ok a ∧ eval e2 = Ok b ∧ dispatch p op a b = Ok r.
Proof.
  simpl. rewrite bind_Ok_inv. setoid_rewrite bind_Ok_inv.
  setoid_rewrite arith_dispatch. naive_solver.
Qed.

Lemma typed_value_kind a :
  is_Some (typed_value a) ↔ kind_of a = KValueRef ∨ kind_of a = KValue.
Proof. destruct a; simpl; rewrite ?is_Some_alt; naive_solver. Qed.

Lemma result_kind_typed e :
  result_kind e = KValueRef ∨ result_kind e = KValue ↔ has_column e = true.
Proof. destruct e; simpl; try case_match; naive_solver. Qed.

Lemma kind_typed_iff_column a e :
  kind_of a = result_kind e → is_Some (typed_value a) ↔ has_column e = true.
Proof. intros Ha. by rewrite typed_value_kind, Ha, result_kind_typed. Qed.

Lemma eval_kind e r : eval e = Ok r → kind_of r = result_kind e.
Proof.
  revert r. induction e as [| | |op e1 IH1 e2 IH2]; intros r;
    try (by intros [= <-]).
  intros (a & b & Ha%IH1%kind_typed_iff_column
    & Hb%IH2%kind_typed_iff_column & Hr)%eval_Bin_Ok.
  simpl. destruct (dispatch_result _ _ _ _ _ Hr)
    as [(l & -> & Ha' & Hb')|(v & -> & Hv)]; simpl.
  - rewrite Ha' in Ha. rewrite Hb' in Hb.
    destruct (has_column e1), (has_column e2); simpl; try done;
      exfalso; eapply is_Some_None; first [by apply Ha|by apply Hb].
  - rewrite Ha, Hb in Hv. by destruct Hv as [-> | ->]; rewrite ?orb_true_r.
Qed.

Lemma eval_typed_iff_column e r :
  eval e = Ok r → is_Some (typed_value r) ↔ has_column e = true.
Proof. by intros ?%eval_kind%kind_typed_iff_column. Qed.

Lemma eval_owned e r : eval e = Ok r → owned r = compound e.
Proof.
  intros Hr. destruct e as [| | |op e1 e2]; try (by injection Hr as <-).
  apply eval_Bin_Ok in Hr as (a & b & _ & _ & Hr). by eapply dispatch_owned.
Qed.

(** C19: The representation of every node of an expression is determined
    by the shape of the expression: a leaf is borrowed (a literal, a
    string slice or a value of the row), a node with sub-expressions is
    owned, a typed value when a column occurs below it and a literal
    otherwise. *)
Theorem eval_representation e r :
  eval e = Ok r → kind_of r = result_kind e ∧ owned r = compound e.
Proof. intros Hr. split; [by apply eval_kind|by apply eval_owned]. Qed.

(** ** An expression of literals *)

Lemma wrap_same e l : wrap e l ≈ LiteralRef l.
Proof. unfold wrap. by destruct (compound e). Qed.

Lemma eval_lit_eval e :
  literal_only e = true → eval e = wrap e <$> lit_eval p e.
Proof.
  induction e as [| | |op e1 IH1 e2 IH2]; simpl; try done.
  intros [H1 H2]%andb_true_iff. rewrite IH1, IH2 by done.
  destruct (lit_eval p e1) as [a| |]; simpl; try done.
  destruct (lit_eval p e2) as [b| |]; simpl; try done.
  rewrite !wrap_same. by destruct op.
Qed.

(** C26: An expression without a column is evaluated on literals alone:
    [eval] is the literal helpers folded over the tree, the result of a
    leaf borrowed and the result of a node owned.  No value of the typed
    domain is built and no method of it is called. *)
Theorem eval_literal_only e :
  literal_only e = true →
  eval e = wrap e <$> lit_eval p e ∧
  ∀ r, eval e = Ok r → typed_value r = None.
Proof.
  intros He. split; [by apply eval_lit_eval|].
  intros r. rewrite eval_lit_eval by done.
  intros (l & _ & ->)%fmap_Ok_inv. unfold wrap. by destruct (compound e).
Qed.

(** ** Comparing the results of two expressions *)

Lemma check_Ok c e1 e2 a b :
  eval e1 = Ok a → eval e2 = Ok b →
  check c e1 e2 = map_err (λ e : Empty_set, match e with end) (test c a b).
Proof. unfold Expr.check. by intros -> ->. Qed.

Lemma test_order_Panic c a b :
  is_order c = true →
  test c a b = Panic ↔ kind_of a = KLiteral ∨ kind_of b = KLiteral.
Proof.
  intros Hc. rewrite <-partial_cmp_Panic.
  destruct c; try done; apply fmap_Panic_iff.
Qed.

Lemma test_Panic c a b :
  test c a b = Panic ↔ test_unreachable c (kind_of a) (kind_of b).
Proof.
  unfold test_unreachable. destruct (is_order c) eqn:Hc.
  - by apply test_order_Panic.
  - rewrite <-eq_Panic. destruct c; try done. apply fmap_Panic_iff.
Qed.

#[global] Instance test_unreachable_dec c ka kb :
  Decision (test_unreachable c ka kb).
Proof. unfold test_unreachable. destruct (is_order c); apply _. Defined.

(** C25: The result of an operator on literals cannot be compared: a
    condition on two expressions that both evaluate panics exactly when
    the representations of the two results, which the shapes of the
    expressions fix, are a pair the operator cannot be applied to.  For
    [<], [<=], [>] and [>=] that is when one side is a node without a
    column, whose result is an owned literal: [1 + 2 < 5] panics, where
    [1 + x < 5] and [3 < 5] are answered.  For [=] and [!=] it is when one
    side is such a node and the other is not a column: [1 + 2 = 3] and
    [x + 1 = 1 + 2] panic, where [x = 1 + 2] is answered. *)
Theorem check_panics_iff c e1 e2 :
  is_Ok (eval e1) = true → is_Ok (eval e2) = true →
  check c e1 e2 = Panic ↔
  test_unreachable c (result_kind e1) (result_kind e2).
Proof.
  intros (a & Ha)%is_Ok_true (b & Hb)%is_Ok_true.
  rewrite (check_Ok c e1 e2 a b), map_err_Panic_iff, test_Panic by done.
  by rewrite (eval_kind e1 a), (eval_kind e2 b).
Qed.

End expr_lemmas.

(** ** Literals without overflow checks *)

Section expr_release.
Context {V VE : Type} `{!ValueDomain V VE}.
Implicit Types (e : expr V) (l : AstValue) (z : Z).

Lemma ring_value_literal_only e z : ring_value e = Some z → literal_only e = true.
Proof.
  revert z. induction e as [| | |op e1 IH1 e2 IH2]; intros z; simpl; try done.
  destruct (ring_value e1) as [x|], (ring_value e2) as [y|]; try done.
  intros _. by rewrite (IH1 x), (IH2 y).
Qed.

Lemma lit_eval_Release e z :
  ring_value e = Some z →
  ∃ l, lit_eval (V:=V) (VE:=VE) Release e = Ok l
       ∧ literal_value l = Some (wrap_i64 z).
Proof.
  revert z. induction e as [l| | |op e1 IH1 e2 IH2]; intros z; simpl; try done.
  - intros Hl. exists l. split; [done|].
    by rewrite wrap_i64_id by by eapply literal_value_in_range.
  - destruct (ring_value e1) as [x|]; [|done].
    destruct (ring_value e2) as [y|]; [simpl|done].
    intros (z' & Hz' & <-)%wrap_i64_ring_op.
    destruct (IH1 x eq_refl) as (a & -> & Ha%literal_value_Numeral).
    destruct (IH2 y eq_refl) as (b & -> & Hb%literal_value_Numeral).
    simpl. rewrite (literal_arith_numerals _ op a b _ _ Ha Hb).
    rewrite (binop_Release_ring _ _ _ _ Hz'). eexists. split; [done|].
    apply literal_value_print, wrap_i64_in_range.
Qed.

Lemma eval_Release_ring e z :
  ring_value e = Some z →
  ∃ l, eval Release e = Ok (wrap e l)
       ∧ literal_value l = Some (wrap_i64 z).
Proof.
  intros Hz. destruct (lit_eval_Release e z Hz) as (l & Hl & ?).
  exists l. split; [|done].
  rewrite (eval_lit_eval Release) by by eapply ring_value_literal_only.
  by rewrite Hl.
Qed.

(** C33: Without overflow checks an expression of literals over [+], [-]
    and [*] evaluates, whatever overflows on the way, to a numeral of the
    value of the expression in the ring of integers wrapped to 64 bits:
    the wrap-around of an intermediate result does not show in the
    result. *)
Theorem eval_Release_wraps e z :
  ring_value e = Some z →
  ∃ l, eval (VE:=VE) Release e = Ok (wrap e l)
       ∧ literal_value l = Some (wrap_i64 z).
Proof. apply eval_Release_ring. Qed.

End expr_release.


(** ** Evaluation computes the value of the expression *)

Section expr_integers.
Context {V VE : Type} `{!ValueDomain V VE, !IntegerDomain V VE}.
Implicit Types (e : expr V) (a b r : Evaluated V) (x y z : Z) (p : profile).

Lemma value_of_Bin op e1 e2 z :
  value_of (Bin op e1 e2) = Some z ↔
  ∃ x y, value_of e1 = Some x ∧ value_of e2 = Some y ∧
    checked_op op x y = Some z.
Proof.
  simpl. destruct (value_of e1) as [x|]; simpl; [|naive_solver].
  destruct (value_of e2) as [y|]; simpl; naive_solver.
Qed.

Lemma value_of_leaves e z : value_of e = Some z → integer_leaves e.
Proof.
  revert z. induction e as [| | |op e1 IH1 e2 IH2]; intros z; simpl;
    try done; try by eexists.
  intros (x & y & ?%IH1 & ?%IH2 & _)%value_of_Bin. done.
Qed.

Lemma eval_value p e z :
  value_of e = Some z → ∃ r, eval p e = Ok r ∧ int_of r = Some z.
Proof.
  revert z. induction e as [l|s|v|op e1 IH1 e2 IH2]; intros z;
    try (simpl; by eauto).
  intros (x & y & (a & Ha & Hx)%IH1 & (b & Hb & Hy)%IH2 & Hz)%value_of_Bin.
  destruct (dispatch_exact p op a b x y z) as (r & Hr & ?); try done.
  exists r. split; [|done]. apply eval_Bin_Ok. eauto.
Qed.

Lemma eval_Debug_value e r :
  integer_leaves e → eval Debug e = Ok r →
  ∃ z, value_of e = Some z ∧ int_of r = Some z.
Proof.
  revert r. induction e as [l|s|v|op e1 IH1 e2 IH2]; intros r; simpl.
  - intros [z Hz] [= <-]. eauto.
  - done.
  - intros [z Hz] [= <-]. eauto.
  - intros [H1 H2] (a & b & Ha & Hb & Hr)%eval_Bin_Ok.
    destruct (IH1 a H1 Ha) as (x & Hx & Hax).
    destruct (IH2 b H2 Hb) as (y & Hy & Hby).
    destruct (dispatch_sound op a b x y r) as (z & Hz & ?); try done.
    exists z. by rewrite Hx, Hy.
Qed.

(** C17: Evaluation refines the exact arithmetic of the expression: when
    the value of the expression, computed on unbounded integers with every
    intermediate result an [i64], is [z], the evaluator returns a value
    that denotes [z], whatever mix of literals and columns the leaves are
    and in every build profile. *)
Theorem eval_exact p e z :
  value_of e = Some z → ∃ r, eval p e = Ok r ∧ int_of r = Some z.
Proof. apply eval_value. Qed.

(** With overflow checks the evaluator returns nothing but the exact
    value: on an expression whose leaves are integers, a result of
    evaluation denotes the value of the expression, and every
    intermediate result was an [i64]. *)
Theorem eval_sound e r :
  integer_leaves e → eval Debug e = Ok r →
  ∃ z, value_of e = Some z ∧ int_of r = Some z.
Proof. apply eval_Debug_value. Qed.

(** ** Conditions on integers *)

Lemma test_int c a b x y :
  int_of a = Some x → int_of b = Some y →
  kind_of a ≠ KLiteral → kind_of b ≠ KLiteral →
  is_order c = true ∨ is_Some (typed_value a) ∨ is_Some (typed_value b) →
  test c a b = Ok (int_test c x y).
Proof.
  intros Ha Hb Hka Hkb Hc.
  destruct (order_int a b x y) as (Hlt & Hle & Hgt & Hge); try done.
  destruct c; simpl; try done; destruct Hc as [|Ht]; try done.
  all: unfold ne; rewrite (eq_int a b x y) by done.
  all: rewrite decide_False; [done|].
  all: intros Hin; apply eq_Panic, eq_Panic_owned in Hin; naive_solver.
Qed.

(** C20: A condition on two integer expressions is answered by the
    comparison of their values: when both sides have a value and neither
    is an operator applied to literals alone, an order operator returns
    the order of the two values, and so do [=] and [!=] when a column
    occurs on one side. *)
Theorem check_exact p c e1 e2 x y :
  value_of e1 = Some x → value_of e2 = Some y →
  result_kind e1 ≠ KLiteral → result_kind e2 ≠ KLiteral →
  is_order c = true ∨ has_column e1 = true ∨ has_column e2 = true →
  check p c e1 e2 = Ok (int_test c x y).
Proof.
  intros (a & Ha & Hx)%(eval_value p) (b & Hb & Hy)%(eval_value p) H1 H2 Hc.
  rewrite (check_Ok p c e1 e2 a b) by done.
  rewrite <-(eval_kind p e1 a) in H1 by done.
  rewrite <-(eval_kind p e2 b) in H2 by done.
  rewrite <-(eval_typed_iff_column p e1 a), <-(eval_typed_iff_column p e2 b)
    in Hc by done.
  by rewrite (test_int c a b x y).
Qed.

End expr_integers.

(** ** The theorems at concrete expressions *)

Section expr_witnesses.
#[local] Notation "'#' s" := (Lit (V:=Data.Value) (Number s))
  (at level 1, format "# s").
#[local] Abbreviation col z := (Col (I64 z)).

(** [1 + 2 * 3]: a node of literals owns a literal. *)
Lemma eval_representation_witness :
  kind_of (V:=Data.Value) (Literal (Number "7")) = KLiteral ∧
  owned (V:=Data.Value) (Literal (Number "7")) = true.
Proof.
  apply (eval_representation (V:=Data.Value) Debug
    (Bin Add #"1" (Bin Mul #"2" #"3"))). reflexivity.
Defined.

Lemma eval_literal_only_witness :
  eval Debug (Bin Add #"1" (Bin Mul #"2" #"3")) = Ok (Literal (Number "7")).
Proof.
  etrans; [apply (eval_literal_only (V:=Data.Value)); reflexivity|].
  reflexivity.
Defined.

(** [1 + 2 < 5] panics; [1 + x < 5] does not. *)
Lemma check_panics_iff_witness :
  check (V:=Data.Value) Debug CmpLt (Bin Add #"1" #"2") #"5" = Panic ∧
  check (V:=Data.Value) Debug CmpEq (Bin Add #"1" #"2") #"3" = Panic ∧
  check (V:=Data.Value) Debug CmpEq (col 3) (Bin Add #"1" #"2") ≠ Panic.
Proof.
  split_and!.
  - apply check_panics_iff; [reflexivity..|]. by left.
  - apply check_panics_iff; [reflexivity..|]. by apply (bool_decide_unpack _).
  - rewrite check_panics_iff by reflexivity. by apply (bool_decide_unpack _).
Defined.

Lemma eval_exact_witness :
  ∃ r, eval Release (Bin Add (col 1) (Bin Mul #"2" #"3")) = Ok r
       ∧ int_of r = Some 7%Z.
Proof. apply (eval_exact (V:=Data.Value)). reflexivity. Defined.

Lemma eval_sound_witness :
  ∃ z, value_of (Bin Sub (col 9) (Bin Div #"8" #"3")) = Some z
       ∧ int_of (V:=Data.Value) (Value (I64 7)) = Some z.
Proof.
  apply (eval_sound (V:=Data.Value)); [|reflexivity].
  repeat split; by eexists.
Defined.

Lemma check_exact_witness :
  check Release CmpLe (Bin Add (col 1) (Bin Mul #"2" #"3")) #"007" = Ok true.
Proof.
  apply (check_exact (V:=Data.Value) Release CmpLe _ _ 7 7);
    [reflexivity|reflexivity|discriminate|discriminate|by left].
Defined.

(** [i64::MAX + 1 - 1]: the sum wraps to [i64::MIN] and the difference
    wraps back. *)
Lemma eval_Release_wraps_witness :
  ∃ l, eval (V:=Data.Value) Release
         (Bin Sub (Bin Add #"9223372036854775807" #"1") #"1")
       = Ok (Literal l)
       ∧ literal_value l = Some 9223372036854775807%Z.
Proof.
  exact (eval_Release_wraps (V:=Data.Value)
    (Bin Sub (Bin Add #"9223372036854775807" #"1") #"1")
    9223372036854775807 eq_refl).
Defined.

End expr_witnesses.
