(* ===== verification/Typing.v ===== *)
(** * Typing: which expressions the evaluator can handle

    [evaluated.rs] reports three kinds of failure: its own invariant
    errors ([UnreachableEvaluatedArithmetic],
    [UnreachableLiteralArithmetic]), the errors of the typed domain, and
    panics.  The specification (section 7) calls the first kind a breach of
    contract by the caller and asks for the illegal combinations to be
    excluded statically.  This file gives the static discipline and proves
    what it guarantees:

    - [has_type] types an expression as an integer or a text, from its
      leaves; arithmetic is on integers;
    - a well-typed arithmetic expression never raises an invariant error,
      and when it returns its result is again an integer
      ([type_soundness]);
    - a comparison of two texts always returns ([check_text_returns]),
      and with the comparison of the texts unless a quoted literal meets
      a string slice ([check_text]).

    What typing does not exclude is shown too: an arithmetic fault
    (overflow, zero divisor) is a panic or an error of the typed domain
    depending on the representation, and the comparison of a well-typed
    expression of literals panics. *)

From Stdlib Require Import ZArith String.
From stdpp Require Import base tactics option list.
From S2P Require Import Prelude Int64 AstValue ValueDomain Data Literal.
From S2P Require Import Evaluated Compare Arithmetic Coherence Text Expr.

#[local] Open Scope string_scope.
#[local] Open Scope Z_scope.

Inductive ty := TInt | TText.

#[export] Instance ty_eq_dec : EqDecision ty.
Proof. solve_decision. Defined.

Section typing.
Context {V VE : Type} `{!ValueDomain V VE, !IntegerDomain V VE}.

(** The typing judgment. *)
Inductive has_type : expr V → ty → Prop :=
| type_Lit_Int l :
    is_Some (literal_value l) → has_type (Lit l) TInt
| type_Lit_Text s :
    has_type (Lit (SingleQuotedString s)) TText
| type_Text s :
    has_type (Text s) TText
| type_Col_Int v :
    is_Some (value_int v) → has_type (Col v) TInt
| type_Col_Text v :
    value_int v = None → is_Some (value_as_str v) → has_type (Col v) TText
| type_Bin op e1 e2 :
    has_type e1 TInt → has_type e2 TInt → has_type (Bin op e1 e2) TInt.

(** The type checker. *)
Fixpoint type_of (e : expr V) : option ty :=
  match e with
  | Lit l =>
      match literal_value l, as_single_quoted l with
      | Some _, _ => Some TInt
      | None, Some _ => Some TText
      | None, None => None
      end
  | Text _ => Some TText
  | Col v =>
      match value_int v, value_as_str v with
      | Some _, _ => Some TInt
      | None, Some _ => Some TText
      | None, None => None
      end
  | Bin _ e1 e2 =>
      match type_of e1, type_of e2 with
      | Some TInt, Some TInt => Some TInt
      | _, _ => None
      end
  end.

End typing.

(** The text of a leaf. *)
Definition text_value {V VE} `{!ValueDomain V VE} (e : expr V)
    : option string :=
  match e with
  | Lit l => as_single_quoted l
  | Text s => Some s
  | Col v => value_as_str v
  | Bin _ _ _ => None
  end.

(** The answer of an order operator to the result of [partial_cmp]. *)
Definition order_answer (c : cmp_op) (o : option Ordering) : bool :=
  match c with
  | CmpLt => is_lt o
  | CmpLe => is_le o
  | CmpGt => is_gt o
  | CmpGe => is_ge o
  | _ => false
  end.

(** The comparison of two texts an operator stands for. *)
Definition text_test (c : cmp_op) (s t : string) : bool :=
  match c with
  | CmpEq => String.eqb s t
  | CmpNe => negb (String.eqb s t)
  | _ => order_answer c (Some (str_cmp s t))
  end.

(** A quoted literal on one side and a string slice on the other. *)
Definition literal_meets_slice {V} (e1 e2 : expr V) : bool :=
  match e1, e2 with
  | Lit _, Text _ | Text _, Lit _ => true
  | _, _ => false
  end.

Section typing_lemmas.
Context {V VE : Type} `{!ValueDomain V VE, !IntegerDomain V VE}.
Implicit Types (e : expr V) (a b r : Evaluated V) (τ : ty) (p : profile).

Lemma literal_value_quoted s : literal_value (SingleQuotedString s) = None.
Proof. done. Qed.

(** ** The checker decides the judgment *)

Lemma type_of_sound e τ : type_of e = Some τ → has_type e τ.
Proof.
  revert τ. induction e as [l|s|v|op e1 IH1 e2 IH2]; intros τ; simpl.
  - destruct (literal_value l) eqn:Hl; [intros [= <-]; by constructor|].
    destruct l; simpl; intros; simplify_eq. constructor.
  - intros [= <-]. constructor.
  - destruct (value_int v) eqn:Hv; [intros [= <-]; by constructor|].
    destruct (value_as_str v) eqn:Hs; intros; simplify_eq. by constructor.
  - destruct (type_of e1) as [[]|], (type_of e2) as [[]|]; intros;
      simplify_eq. constructor; auto.
Qed.

Lemma type_of_complete e τ : has_type e τ → type_of e = Some τ.
Proof.
  induction 1 as [l [z Hz]|s|s|v [z Hz]|v Hv [s Hs]|op e1 e2 _ IH1 _ IH2];
    simpl; by rewrite ?Hz, ?Hv, ?Hs, ?IH1, ?IH2.
Qed.

Lemma has_type_iff e τ : has_type e τ ↔ type_of e = Some τ.
Proof. split; [apply type_of_complete|apply type_of_sound]. Qed.

#[global] Instance has_type_dec e τ : Decision (has_type e τ).
Proof.
  refine (cast_if (decide (type_of e = Some τ))); by rewrite has_type_iff.
Defined.

Lemma has_type_unique e τ1 τ2 : has_type e τ1 → has_type e τ2 → τ1 = τ2.
Proof. rewrite !has_type_iff. congruence. Qed.

Lemma has_type_Int_leaves e : has_type e TInt ↔ integer_leaves e.
Proof.
  split.
  - remember TInt as τ eqn:Hτ. induction 1; simplify_eq/=; auto.
  - induction e; simpl; try done; try (by constructor).
    intros [??]. constructor; auto.
Qed.

(** A text is a leaf. *)
Lemma has_type_Text_leaf e : has_type e TText → compound e = false.
Proof. by inversion 1. Qed.

(** ** Soundness *)

Lemma eval_int_outcome p e :
  integer_leaves e →
  (∃ r z, eval p e = Ok r ∧ int_of r = Some z) ∨
  eval p e = Panic ∨
  ∃ ve, eval p e = Err (ValueErr ve).
Proof.
  induction e as [l|s|v|op e1 IH1 e2 IH2]; simpl.
  - intros [z Hz]. left. by eexists _, z.
  - done.
  - intros [z Hz]. left. by eexists _, z.
  - intros [H1 H2].
    destruct (IH1 H1) as [(a & x & -> & Hx)|[-> |[ve ->]]]; simpl; eauto.
    destruct (IH2 H2) as [(b & y & -> & Hy)|[-> |[ve ->]]]; simpl; eauto.
    rewrite arith_dispatch. by eapply dispatch_int_outcome.
Qed.

(** C18: Type soundness of arithmetic: a well-typed integer expression
    never raises an invariant error of the evaluator
    ([UnreachableEvaluatedArithmetic], [UnreachableLiteralArithmetic]) and
    never panics on a numeral that does not parse.  Its evaluation returns
    an integer, which can be an operand again, or stops on an arithmetic
    fault: a panic or an error of the typed domain. *)
Theorem type_soundness p e :
  has_type e TInt →
  (∃ r z, eval p e = Ok r ∧ int_of r = Some z) ∨
  eval p e = Panic ∨
  ∃ ve, eval p e = Err (ValueErr ve).
Proof. intros ?%has_type_Int_leaves. by apply eval_int_outcome. Qed.

Lemma eval_text e :
  has_type e TText →
  ∃ a, (∀ p, eval p e = Ok a) ∧ kind_of a ≠ KLiteral ∧ kind_of a ≠ KValue.
Proof. inversion 1; simplify_eq; eexists; by split_and!. Qed.

(** A comparison of two texts always returns: the operands are
    leaves, hence borrowed, and no pair of borrowed operands makes [eq] or
    [partial_cmp] panic. *)
Theorem check_text_returns p c e1 e2 :
  has_type e1 TText → has_type e2 TText → is_Ok (check p c e1 e2) = true.
Proof.
  intros (a & Ha & Hal & Hav)%eval_text (b & Hb & Hbl & Hbv)%eval_text.
  rewrite (check_Ok p c e1 e2 a b) by done.
  destruct (test c a b) as [t|[]|] eqn:Ht; [done|exfalso].
  destruct c; simpl in Ht.
  1-2: unfold ne in Ht; rewrite ?fmap_Panic_iff in Ht;
    apply eq_Panic_owned in Ht; naive_solver.
  all: apply fmap_Panic_iff, partial_cmp_Panic in Ht; naive_solver.
Qed.

Lemma has_type_text e : has_type e TText → is_Some (text_value e).
Proof. inversion 1; simplify_eq/=; by eauto. Qed.

End typing_lemmas.

(** ** Conditions on text *)

Section text_conditions.
Context {V VE : Type} `{!ValueDomain V VE, !ValueStrLaws V VE}.
Implicit Types (e : expr V) (a b : Evaluated V) (s t : string).

Lemma test_order_answer c a b :
  is_order c = true → test c a b = order_answer c <$> partial_cmp a b.
Proof. by destruct c. Qed.

(** A leaf with a text evaluates to a borrowed operand with that text. *)
Lemma eval_text_value p e s :
  text_value e = Some s →
  ∃ a, eval p e = Ok a ∧ text_of a = Some s ∧ kind_of a = result_kind e
       ∧ compound e = false.
Proof. destruct e; intros; simplify_eq/=; by eauto. Qed.

Lemma literal_meets_slice_kind e1 e2 :
  compound e1 = false → compound e2 = false →
  literal_and_slice KLiteralRef (result_kind e1) (result_kind e2)
  = literal_meets_slice e1 e2.
Proof. by destruct e1, e2. Qed.

(** C27: A condition on two texts is answered by the comparison of the
    texts, whichever leaves hold them (a quoted literal, a string slice, a
    text column), with one exception: a literal and a string slice are
    equal when their texts are and never ordered, so that each of [<],
    [<=], [>], [>=] answers false on them. *)
Theorem check_text p c e1 e2 s t :
  text_value e1 = Some s → text_value e2 = Some t →
  check p c e1 e2 =
    Ok (if is_order c && literal_meets_slice e1 e2 then false
        else text_test c s t).
Proof.
  intros (a & Ha & Has & Hka & H1)%(eval_text_value p)
    (b & Hb & Hbt & Hkb & H2)%(eval_text_value p).
  assert (kind_of a ≠ KLiteral ∧ kind_of b ≠ KLiteral) as [??]
    by (rewrite Hka, Hkb; by destruct e1, e2).
  rewrite (check_Ok p c e1 e2 a b) by done.
  destruct (is_order c) eqn:Hc; simpl.
  - rewrite test_order_answer, (partial_cmp_text a b s t) by done.
    rewrite decide_False, Hka, Hkb, literal_meets_slice_kind by naive_solver.
    by destruct c, (literal_meets_slice e1 e2).
  - destruct c; try done; simpl; unfold ne;
      rewrite (eq_text a b s t) by done.
    all: rewrite decide_False
      by (intros Hin; apply eq_Panic, eq_Panic_owned in Hin; naive_solver).
    all: by destruct a, b.
Qed.

End text_conditions.

(** ** The theorems at concrete expressions *)

(** [x + 2 * 3] with [x = 1] is well typed. *)
Lemma type_soundness_witness :
  (∃ r z, eval (V:=Data.Value) Debug
      (Bin Add (Col (I64 1)) (Bin Mul (Lit (Number "2")) (Lit (Number "3"))))
      = Ok r ∧ int_of r = Some z) ∨
  eval (V:=Data.Value) Debug
    (Bin Add (Col (I64 1)) (Bin Mul (Lit (Number "2")) (Lit (Number "3"))))
    = Panic ∨
  ∃ ve, eval (V:=Data.Value) Debug
    (Bin Add (Col (I64 1)) (Bin Mul (Lit (Number "2")) (Lit (Number "3"))))
    = Err (ValueErr ve).
Proof.
  apply (type_soundness (V:=Data.Value)). apply type_of_sound. reflexivity.
Defined.

(** A quoted literal against a text column. *)
Lemma check_text_returns_witness :
  is_Ok (check (V:=Data.Value) Release CmpGe
    (Lit (SingleQuotedString "b")) (Col (Str "a"))) = true.
Proof.
  apply (check_text_returns (V:=Data.Value)); apply type_of_sound; reflexivity.
Defined.

(** Typing does not exclude the panic of a comparison: [1 + 2 < 5] is a
    comparison of two well-typed integer expressions. *)
Example typed_comparison_panics :
  has_type (V:=Data.Value) (Bin Add (Lit (Number "1")) (Lit (Number "2"))) TInt
  ∧ has_type (V:=Data.Value) (Lit (Number "5")) TInt
  ∧ check (V:=Data.Value) Debug CmpLt
      (Bin Add (Lit (Number "1")) (Lit (Number "2"))) (Lit (Number "5"))
    = Panic.
Proof. split_and!; [apply type_of_sound..|]; reflexivity. Qed.

(** A text column against a quoted literal, and the literal against its
    own text as a string slice. *)
Lemma check_text_witness :
  check (V:=Data.Value) Debug CmpLt (Col (Str "a"))
    (Lit (SingleQuotedString "b")) = Ok true.
Proof.
  exact (check_text (V:=Data.Value) Debug CmpLt (Col (Str "a"))
    (Lit (SingleQuotedString "b")) "a" "b" eq_refl eq_refl).
Defined.

Example literal_slice_unordered :
  check (V:=Data.Value) Debug CmpLe (Lit (SingleQuotedString "a")) (Text "a")
    = Ok false ∧
  check (V:=Data.Value) Debug CmpEq (Lit (SingleQuotedString "a")) (Text "a")
    = Ok true.
Proof. done. Qed.
