(* ===== verification/Scenarios.v ===== *)
(** * Scenarios: the evaluations the specification lists, and a domain
    whose addition does not commute

    The first part runs [eq], [partial_cmp] and the four operators on the
    sample instance of [Data], on the inputs the specification gives as
    testable properties.  Every statement is closed and is checked by
    evaluation of the model.

    The second part is an instance of [ValueDomain] with text values only,
    whose addition is concatenation.  It satisfies [ValueDomainLaws] and not
    [ValueAddComm]; on it [add] with a literal on the left returns the
    operands in the opposite order.

    In between, [every_pair_reached] gives an expression for each of the
    five representations, so that every pair of representations, the
    pairs that panic included, is met by a condition.

    The third part is an instance with a value that is not equal to
    itself, as the not-a-number of floating-point arithmetic: it satisfies
    [ValueDomainLaws], so that the theorems of [Evaluated] apply to it,
    and on it a division by a typed zero returns a value. *)

From Stdlib Require Import ZArith String.
From stdpp Require Import base tactics option.
From S2P Require Import Prelude Int64 AstValue ValueDomain Data Literal.
From S2P Require Import Evaluated Compare Arithmetic Coherence Expr Typing.

#[local] Open Scope string_scope.

(** ** A domain of texts under concatenation *)

Definition text_clone_by (v : string) (l : AstValue) : outcome unit string :=
  match l with
  | SingleQuotedString s => Ok s
  | _ => Err tt
  end.

#[local] Instance text_domain : ValueDomain string unit := {
  value_eq := String.eqb;
  value_eq_literal v l :=
    match l with SingleQuotedString s => String.eqb v s | _ => false end;
  value_partial_cmp l r := Some (str_cmp l r);
  value_partial_cmp_literal v l :=
    match l with SingleQuotedString s => Some (str_cmp v s) | _ => None end;
  value_as_str v := Some v;
  value_add l r := Ok (String.append l r);
  value_subtract _ _ := Err tt;
  value_multiply _ _ := Err tt;
  value_divide _ _ := Err tt;
  value_clone_by := text_clone_by;
}.

#[local] Instance text_laws : ValueDomainLaws string unit.
Proof.
  split; simpl; [apply String.eqb_sym|].
  intros a b. f_equal. apply str_cmp_reverse.
Qed.

(** ** A domain with a value that is not equal to itself *)

Inductive flt := Finite (z : Z) | NaN.

Definition flt_eq (a b : flt) : bool :=
  match a, b with Finite x, Finite y => Z.eqb x y | _, _ => false end.

Definition flt_cmp (a b : flt) : option Ordering :=
  match a, b with Finite x, Finite y => Some (Z.compare x y) | _, _ => None end.

Definition flt_of_literal (l : AstValue) : outcome unit flt :=
  match l with
  | Number s => from_option (λ z, Ok (Finite z)) (Err tt) (parse_i64 s)
  | _ => Err tt
  end.

Definition flt_op (f : Z → Z → Z) (a b : flt) : flt :=
  match a, b with Finite x, Finite y => Finite (f x y) | _, _ => NaN end.

Definition flt_div (a b : flt) : flt :=
  match a, b with
  | Finite x, Finite y => if Z.eqb y 0 then NaN else Finite (Z.quot x y)
  | _, _ => NaN
  end.

#[local] Instance flt_domain : ValueDomain flt unit := {
  value_eq := flt_eq;
  value_eq_literal v l :=
    match flt_of_literal l with Ok w => flt_eq v w | _ => false end;
  value_partial_cmp := flt_cmp;
  value_partial_cmp_literal v l :=
    match flt_of_literal l with Ok w => flt_cmp v w | _ => None end;
  value_as_str _ := None;
  value_add a b := Ok (flt_op Z.add a b);
  value_subtract a b := Ok (flt_op Z.sub a b);
  value_multiply a b := Ok (flt_op Z.mul a b);
  value_divide a b := Ok (flt_div a b);
  value_clone_by _ := flt_of_literal;
}.

#[local] Instance flt_laws : ValueDomainLaws flt unit.
Proof.
  split; intros [x|] [y|]; simpl; try done; [apply Z.eqb_sym|].
  f_equal. apply Z_compare_reverse.
Qed.

(** ** An expression for each representation *)

(** An expression of the sample instance whose result has the
    representation [k]: a leaf for each borrow, a sum for each owned
    value. *)
Definition sample (k : kind) : expr Data.Value :=
  match k with
  | KLiteralRef => Lit (Number "1")
  | KLiteral => Bin Add (Lit (Number "1")) (Lit (Number "2"))
  | KStringRef => Text "a"
  | KValueRef => Col (I64 1)
  | KValue => Bin Add (Col (I64 1)) (Lit (Number "2"))
  end.

Section scenarios.
Context (p : profile).

#[local] Abbreviation E := (Evaluated Data.Value).
#[local] Abbreviation num s := (LiteralRef (V:=Data.Value) (Number s)).

(** ** Equality and order *)

Example scenario_literal_equality :
  eq (num "3") (num "3") = Ok true ∧ eq (num "3") (num "4") = Ok false.
Proof. done. Qed.

Example scenario_string_literal :
  eq (StringRef "abc" : E) (LiteralRef (SingleQuotedString "abc")) = Ok true ∧
  eq (StringRef "abc" : E) (num "5") = Ok false.
Proof. done. Qed.

Example scenario_order :
  partial_cmp (num "2") (num "5") = Ok (Some Less) ∧
  partial_cmp (num "5") (num "2") = Ok (Some Greater).
Proof. done. Qed.

Example scenario_number_text :
  partial_cmp (num "5") (ValueRef (Str "abc")) = Ok None ∧
  partial_cmp (Value (Str "abc")) (num "5") = Ok None.
Proof. done. Qed.

(** Booleans and null: a boolean is equal to the literal of its truth
    value and not ordered against it; null is equal to no literal. *)
Example scenario_boolean_null :
  eq (ValueRef (Bool true)) (LiteralRef (Boolean true)) = Ok true ∧
  partial_cmp (ValueRef (Bool true)) (LiteralRef (Boolean false)) = Ok None ∧
  eq (ValueRef Empty) (LiteralRef Null) = Ok false ∧
  eq (LiteralRef Null : E) (LiteralRef Null) = Ok true.
Proof. done. Qed.

(** ** Arithmetic *)

(** On the literals [2] and [3] the four operators return the owned
    literals [5], [-1], [6] and [0]: the quotient is truncated toward
    zero. *)
Example scenario_literal_arithmetic :
  add p (num "2") (num "3") = Ok (Literal (Number "5")) ∧
  subtract p (num "2") (num "3") = Ok (Literal (Number "-1")) ∧
  multiply p (num "2") (num "3") = Ok (Literal (Number "6")) ∧
  divide (num "2") (num "3") = Ok (Literal (Number "0")).
Proof. by destruct p. Qed.

(** Division by zero: two literals panic, in both orders of ownership;
    with a typed operand on either side the typed domain is asked and its
    error is returned. *)
Example scenario_divide_by_zero :
  divide (num "1") (num "0") = Panic ∧
  divide (Literal (Number "1") : E) (Literal (Number "0")) = Panic ∧
  divide (ValueRef (I64 1)) (num "0")
    = Err (ValueErr DivisorShouldNotBeZero) ∧
  divide (num "1") (ValueRef (I64 0))
    = Err (ValueErr DivisorShouldNotBeZero) ∧
  divide (ValueRef (I64 1)) (Value (I64 0))
    = Err (ValueErr DivisorShouldNotBeZero).
Proof. done. Qed.

Example scenario_string_operand :
  add p (StringRef "1" : E) (num "1") = unreachable ∧
  multiply p (ValueRef (I64 1)) (StringRef "1") = unreachable.
Proof. done. Qed.

(** The expression [1 + 2 * 3] on three literals: the product is the
    owned literal [6], the sum is the owned literal [7], and every
    intermediate result is a literal, so that no value of the typed domain
    is built. *)
Example scenario_expression :
  multiply p (num "2") (num "3") = Ok (Literal (Number "6")) ∧
  (m ← multiply p (num "2") (num "3"); add p (num "1") m)
    = Ok (Literal (Number "7")).
Proof. by destruct p. Qed.

Example scenario_mixed_expression :
  (m ← multiply p (num "2") (ValueRef (I64 3)); add p (num "1") m)
    = Ok (Value (I64 7)).
Proof. done. Qed.

(** ** Expressions *)

(** [1 + 2 * 3] as an expression tree: the evaluator returns the owned
    literal [7], the expression is of literals alone and well typed. *)
Example scenario_tree :
  let e := Bin Add (Lit (Number "1")) (Bin Mul (Lit (Number "2")) (Lit (Number "3"))) in
  eval (V:=Data.Value) p e = Ok (Literal (Number "7")) ∧
  literal_only e = true ∧ type_of e = Some TInt.
Proof. by destruct p. Qed.

(** A condition on a column: [x + 1 <= 6] with [x = 5] holds; with the
    literal [5] in the place of [x] the comparison panics. *)
Example scenario_condition :
  check p CmpLe (Bin Add (Col (I64 5)) (Lit (Number "1"))) (Lit (Number "6"))
    = Ok true ∧
  check (V:=Data.Value) p CmpLe
    (Bin Add (Lit (Number "5")) (Lit (Number "1"))) (Lit (Number "6")) = Panic.
Proof. by destruct p. Qed.

End scenarios.

(** ** The pairs the code calls unreachable are reached *)

(** Every pair of representations is the pair of the results of two
    expressions, and a condition on the two panics exactly when the
    operator cannot be applied to the pair.  So each arm of [eq] and of
    [partial_cmp] that panics is reached by a condition the evaluator of
    the specification can be given: the invariant that the specification
    asks of it (section 4.1) is not one its control flow (section 2)
    provides. *)
Theorem every_pair_reached (q : profile) (c : cmp_op) (ka kb : kind) :
  (∃ a, eval q (sample ka) = Ok a ∧ kind_of a = ka) ∧
  (check q c (sample ka) (sample kb) = Panic ↔ test_unreachable c ka kb).
Proof.
  split; [destruct q, ka; by eexists|].
  rewrite <-(bool_decide_spec (test_unreachable c ka kb)).
  by destruct q, c, ka, kb.
Qed.

(** ** The order of the operands of [add] *)

(** With a literal on the left of a typed value, [add] gives the
    operands to the typed domain in the opposite order: in the domain
    [text_domain], where addition is concatenation, ['s' + t] evaluates to
    [t ++ s], where the dispatch scheme gives [s ++ t] (for instance
    ['a' + "b"] is ["ba"]).  Commutativity of the domain's addition is
    needed for [add] to implement the scheme. *)
Theorem add_operand_order_observable (q : profile) (s t : string) :
  @add _ _ text_domain q (LiteralRef (SingleQuotedString s)) (ValueRef t)
    = Ok (Value (t ++ s)) ∧
  @arith_spec _ _ text_domain q Add (LiteralRef (SingleQuotedString s))
    (ValueRef t) = Ok (Value (s ++ t)) ∧
  @add _ _ text_domain q (ValueRef s) (LiteralRef (SingleQuotedString t))
    = Ok (Value (s ++ t)).
Proof. done. Qed.

(** ** A value that is not equal to itself *)

(** In [flt_domain] a typed value need not be equal to itself, and a
    division by a typed zero returns: what a zero divisor does is for the
    typed domain to say.  [eq] is still symmetric, and [<] the dual of [>]. *)
Example scenario_nan :
  @eq _ _ flt_domain (ValueRef NaN) (ValueRef NaN) = Ok false ∧
  @partial_cmp _ _ flt_domain (ValueRef NaN) (ValueRef NaN) = Ok None ∧
  @divide _ _ flt_domain (ValueRef (Finite 1)) (LiteralRef (Number "0"))
    = Ok (Value NaN).
Proof. done. Qed.

Example scenario_nan_symmetric (a b : Evaluated flt) :
  @eq _ _ flt_domain a b = @eq _ _ flt_domain b a ∧
  @lt _ _ flt_domain a b = @gt _ _ flt_domain b a.
Proof. split; [apply eq_flip|apply order_flip, is_lt_reverse]. Qed.
